(** * webcrawler: the per-item crawl pipeline and the analysis poller

    A shallow embedding of the parts of the crawler that decide how one
    result item is gated, downloaded, hashed and recorded
    ([downloader.py], [datoidCrawler.py], [dbManager.py]) and of the
    VirusTotal polling loop ([testFile.py], [worker.py]).
    Further sections model the connection pool and the set-up of a crawl
    job ([dbManager.py]), the hash file ([hashManager.py]), the page
    loop of the crawler, the choice of the crawler ([crawlerType.py]) and
    the upload of a sample ([testFile.py]).

    Python values are modelled as follows.
    - [str] is [string]; a character is a code point below 256.
    - An exception is a value [exn] carrying its class and its message;
      code that can raise returns a [result]. Only classes that derive
      from [Exception] occur: an interrupt of the interpreter
      ([KeyboardInterrupt], [SystemExit]) is not a behaviour of the
      browser, the network, the disk or the database.
    - [float] is an IEEE 754 binary64 value, [spec_float].
    - Everything the program does not control (the browser, the HTTP
      transport, faults of the file system and of the database server) is
      an explicit environment record whose fields say how each external
      call answers.
    - Logging, and the progress reports of the crawler
      ([update_task_state], which swallows its own exceptions), have no
      effect on the values traced here and are left out. *)

From Stdlib Require Import ZArith SpecFloat Ascii String DecimalString DecimalNat.
From stdpp Require Import gmap strings list fin_maps.

(** ** Exceptions *)

Module Exc.

(** The exception classes that occur in the modelled code, builtin,
    third-party and those of [exceptions.py]. *)
Inductive cls :=
| Exception            (* any class not listed below *)
| ValueError | KeyError | IndexError | AttributeError | TypeError
| ZeroDivisionError
| OSError              (* = IOError *)
| TimeoutError         (* builtin, a subclass of OSError *)
| BadZipFile           (* zipfile.BadZipFile *)
| RequestException     (* requests.exceptions; derives from IOError *)
| RequestsTimeout      (* requests.exceptions.Timeout *)
| HTTPError            (* requests.exceptions.HTTPError *)
| TimeoutException     (* selenium.common.exceptions *)
| PyodbcError          (* pyodbc.Error *)
| PyodbcIntegrityError (* pyodbc.IntegrityError *)
| DatabaseConnectionError | DatabaseInsertError | DatabaseQueryError
| DownloadIOError | DownloadFileTooLargeError
| VirusTotalAPIError.

#[export] Instance cls_eq_dec : EqDecision cls.
Proof. solve_decision. Defined.

(** Direct base class; [Exception] is the root. *)
Definition base (c : cls) : option cls :=
  match c with
  | Exception => None
  | TimeoutError => Some OSError
  | RequestException => Some OSError
  | RequestsTimeout => Some RequestException
  | HTTPError => Some RequestException
  | PyodbcIntegrityError => Some PyodbcError
  | _ => Some Exception
  end.

Fixpoint subclass_fuel (n : nat) (c d : cls) : bool :=
  bool_decide (c = d) ||
  match n with
  | O => false
  | S n' => match base c with
            | Some b => subclass_fuel n' b d
            | None => false
            end
  end.

(** [issubclass(c, d)]; the hierarchy above is three levels deep. *)
Definition subclass (c d : cls) : bool := subclass_fuel 3 c d.

(** An exception object: its class, the message [str(e)] gives, and the
    attributes [file_size] and [max_size] that
    [DownloadFileTooLargeError] stores on itself. *)
Record exn := MkExn {
  exn_cls : cls;
  exn_msg : string;
  exn_size : option (string * spec_float)
}.

Definition Exn (c : cls) (msg : string) : exn := MkExn c msg None.

Definition isinstance (e : exn) (c : cls) : bool := subclass (exn_cls e) c.

(** [str(e)] *)
Definition str (e : exn) : string := exn_msg e.

End Exc.
Export Exc.

(** ** Results of code that may raise *)

Inductive result (A : Type) :=
| Ok (a : A)
| Raise (e : exn).
Arguments Ok {A} a.
Arguments Raise {A} e.

#[export] Instance result_ret : MRet result := fun A a => Ok a.
#[export] Instance result_bind : MBind result := fun A B k r =>
  match r with
  | Ok a => k a
  | Raise e => Raise e
  end.

(** [try: body except c: handler] for one [except] clause. *)
Definition try_except {A} (body : result A) (c : cls) (handler : exn -> result A)
  : result A :=
  match body with
  | Raise e => if isinstance e c then handler e else Raise e
  | r => r
  end.

(** ** Python strings and lists *)

Module Py.

(** [sub in s] *)
Fixpoint str_in (sub s : string) : bool :=
  String.prefix sub s ||
  match s with
  | EmptyString => false
  | String _ s' => str_in sub s'
  end.

Definition code (c : ascii) : N := N_of_ascii c.

(** [c.isdecimal()]: below 256 only the ASCII digits. *)
Definition isdecimal (c : ascii) : bool :=
  (48 <=? code c)%N && (code c <=? 57)%N.

(** [c.isdigit()]: the decimal digits and, below 256, the superscript
    digits U+00B2, U+00B3 and U+00B9. *)
Definition isdigit (c : ascii) : bool :=
  isdecimal c || (code c =? 178)%N || (code c =? 179)%N || (code c =? 185)%N.

(** [c.isspace()] below 256. *)
Definition isspace (c : ascii) : bool :=
  (9 <=? code c)%N && (code c <=? 13)%N ||
  (28 <=? code c)%N && (code c <=? 32)%N ||
  (code c =? 133)%N || (code c =? 160)%N.

Fixpoint str_filter (p : ascii -> bool) (s : string) : string :=
  match s with
  | EmptyString => EmptyString
  | String c s' => if p c then String c (str_filter p s') else str_filter p s'
  end.

Fixpoint lstrip_by (p : ascii -> bool) (s : string) : string :=
  match s with
  | EmptyString => EmptyString
  | String c s' => if p c then lstrip_by p s' else s
  end.

Definition rstrip_by (p : ascii -> bool) (s : string) : string :=
  String.rev (lstrip_by p (String.rev s)).

Definition strip_by (p : ascii -> bool) (s : string) : string :=
  rstrip_by p (lstrip_by p s).

(** [s.strip()] *)
Definition strip (s : string) : string := strip_by isspace s.

(** [s.strip(chars)] *)
Definition strip_chars (chars s : string) : string :=
  strip_by (fun c => str_in (String c EmptyString) chars) s.

(** Drop the first [n] characters. *)
Fixpoint drop_str (n : nat) (s : string) : string :=
  match n, s with
  | O, _ => s
  | S n', String _ s' => drop_str n' s'
  | S _, EmptyString => EmptyString
  end.

(** [s.split(sep)] for a non-empty separator: [cur] holds, reversed, the
    characters of the piece being read; [skip] counts the characters of
    a separator just matched that are still to be passed over. *)
Fixpoint split_go (sep : string) (skip : nat) (cur : string) (s : string)
  : list string :=
  match s with
  | EmptyString => [String.rev cur]
  | String c s' =>
      match skip with
      | S k => split_go sep k cur s'
      | O =>
          if String.prefix sep s
          then String.rev cur :: split_go sep (String.length sep - 1) EmptyString s'
          else split_go sep O (String c cur) s'
      end
  end.

Definition split (sep s : string) : list string := split_go sep 0 EmptyString s.

(** The line feed character as a string. *)
Definition LF : string := String (ascii_of_nat 10) EmptyString.

(** [bool(s)] for an optional string: [None] and the empty string are
    false. *)
Definition truthy (o : option string) : bool :=
  match o with
  | None => false
  | Some s => negb (String.eqb s EmptyString)
  end.

(** [l[i]] with Python's negative indices; out of range raises
    [IndexError]. *)
Definition index {A} (l : list A) (i : Z) : result A :=
  let n := Z.of_nat (length l) in
  let j := (if i <? 0 then n + i else i)%Z in
  if (j <? 0)%Z || (n <=? j)%Z
  then Raise (Exn IndexError "list index out of range")
  else match l !! Z.to_nat j with
       | Some x => Ok x
       | None => Raise (Exn IndexError "list index out of range")
       end.

(** [str(n)] for a natural number and for an integer. *)
Definition str_of_nat (n : nat) : string :=
  NilEmpty.string_of_uint (Nat.to_uint n).

Definition str_of_Z (z : Z) : string :=
  if (z <? 0)%Z then "-" +:+ str_of_nat (Z.abs_nat z) else str_of_nat (Z.abs_nat z).

End Py.

(** ** Floats *)

Module Float.

Definition prec : Z := 53.
Definition emax : Z := 1024.

(** The binary64 value nearest to [n / d] (ties to even), for [0 <= n]
    and [0 < d]; a quotient too large to represent gives infinity. *)
Definition of_ratio (n d : Z) : spec_float :=
  match n with
  | Z0 => S754_zero false
  | Zpos _ =>
      let '(mz, ez, lz) := SFdiv_core_binary prec emax n 0 d 0 in
      binary_round_aux prec emax false mz ez lz
  | Zneg _ => S754_nan
  end.

(** Value of a string of ASCII digits; [None] on any other character. *)
Fixpoint digits_value (acc : Z) (s : string) : option Z :=
  match s with
  | EmptyString => Some acc
  | String c s' =>
      if Py.isdecimal c
      then digits_value (10 * acc + (Z.of_N (Py.code c) - 48))%Z s'
      else None
  end.

(** The text before the first ['.'] and, when there is one, after it. *)
Fixpoint cut_dot (s : string) : string * option string :=
  match s with
  | EmptyString => (EmptyString, None)
  | String c s' =>
      if Ascii.eqb c "."
      then (EmptyString, Some s')
      else let '(a, b) := cut_dot s' in (String c a, b)
  end.

(** [float(s)] for the strings that reach it in this program, made of
    [isdigit] characters and dots only: [digits], [digits.],
    [digits.digits] and [.digits] are numbers, correctly rounded;
    everything else (no digit at all, a second dot, a superscript
    digit) is a [ValueError], here [None]. *)
Definition of_str (s : string) : option spec_float :=
  let '(ip, fp) := cut_dot s in
  let fp := default EmptyString fp in
  if (String.length ip + String.length fp =? 0)%nat then None
  else
    match digits_value 0 (ip +:+ fp) with
    | Some n => Some (of_ratio n (10 ^ Z.of_nat (String.length fp)))
    | None => None
    end.

(** [a > b] *)
Definition gt (a b : spec_float) : bool := SFltb b a.

(** [a <= b] *)
Definition le (a b : spec_float) : bool := SFleb a b.

End Float.

(** ** Configuration ([config.py]) *)

Record Settings := {
  max_file_size_mb : spec_float;
  selenium_timeout : Z;
  vt_analysis_check_interval : Z;
  vt_max_wait_time : Z
}.

(** ** The downloader ([downloader.py]) *)

Module Downloader.

(** *** The size gate *)

Section SizeGate.
(** [repr] of a float, as the f-string of the error message prints
    [max_size]. *)
Variable repr_float : spec_float -> string.

(** [DownloadFileTooLargeError(file_size, max_size)] *)
Definition too_large (file_size : string) (max_size : spec_float) : exn :=
  MkExn DownloadFileTooLargeError
    ("File size " +:+ file_size +:+ " exceeds maximum allowed size of "
       +:+ repr_float max_size +:+ " MB")
    (Some (file_size, max_size)).

(** The characters of [file_size] that are digits or dots, joined. *)
Definition numeric_part (file_size : string) : string :=
  Py.str_filter (fun c => Py.isdigit c || Ascii.eqb c ".") file_size.

Definition validate_file_size (st : Settings) (file_size : string) : result bool :=
  if Py.str_in "GB" file_size then
    Raise (too_large file_size (max_file_size_mb st))
  else if Py.str_in "MB" file_size then
    let size_str := numeric_part file_size in
    match Float.of_str size_str with
    | Some size =>
        if Float.gt size (max_file_size_mb st)
        then Raise (too_large file_size (max_file_size_mb st))
        else Ok true
    | None => Ok true   (* except ValueError *)
    end
  else Ok true.
End SizeGate.

(** *** File names *)

(** A response as far as the downloader reads it: the status code and
    the headers, keyed by lower-cased name as [requests] compares
    them. *)
Record Response := {
  status_code : Z;
  headers : gmap string string
}.

(** [response.raise_for_status()]: 4xx and 5xx raise [HTTPError]. *)
Definition raise_for_status (r : Response) : result unit :=
  if (400 <=? status_code r)%Z && (status_code r <? 600)%Z
  then Raise (Exn HTTPError "HTTP error status")
  else Ok tt.

Definition QUOTES : string :=
  String (ascii_of_nat 34) (String (ascii_of_nat 39) EmptyString).

Section FileName.
(** [mimetypes.guess_extension] *)
Variable guess_extension : string -> option string.

Definition _get_file_extension (response : Response) : string :=
  match headers response !! "content-type" with
  | Some content_type =>
      if Py.truthy (Some content_type)
      then default EmptyString (guess_extension content_type)
      else EmptyString
  | None => EmptyString
  end.

Definition name_from_url (response : Response) (url : string) : string :=
  let filename := default EmptyString (last (Py.split "/" url)) in
  if negb (Py.str_in "." filename)
  then
    let extension := _get_file_extension response in
    filename +:+ (if Py.truthy (Some extension) then extension else EmptyString)
  else filename.

Definition _get_file_name (response : Response) (url : string) : string :=
  match headers response !! "content-disposition" with
  | Some content_disposition =>
      if Py.truthy (Some content_disposition)
         && Py.str_in "filename=" content_disposition
      then Py.strip_chars QUOTES
             (default EmptyString (last (Py.split "filename=" content_disposition)))
      else name_from_url response url
  | None => name_from_url response url
  end.
End FileName.

(** [s.rfind(c)]: the last position of [c], or -1. *)
Fixpoint rfind_go (c : ascii) (i : Z) (found : Z) (s : string) : Z :=
  match s with
  | EmptyString => found
  | String a s' => rfind_go c (i + 1) (if Ascii.eqb a c then i else found) s'
  end.
Definition rfind (c : ascii) (s : string) : Z := rfind_go c 0 (-1) s.

Definition all_dots (s : string) : bool :=
  String.eqb (Py.str_filter (fun c => negb (Ascii.eqb c ".")) s) EmptyString.

(** [os.path.splitext(p)[0]] with ["/"] as the separator: the extension
    starts at the last dot of the last component, unless only dots
    precede it there. *)
Definition splitext_root (p : string) : string :=
  let sepIndex := rfind "/" p in
  let dotIndex := rfind "." p in
  if (sepIndex <? dotIndex)%Z
     && negb (all_dots (substring (Z.to_nat (sepIndex + 1))
                                  (Z.to_nat (dotIndex - sepIndex - 1)) p))
  then substring 0 (Z.to_nat dotIndex) p
  else p.

(** [os.path.basename(p)] with ["/"] as the separator. *)
Definition basename (p : string) : string :=
  Py.drop_str (Z.to_nat (rfind "/" p + 1)) p.

(** The file system as the downloader sees it: the set of paths that
    exist. *)
Abbreviation FS := (gset string).

(** [folder / name]; paths are plain strings and joining does not
    normalise them. *)
Definition path_join (folder name : string) : string :=
  folder +:+ "/" +:+ name.

(** The name tried after [counter - 1] collisions. *)
Definition candidate (folder base_name : string) (counter : nat) : string :=
  path_join folder (base_name +:+ "(" +:+ Py.str_of_nat counter +:+ ")" +:+ ".zip").

(** The [while file_path.exists()] loop, run for at most [fuel]
    iterations; [None] when the fuel runs out first. *)
Fixpoint unique_loop (fuel : nat) (fs : FS) (folder base_name : string)
         (counter : nat) (file_path : string) : option string :=
  if bool_decide (file_path ∈ fs) then
    match fuel with
    | O => None
    | S fuel' =>
        unique_loop fuel' fs folder base_name (S counter)
                    (candidate folder base_name counter)
    end
  else Some file_path.

(** One more iteration than there are files always suffices (see
    [unique_loop_terminates]). *)
Definition _get_unique_file_path (fs : FS) (folder filename : string)
  : option string :=
  let base_name := splitext_root filename in
  unique_loop (S (size fs)) fs folder base_name 1
              (path_join folder (base_name +:+ ".zip")).

(** *** Downloading *)

(** How the world answers during one call of [download_file]. Each
    [option exn] says whether that operation raises. The response is a
    finite sequence of chunks, and [file_path.exists()] is answered from
    the set of existing paths. *)
Record Env := {
  get_response : result Response;  (* requests.get(url, stream=True, timeout=..) *)
  archive_open : option exn;       (* zipfile.ZipFile(file_path, "w", ..) *)
  member_open : option exn;        (* zipf.open(file_name, "w") *)
  chunks : list string;            (* what response.iter_content yields *)
  stream_end : option exn;         (* iter_content raises after the last chunk *)
  write_fault : nat -> option exn; (* the i-th zip_file.write(chunk), from 0 *)
  member_close : option exn;       (* leaving the inner with block *)
  archive_close : option exn;      (* leaving the outer with block *)
  unlink_fault : option exn        (* file_path.unlink() *)
}.

(** [requests.get]; Python's [None] as the URL is rejected by
    [requests] itself with a [RequestException]. *)
Definition requests_get (env : Env) (url : option string) : result Response :=
  match url with
  | None => Raise (Exn RequestException "Invalid URL 'None': No scheme supplied")
  | Some _ => get_response env
  end.

(** Leaving a [with] block runs the exit of its context manager, which
    may raise and then replaces whatever the body did. *)
Definition with_exit {A} (body : result A) (exit_fault : option exn) : result A :=
  match exit_fault with
  | Some e => Raise e
  | None => body
  end.

(** The [for chunk in response.iter_content(..)] loop: [i] counts the
    writes made, [downloaded_size] the bytes written. *)
Fixpoint write_chunks (env : Env) (i : nat) (downloaded_size : Z)
         (cs : list string) : result Z :=
  match cs with
  | [] => match stream_end env with
          | Some e => Raise e
          | None => Ok downloaded_size
          end
  | chunk :: cs' =>
      if Py.truthy (Some chunk) then
        match write_fault env i with
        | Some e => Raise e
        | None => write_chunks env (S i)
                    (downloaded_size + Z.of_nat (String.length chunk)) cs'
        end
      else write_chunks env i downloaded_size cs'
  end.

(** The two nested [with] blocks. Opening the archive creates the file
    at [file_path]. *)
Definition write_archive (env : Env) (file_path : string) (fs : FS)
  : result Z * FS :=
  match archive_open env with
  | Some e => (Raise e, fs)
  | None =>
      let body :=
        match member_open env with
        | Some e => Raise e
        | None => with_exit (write_chunks env 0 0 (chunks env)) (member_close env)
        end in
      (with_exit body (archive_close env), {[file_path]} ∪ fs)
  end.

Abbreviation Triple := (string * option string * bool)%type.

(** What [except (OSError, IOError, zipfile.BadZipFile)] catches;
    [IOError] is [OSError]. *)
Definition is_file_error (e : exn) : bool :=
  isinstance e OSError || isinstance e BadZipFile.


(** The inner [try] with that [except] clause. *)
Definition save_as_zip (env : Env) (file_path : string) (fs : FS)
  : result Triple * FS :=
  let '(r, fs1) := write_archive env file_path fs in
  match r with
  | Ok _ => (Ok ("File successfully downloaded", Some file_path, false), fs1)
  | Raise file_error =>
      if is_file_error file_error then
        let error_msg := "File write error: " +:+ str file_error in
        if bool_decide (file_path ∈ fs1) then
          match unlink_fault env with
          | Some e => (Raise e, fs1)
          | None => (Raise (Exn DownloadIOError error_msg), fs1 ∖ {[file_path]})
          end
        else (Raise (Exn DownloadIOError error_msg), fs1)
      else (Raise file_error, fs1)
  end.

(** The body of the outer [try]. [None] stands for a run that never
    leaves the [while] loop of [_get_unique_file_path]. *)
Definition download_body (guess_extension : string -> option string)
           (folder : string) (env : Env) (url : option string) (fs : FS)
  : option (result Triple * FS) :=
  match requests_get env url with
  | Raise e => Some (Raise e, fs)
  | Ok response =>
      match raise_for_status response with
      | Raise e => Some (Raise e, fs)
      | Ok _ =>
          let file_name :=
            _get_file_name guess_extension response (default EmptyString url) in
          file_path ← _get_unique_file_path fs folder file_name;
          Some (save_as_zip env file_path fs)
      end
  end.

(** The [except] clauses of the outer [try], in their order. *)
Definition outer_handlers (r : result Triple) : result Triple :=
  match r with
  | Ok t => Ok t
  | Raise e =>
      if isinstance e RequestsTimeout then
        Ok ("Download timeout: " +:+ str e, None, true)
      else if isinstance e RequestException then
        Ok ("Download request failed: " +:+ str e, None, true)
      else if isinstance e DownloadIOError then
        Ok (str e, None, true)
      else if isinstance e Exception then
        Ok ("Unexpected download error: " +:+ str e, None, true)
      else Raise e
  end.

Definition download_file (guess_extension : string -> option string)
           (folder : string) (env : Env) (url : option string) (fs : FS)
  : option (result Triple * FS) :=
  '(r, fs') ← download_body guess_extension folder env url fs;
  Some (outer_handlers r, fs').

End Downloader.

(** ** The database manager ([dbManager.py]) *)

Module DBManager.

(** A name-keyed lookup table ([WebDriver], [Device], [Crawler],
    [Hash]): its value column, whether that column carries a unique
    constraint, its rows [(id, value)] in insertion order and the next
    identity value. The schema is not among the sources, so whether a
    column is unique is left to each table. *)
Record Table := {
  column : string;
  unique : bool;
  rows : list (Z * string);
  next_id : Z
}.

Record CrackRow := {
  crack_id : Z;
  crack_title : option string;
  crack_size : option string;
  crack_extension : option string;
  crack_zipfile : option string;
  crack_job : Z;
  crack_hash : option Z
}.

Record ErrorRow := {
  error_id : Z;
  error_message : string;
  error_crack : Z
}.

Record Database := {
  tables : gmap string Table;
  cracks : list CrackRow;
  next_crack : Z;
  errors : list ErrorRow;
  next_error : Z
}.

(** What can go wrong, from outside, during one call into the manager:
    connecting, the n-th statement of the call ([execute] or [commit],
    counted from 0), and another session that commits a row with value
    [v] into the table the call works on, after the call's first
    [SELECT] and before its [INSERT]. *)
Record Fault := {
  connect_fault : option exn;
  execute_fault : nat -> option exn;
  rival : option string
}.

Definition no_fault : Fault :=
  {| connect_fault := None; execute_fault := fun _ => None; rival := None |}.

Definition stmt {A} (f : Fault) (n : nat) (r : result A) : result A :=
  match execute_fault f n with
  | Some e => Raise e
  | None => r
  end.

(** The rows of [t] that hold [value], in table order. *)
Definition matching (value : string) (t : Table) : list (Z * string) :=
  filter (fun r => r.2 = value) (rows t).

Definition has_value (value : string) (t : Table) : bool :=
  negb (bool_decide (matching value t = [])).

(** [SELECT {table}ID FROM {table} WHERE {column} = ?] followed by
    [fetchone()]: the id of the first row with that value. *)
Definition sql_select (table col value : string) (db : Database)
  : result (option Z) :=
  match tables db !! table with
  | None => Raise (Exn PyodbcError "Invalid object name")
  | Some t =>
      if String.eqb col (column t)
      then Ok (fst <$> head (matching value t))
      else Raise (Exn PyodbcError "Invalid column name")
  end.

Definition add_row (value : string) (t : Table) : Table :=
  {| column := column t; unique := unique t;
     rows := rows t ++ [(next_id t, value)];
     next_id := (next_id t + 1)%Z |}.

Definition set_table (table : string) (t : Table) (db : Database) : Database :=
  {| tables := <[table := t]> (tables db);
     cracks := cracks db; next_crack := next_crack db;
     errors := errors db; next_error := next_error db |}.

(** [INSERT INTO {table} ({column}) VALUES (?)] *)
Definition sql_insert (table col value : string) (db : Database)
  : result Database :=
  match tables db !! table with
  | None => Raise (Exn PyodbcError "Invalid object name")
  | Some t =>
      if String.eqb col (column t) then
        if unique t && has_value value t
        then Raise (Exn PyodbcIntegrityError "Violation of UNIQUE KEY constraint")
        else Ok (set_table table (add_row value t) db)
      else Raise (Exn PyodbcError "Invalid column name")
  end.

(** The other session's insert; when it fails nothing changes. *)
Definition rival_commits (f : Fault) (table col : string) (db : Database)
  : Database :=
  match rival f with
  | Some v => match sql_insert table col v db with
              | Ok db' => db'
              | Raise _ => db
              end
  | None => db
  end.

(** [ConnectionPool.get_connection] around a [with] body. The generator
    wraps both the connect and the [yield] in one [try], so a
    [pyodbc.Error] raised by the body is thrown back into it and leaves
    as [DatabaseConnectionError]. Which pooled connection serves the
    call does not change what the statements do. *)
Definition reraise_pool {A} (e : exn) : result A :=
  if isinstance e PyodbcError
  then Raise (Exn DatabaseConnectionError ("Failed to connect to database: " +:+ str e))
  else Raise e.

Definition get_connection {A} (f : Fault) (db : Database)
           (body : result A * Database) : result A * Database :=
  match connect_fault f with
  | Some e => (reraise_pool e, db)
  | None =>
      match body with
      | (Raise e, db') => (reraise_pool e, db')
      | ok => ok
      end
  end.

(** The statements of [_get_or_create] inside its [with] block. An
    insert that is not committed leaves no row. *)
Definition get_or_create_body (f : Fault) (table col value : string)
           (db : Database) : result Z * Database :=
  match stmt f 0 (sql_select table col value db) with
  | Raise e => (Raise e, db)
  | Ok (Some id) => (Ok id, db)
  | Ok None =>
      let db1 := rival_commits f table col db in
      match stmt f 1 (sql_insert table col value db1) with
      | Raise e => (Raise e, db1)
      | Ok db2 =>
          match execute_fault f 2 with
          | Some e => (Raise e, db1)
          | None =>
              match stmt f 3 (sql_select table col value db2) with
              | Raise e => (Raise e, db2)
              | Ok (Some id) => (Ok id, db2)
              | Ok None =>
                  (Raise (Exn DatabaseInsertError
                            ("Failed to retrieve new " +:+ table +:+ " ID")), db2)
              end
          end
      end
  end.

Definition _get_or_create (f : Fault) (table col value : string)
           (db : Database) : result Z * Database :=
  let '(r, db') := get_connection f db (get_or_create_body f table col value db) in
  (try_except r PyodbcError
     (fun e => Raise (Exn DatabaseQueryError
                        ("Failed to get or create " +:+ table +:+ ": " +:+ str e))),
   db').

Definition insert_hash (f : Fault) (hash_value : string) (db : Database)
  : result Z * Database :=
  let '(r, db') := _get_or_create f "Hash" "Hash" hash_value db in
  (try_except r Exception (fun e => Raise e), db').

Definition add_crack (job_id : Z) (title size extension zipfile : option string)
           (hash_id : option Z) (db : Database) : Database :=
  {| tables := tables db;
     cracks := cracks db ++
               [ {| crack_id := next_crack db; crack_title := title;
                    crack_size := size; crack_extension := extension;
                    crack_zipfile := zipfile; crack_job := job_id;
                    crack_hash := hash_id |} ];
     next_crack := (next_crack db + 1)%Z;
     errors := errors db; next_error := next_error db |}.

(** [insert_crack]: statement 0 is the [INSERT .. OUTPUT], statement 1
    the commit. *)
Definition insert_crack (f : Fault) (job_id : Z)
           (title size extension zipfile : option string) (hash_id : option Z)
           (db : Database) : result Z * Database :=
  let body :=
    match execute_fault f 0, execute_fault f 1 with
    | Some e, _ => (Raise e, db)
    | None, Some e => (Raise e, db)
    | None, None =>
        (Ok (next_crack db), add_crack job_id title size extension zipfile hash_id db)
    end in
  let '(r, db') := get_connection f db body in
  let failed e := Raise (Exn DatabaseInsertError ("Failed to create Crack: " +:+ str e)) in
  (try_except (try_except r PyodbcIntegrityError failed) PyodbcError failed, db').

Definition add_error (message : string) (crack : Z) (db : Database) : Database :=
  {| tables := tables db; cracks := cracks db; next_crack := next_crack db;
     errors := errors db ++
               [ {| error_id := next_error db; error_message := message;
                    error_crack := crack |} ];
     next_error := (next_error db + 1)%Z |}.

(** [insert_error]: as [insert_crack], but its own [except] clauses
    return [None]. *)
Definition insert_error (f : Fault) (error_message : string) (crack : Z)
           (db : Database) : result (option Z) * Database :=
  let body :=
    match execute_fault f 0, execute_fault f 1 with
    | Some e, _ => (Raise e, db)
    | None, Some e => (Raise e, db)
    | None, None => (Ok (Some (next_error db)), add_error error_message crack db)
    end in
  let '(r, db') := get_connection f db body in
  (try_except (try_except r PyodbcIntegrityError (fun _ => Ok None))
              PyodbcError (fun _ => Ok None), db').

End DBManager.

(** ** The Datoid crawler ([datoidCrawler.py]) *)

Module DatoidCrawler.

Definition UNKNOWN : string * string * string := ("Unknown", "Unknown", "Unknown").

(** The list comprehension of [get_parsed_file_info]. *)
Definition cleared_lines (file_info : string) : list string :=
  Py.strip <$> filter (fun item => Py.truthy (Some (Py.strip item)) = true)
                      (Py.split Py.LF file_info).

(** The [try] body of [get_parsed_file_info]; [None] is Python's
    [None], which has no [split]. *)
Definition parse_body (file_info : option string)
  : result (string * string * string) :=
  match file_info with
  | None => Raise (Exn AttributeError "'NoneType' object has no attribute 'split'")
  | Some text =>
      let cleared_data := cleared_lines text in
      extension ← Py.index cleared_data 0;
      size ← Py.index cleared_data (-2);
      title ← Py.index cleared_data (-1);
      Ok (title, extension, size)
  end.

Definition get_parsed_file_info (file_info : option string)
  : result (string * string * string) :=
  try_except (parse_body file_info) Exception (fun _ => Ok UNKNOWN).

(** *** One item of [crawl_page] *)

(** How the browser, the download and the database answer while one
    item is processed. A browser step that raises does so with the
    exception given. *)
Record ItemEnv := {
  text_attr : result (option string);  (* item.get_attribute("text") *)
  href_attr : result (option string);  (* item.get_attribute("href") *)
  open_detail : result unit;           (* execute_script("window.open(..)") *)
  switch_detail : result unit;         (* switch_to.window(window_handles[1]) *)
  click_download : result unit;        (* wait for a.btn-download.detail-download, click *)
  click_final : result unit;           (* wait for a.download, click *)
  wait_link : result unit;             (* wait for a.link-to-file *)
  link_href : result (option string);  (* its href *)
  download_env : Downloader.Env;
  sha256 : option string;              (* calculate_sha256: digest, or None *)
  hash_fault : DBManager.Fault;        (* during insert_hash *)
  crack_fault : DBManager.Fault;       (* during insert_crack *)
  error_fault : DBManager.Fault        (* during each insert_error *)
}.

(** The local variables of one loop iteration. [download_exception]
    starts as [None], which is as false as [False]. *)
Record Locals := {
  file_title : option string;
  file_extension : option string;
  file_size : option string;
  download_exception : bool;
  size_exception : option string;
  timeout_exception : option string;
  download_info : option string;
  download_path : option string;
  hash_value : option string
}.

Definition fresh : Locals :=
  {| file_title := None; file_extension := None; file_size := None;
     download_exception := false; size_exception := None;
     timeout_exception := None; download_info := None;
     download_path := None; hash_value := None |}.

(** What the [try] body can leave in the locals: no timeout message
    yet; when it ended with an exception, nothing but the parsed
    fields; when it ended without one, at most one of the size message
    and the download flag, and a path only from a download that did not
    fail. *)
Definition try_invariant (l : Locals) (raised : option exn) : Prop :=
  timeout_exception l = None /\
  (is_Some raised ->
   download_exception l = false /\ size_exception l = None /\
   download_path l = None /\ hash_value l = None) /\
  (is_Some (size_exception l) ->
   download_exception l = false /\ download_path l = None /\ hash_value l = None) /\
  (download_exception l = true -> download_path l = None /\ hash_value l = None) /\
  (download_path l = None -> hash_value l = None).

(** The calls the save step makes, with what [insert_hash] and
    [insert_crack] answered. *)
Inductive Call :=
| CallInsertHash (hash_value : string) (answer : result Z)
| CallInsertCrack (title size extension zipfile : option string)
                  (hash_id : option Z) (answer : result Z)
| CallInsertError (message : option string) (crack : Z).

Definition is_error_call (c : Call) : bool :=
  match c with CallInsertError _ _ => true | _ => false end.

(** [f"{x}"] for a string or [None]. *)
Definition fmt (o : option string) : string := default "None" o.

Section Item.
Variable repr_float : spec_float -> string.
Variable guess_extension : string -> option string.
Variable st : Settings.
Variable folder : string.   (* the downloader's folder *)
Variable job_id : Z.        (* DBManager.job_id *)
Variable env : ItemEnv.

(** From opening the detail page to reading the final link. *)
Definition resolve_link : result (option string) :=
  _ ← href_attr env;
  _ ← open_detail env;
  _ ← switch_detail env;
  _ ← click_download env;
  _ ← click_final env;
  _ ← wait_link env;
  link_href env.

(** The body of the per-item [try]: the locals and the files as they
    are when it ends, and the exception it ends with, if any.
    Leaving through [continue] is an end without exception. After
    [download_file] has returned nothing can raise: [close_window],
    [update_task_state], [calculate_sha256] and [save_hashes] all catch
    what they meet, and [save_hashes] only writes its own JSON file. *)
Definition item_try (fs : gset string)
  : option (Locals * gset string * option exn) :=
  match text_attr env with
  | Raise e => Some (fresh, fs, Some e)
  | Ok file_info =>
      match get_parsed_file_info file_info with
      | Raise e => Some (fresh, fs, Some e)
      | Ok (title, extension, size) =>
          let l1 := {| file_title := Some title; file_extension := Some extension;
                       file_size := Some size;
                       download_exception := false; size_exception := None;
                       timeout_exception := None; download_info := None;
                       download_path := None; hash_value := None |} in
          match Downloader.validate_file_size repr_float st size with
          | Raise e =>
              if isinstance e DownloadFileTooLargeError then
                (* size_exception = str(e); continue *)
                Some ({| file_title := file_title l1;
                         file_extension := file_extension l1;
                         file_size := file_size l1;
                         download_exception := false;
                         size_exception := Some (str e);
                         timeout_exception := None; download_info := None;
                         download_path := None; hash_value := None |}, fs, None)
              else Some (l1, fs, Some e)
          | Ok _ =>
              match resolve_link with
              | Raise e => Some (l1, fs, Some e)
              | Ok download_link =>
                  '(r, fs') ← Downloader.download_file guess_extension folder
                                (download_env env) download_link fs;
                  match r with
                  | Raise e => Some (l1, fs', Some e)
                  | Ok (info, path, failed) =>
                      Some ({| file_title := file_title l1;
                               file_extension := file_extension l1;
                               file_size := file_size l1;
                               download_exception := failed;
                               size_exception := None;
                               timeout_exception := None;
                               download_info := Some info;
                               download_path := path;
                               hash_value :=
                                 if bool_decide (is_Some path)
                                 then sha256 env else None |}, fs', None)
                  end
              end
          end
      end
  end.

(** The [except] clauses of the per-item [try]: a selenium timeout
    sets [timeout_exception]; any other exception only closes the
    detail window. *)
Definition item_except (l : Locals) (raised : option exn) : Locals :=
  match raised with
  | Some e =>
      if isinstance e TimeoutException then
        {| file_title := file_title l; file_extension := file_extension l;
           file_size := file_size l;
           download_exception := download_exception l;
           size_exception := size_exception l;
           timeout_exception :=
             Some ("Timeout downloading file: " +:+ fmt (file_title l));
           download_info := download_info l;
           download_path := download_path l; hash_value := hash_value l |}
      else l
  | None => l
  end.

(** The inserts of errors, in the order of the three [if]s. Every
    [insert_error] here runs under the same [error_fault]; one that
    raises ends the save step. *)
Fixpoint insert_errors (msgs : list (option string)) (crack : Z)
         (db : DBManager.Database)
  : list Call * DBManager.Database :=
  match msgs with
  | [] => ([], db)
  | m :: rest =>
      match DBManager.insert_error (error_fault env) (fmt m) crack db with
      | (Raise _, db') => ([CallInsertError m crack], db')
      | (Ok _, db') =>
          let '(calls, db'') := insert_errors rest crack db' in
          (CallInsertError m crack :: calls, db'')
      end
  end.

(** The messages of the failures that happened, in the order of the
    three [if]s of the save step. *)
Definition failure_messages (l : Locals) : list (option string) :=
  (if download_exception l then [download_info l] else []) ++
  (if Py.truthy (timeout_exception l) then [timeout_exception l] else []) ++
  (if Py.truthy (size_exception l) then [size_exception l] else []).

(** [insert_crack] with the given archive name and hash id, then the
    inserts of errors. *)
Definition save_crack (l : Locals) (zipfile : option string) (hash_id : option Z)
           (db : DBManager.Database) : list Call * DBManager.Database :=
  let '(r, db1) :=
    DBManager.insert_crack (crack_fault env) job_id (file_title l)
      (file_size l) (file_extension l) zipfile hash_id db in
  let call := CallInsertCrack (file_title l) (file_size l)
                (file_extension l) zipfile hash_id r in
  match r with
  | Raise _ => ([call], db1)
  | Ok db_crack_id =>
      let '(calls, db2) := insert_errors (failure_messages l) db_crack_id db1 in
      (call :: calls, db2)
  end.

(** The [finally] clause. Whatever is raised inside it is caught and
    logged by its own [except Exception], which ends the save. *)
Definition save (l : Locals) (db : DBManager.Database)
  : list Call * DBManager.Database :=
  match download_path l with
  | Some path =>
      if Py.truthy (hash_value l) then
        let h := fmt (hash_value l) in
        let '(r, db0) := DBManager.insert_hash (hash_fault env) h db in
        match r with
        | Raise _ => ([CallInsertHash h r], db0)
        | Ok db_hash_id =>
            let '(calls, db1) :=
              save_crack l (Some (Downloader.basename path)) (Some db_hash_id) db0 in
            (CallInsertHash h r :: calls, db1)
        end
      else save_crack l None None db
  | None => save_crack l None None db
  end.

(** The row [insert_crack] writes for the item. *)
Definition crack_row (id : Z) (l : Locals) (zipfile : option string)
           (hash_id : option Z) : DBManager.CrackRow :=
  {| DBManager.crack_id := id; DBManager.crack_title := file_title l;
     DBManager.crack_size := file_size l;
     DBManager.crack_extension := file_extension l;
     DBManager.crack_zipfile := zipfile; DBManager.crack_job := job_id;
     DBManager.crack_hash := hash_id |}.

(** What one item leaves behind. *)
Record ItemRun := {
  locals : Locals;           (* as the save step reads them *)
  raised : option exn;       (* what ended the try body *)
  calls : list Call;
  files : gset string;
  database : DBManager.Database
}.

Definition crawl_item (fs : gset string) (db : DBManager.Database)
  : option ItemRun :=
  '(l, fs', raised) ← item_try fs;
  let l' := item_except l raised in
  let '(calls, db') := save l' db in
  Some {| locals := l'; raised := raised; calls := calls;
          files := fs'; database := db' |}.
End Item.

(** *** The page loop *)

(** The [for] loop of [crawl_page]: the items in order, each on the
    files and the database the previous one left. Every iteration starts
    from fresh locals and nothing leaves an iteration as an exception. *)
Fixpoint crawl_items (repr_float : spec_float -> string)
         (guess_extension : string -> option string) (st : Settings)
         (folder : string) (job_id : Z) (items : list ItemEnv)
         (fs : gset string) (db : DBManager.Database) : option (list ItemRun) :=
  match items with
  | [] => Some []
  | item :: rest =>
      run ← crawl_item repr_float guess_extension st folder job_id item fs db;
      runs ← crawl_items repr_float guess_extension st folder job_id rest
               (files run) (database run);
      Some (run :: runs)
  end.

(** [crawl_page]: waiting for the entries and finding them may raise,
    which the function logs and raises again. *)
Definition crawl_page (repr_float : spec_float -> string)
           (guess_extension : string -> option string) (st : Settings)
           (folder : string) (job_id : Z)
           (wait_items : result unit) (find_elements : result (list ItemEnv))
           (fs : gset string) (db : DBManager.Database)
  : option (result (list ItemRun)) :=
  match wait_items with
  | Raise e => Some (Raise e)
  | Ok _ =>
      match find_elements with
      | Raise e => Some (Raise e)
      | Ok items =>
          runs ← crawl_items repr_float guess_extension st folder job_id items fs db;
          Some (Ok runs)
      end
  end.

End DatoidCrawler.

(** ** The VirusTotal client ([testFile.py]) *)

Module TestFile.

(** Parsed JSON, as [response.json()] returns it. *)
#[local] Unset Elimination Schemes.
Inductive json :=
| JNull
| JBool (b : bool)
| JNum (n : Z)
| JStr (s : string)
| JArr (items : list json)
| JObj (fields : list (string * json)).
#[local] Set Elimination Schemes.

(** [bool(v)] *)
Definition truthy (v : json) : bool :=
  match v with
  | JNull => false
  | JBool b => b
  | JNum n => negb (n =? 0)%Z
  | JStr s => negb (String.eqb s EmptyString)
  | JArr items => negb (bool_decide (items = []))
  | JObj fields => negb (bool_decide (fields = []))
  end.

Definition lookup_field (k : string) (fields : list (string * json)) : option json :=
  snd <$> find (fun kv => String.eqb kv.1 k) fields.

(** [v[k]] *)
Definition getitem (v : json) (k : string) : result json :=
  match v with
  | JObj fields =>
      match lookup_field k fields with
      | Some x => Ok x
      | None => Raise (Exn KeyError k)
      end
  | _ => Raise (Exn TypeError "indices must be integers or slices, not str")
  end.

Definition is_str (v : json) (s : string) : bool :=
  match v with
  | JStr t => String.eqb t s
  | _ => false
  end.

(** The answer to one status request. *)
Record Response := {
  status_code : Z;
  body : result json   (* response.json() *)
}.

(** [response.raise_for_status()] *)
Definition raise_for_status (r : Response) : result unit :=
  if (400 <=? status_code r)%Z && (status_code r <? 600)%Z
  then Raise (Exn HTTPError "HTTP error status")
  else Ok tt.

(** The analysis database ([dbVTManager.py]) as the rows the save step
    adds. Its failures never leave [analyseFile]: a failed
    [insert_analysis] ends the save, a failed [insert_antivirus] only
    skips that row. *)
Record AnalysisRow := {
  analysis_id : Z;
  analysis_status : json;
  undetected : json;
  malicious : json;
  harmless : json;
  analysis_sha256 : json
}.

Record Store := {
  analyses : list AnalysisRow;
  antivirus : list (string * Z);     (* engine name, analysis id *)
  analysed : list (string * Z)       (* test id, analysis id *)
}.

Record StoreFault := {
  analysis_fault : bool;             (* insert_analysis raises *)
  antivirus_fault : string -> bool;  (* insert_antivirus fails for that engine *)
  update_fault : bool                (* update_sample fails *)
}.

(** The loop over [results.items()]: an engine whose entry is not an
    object ends the save ([false]); a failed insert skips the row. *)
Fixpoint save_engines (f : StoreFault) (id : Z) (results : list (string * json))
         (rows : list (string * Z)) : list (string * Z) * bool :=
  match results with
  | [] => (rows, true)
  | (engine_name, JObj _) :: rest =>
      save_engines f id rest
        (if antivirus_fault f engine_name then rows else rows ++ [(engine_name, id)])
  | _ :: _ => (rows, false)
  end.

(** The database part of [analyseFile], inside its own
    [try .. except Exception]. An object stands for a [dict], whose
    keys are distinct. *)
Definition save_analysis (f : StoreFault) (test_id : string)
           (status sha256 harmless malicious undetected attributes : json)
           (store : Store) : Store :=
  if analysis_fault f then store
  else
    let id := Z.of_nat (length (analyses store)) in
    let row := {| analysis_id := id; analysis_status := status;
                  undetected := undetected; malicious := malicious;
                  harmless := harmless; analysis_sha256 := sha256 |} in
    let results :=
      match attributes with
      | JObj fields =>
          match lookup_field "results" fields with
          | Some (JObj results) => Some results
          | Some _ => None
          | None => Some []
          end
      | _ => None
      end in
    match results with
    | None =>
        {| analyses := analyses store ++ [row];
           antivirus := antivirus store; analysed := analysed store |}
    | Some results =>
        let '(rows, finished) := save_engines f id results (antivirus store) in
        {| analyses := analyses store ++ [row];
           antivirus := rows;
           analysed := if finished && negb (update_fault f)
                       then analysed store ++ [(test_id, id)]
                       else analysed store |}
    end.

(** The part of [analyseFile] after [raise_for_status], inside the
    outer [try]. *)
Definition read_analysis (f : StoreFault) (test_id : string) (response : Response)
           (store : Store) : result (option json) * Store :=
  match body response with
  | Raise e => (Raise e, store)
  | Ok data =>
      let extracted :=
        d ← getitem data "data";
        attributes ← getitem d "attributes";
        m ← getitem data "meta";
        meta ← getitem m "file_info";
        sha256 ← getitem meta "sha256";
        status ← getitem attributes "status";
        stats ← getitem attributes "stats";
        harmless ← getitem stats "harmless";
        malicious ← getitem stats "malicious";
        undetected ← getitem stats "undetected";
        Ok (attributes, sha256, status, harmless, malicious, undetected) in
      match extracted with
      | Ok (attributes, sha256, status, harmless, malicious, undetected) =>
          if negb (is_str status "completed") then (Ok None, store)
          else (Ok (Some data),
                save_analysis f test_id status sha256 harmless malicious
                              undetected attributes store)
      | Raise e =>
          (try_except (Raise e) KeyError
             (fun e => Raise (Exn VirusTotalAPIError
                                ("Unexpected API response format: " +:+ str e))),
           store)
      end
  end.

(** The [except] clauses of the outer [try] of [analyseFile], in their
    order: a timeout of the request counts as not ready. *)
Definition status_handlers (r : result (option json)) : result (option json) :=
  match r with
  | Ok v => Ok v
  | Raise e =>
      if isinstance e RequestsTimeout then Ok None
      else if isinstance e RequestException then
        Raise (Exn VirusTotalAPIError ("VirusTotal API request failed: " +:+ str e))
      else if isinstance e Exception then
        Raise (Exn VirusTotalAPIError ("Unexpected error checking analysis: " +:+ str e))
      else Raise e
  end.

(** [analyseFile(test_id)], given how the status request answers. *)
Definition analyseFile (f : StoreFault) (test_id : string)
           (answer : result Response) (store : Store)
  : result (option json) * Store :=
  let '(r, store') :=
    match answer with
    | Raise e => (Raise e, store)
    | Ok response =>
        if (status_code response =? 429)%Z then (Ok None, store)
        else
          match raise_for_status response with
          | Raise e => (Raise e, store)
          | Ok _ => read_analysis f test_id response store
          end
    end in
  (status_handlers r, store').

End TestFile.

(** ** The analysis task ([worker.py]) *)

Module Worker.
Import TestFile.

(** How the scanner and the task queue answer: the upload, the i-th
    status request, and whether the n-th call of [self.update_state]
    raises (the task does not guard these calls). *)
Record Env := {
  upload : result string;            (* testFile(file_name, byte_data) *)
  answers : nat -> result Response;
  update_state : nat -> option exn;
  store_fault : StoreFault
}.

(** [time.sleep(seconds)] refuses a negative length. *)
Definition sleep (seconds : Z) : result unit :=
  if (seconds <? 0)%Z then Raise (Exn ValueError "sleep length must be non-negative")
  else Ok tt.

(** [a // b] *)
Definition floordiv (a b : Z) : result Z :=
  if (b =? 0)%Z then Raise (Exn ZeroDivisionError "integer division or modulo by zero")
  else Ok (a / b)%Z.

(** [bool(data)] for what [analyseFile] returned. *)
Definition ready (data : option json) : bool :=
  match data with
  | Some v => truthy v
  | None => false
  end.

(** A run of the task: how it ended, how many status checks it issued,
    how often it slept, and the analysis database afterwards. *)
Record Run := {
  outcome : result (option json);
  checks : nat;
  sleeps : nat;
  store : Store
}.

(** The [while not data and attempts < max_attempts] loop, for at most
    [fuel] iterations; [None] when the fuel runs out first. Two progress
    reports precede the loop and each sleep follows one more, so the
    report of an iteration is number [2 + sleeps]. *)
Fixpoint poll (env : Env) (interval max_attempts : Z) (test_id : string)
         (fuel : nat) (data : option json) (attempts : Z)
         (checks sleeps : nat) (store : Store) : option Run :=
  if negb (ready data) && (attempts <? max_attempts)%Z then
    match fuel with
    | O => None
    | S fuel' =>
        match analyseFile (store_fault env) test_id (answers env checks) store with
        | (Raise e, store') =>
            Some {| outcome := Raise e; checks := S checks;
                    sleeps := sleeps; store := store' |}
        | (Ok data', store') =>
            if negb (ready data') then
              match update_state env (2 + sleeps) with
              | Some e =>
                  Some {| outcome := Raise e; checks := S checks;
                          sleeps := sleeps; store := store' |}
              | None =>
                  match sleep interval with
                  | Raise e =>
                      Some {| outcome := Raise e; checks := S checks;
                              sleeps := sleeps; store := store' |}
                  | Ok _ =>
                      poll env interval max_attempts test_id fuel' data'
                           (attempts + 1)%Z (S checks) (S sleeps) store'
                  end
              end
            else
              poll env interval max_attempts test_id fuel' data'
                   attempts (S checks) sleeps store'
        end
    end
  else
    Some {| outcome := Ok data; checks := checks; sleeps := sleeps; store := store |}.

(** The part of [analyse_sample] from the computation of
    [max_attempts] on. *)
Definition wait_for_analysis (st : Settings) (env : Env) (test_id : string)
           (store0 : Store) : option Run :=
  match floordiv (vt_max_wait_time st) (vt_analysis_check_interval st) with
  | Raise e => Some {| outcome := Raise e; checks := 0; sleeps := 0; store := store0 |}
  | Ok max_attempts =>
      run ← poll env (vt_analysis_check_interval st) max_attempts test_id
                 (Z.to_nat max_attempts) None 0 0 0 store0;
      match outcome run with
      | Ok data =>
          if negb (ready data) then
            Some {| outcome :=
                      Raise (Exn TimeoutError
                               ("VirusTotal analysis timeout after "
                                  +:+ Py.str_of_Z max_attempts
                                  +:+ " attempts"));
                    checks := checks run; sleeps := sleeps run;
                    store := store run |}
          else
            match update_state env (2 + sleeps run) with
            | Some e =>
                Some {| outcome := Raise e; checks := checks run;
                        sleeps := sleeps run; store := store run |}
            | None => Some run
            end
      | Raise _ => Some run
      end
  end.

(** [analyse_sample]; its result is the data of the completed
    analysis. The outer [except Exception] logs and re-raises. *)
Definition analyse_sample (st : Settings) (env : Env) (store0 : Store)
  : option Run :=
  let failed e := Some {| outcome := Raise e; checks := 0; sleeps := 0; store := store0 |} in
  match update_state env 0 with
  | Some e => failed e
  | None =>
      match upload env with
      | Raise e => failed e
      | Ok test_id =>
          match update_state env 1 with
          | Some e => failed e
          | None => wait_for_analysis st env test_id store0
          end
      end
  end.

End Worker.

(** ** Concrete settings, environments and databases *)

Definition settings_20 : Settings :=
  {| max_file_size_mb := Float.of_ratio 20 1; selenium_timeout := 10;
     vt_analysis_check_interval := 10; vt_max_wait_time := 600 |}.

Definition repr_20 (_ : spec_float) : string := "20.0".


(** A database with an empty [Hash] table whose column is unique. *)
Definition hash_db : DBManager.Database :=
  {| DBManager.tables :=
       {[ "Hash" := {| DBManager.column := "Hash"; DBManager.unique := true;
                       DBManager.rows := []; DBManager.next_id := 1 |} ]};
     DBManager.cracks := []; DBManager.next_crack := 1;
     DBManager.errors := []; DBManager.next_error := 1 |}.

Definition hash_table : DBManager.Table :=
  {| DBManager.column := "Hash"; DBManager.unique := true;
     DBManager.rows := []; DBManager.next_id := 1 |}.

(** Another worker stores the same digest between this call's lookup and
    its insert. *)
Definition contended : DBManager.Fault :=
  {| DBManager.connect_fault := None;
     DBManager.execute_fault := fun _ => None;
     DBManager.rival := Some "ab12" |}.

(** A scanner that always answers 429. *)
Definition always_429 : Worker.Env :=
  {| Worker.upload := Ok "dGVzdA==";
     Worker.answers := fun _ =>
       Ok {| TestFile.status_code := 429;
             TestFile.body := Raise (Exn ValueError "Expecting value") |};
     Worker.update_state := fun _ => None;
     Worker.store_fault :=
       {| TestFile.analysis_fault := false;
          TestFile.antivirus_fault := fun _ => false;
          TestFile.update_fault := false |} |}.

Definition empty_store : TestFile.Store :=
  {| TestFile.analyses := []; TestFile.antivirus := []; TestFile.analysed := [] |}.

(** A budget of 35 seconds checked every 10 seconds: three attempts. *)
Definition settings_35_10 : Settings :=
  {| max_file_size_mb := Float.of_ratio 20 1; selenium_timeout := 10;
     vt_analysis_check_interval := 10; vt_max_wait_time := 35 |}.

(** A scanner that answers 429 once and then 503. *)
Definition limited_then_down : Worker.Env :=
  {| Worker.upload := Ok "dGVzdA==";
     Worker.answers := fun i =>
       Ok {| TestFile.status_code := if (i =? 0)%nat then 429 else 503;
             TestFile.body := Raise (Exn ValueError "Expecting value") |};
     Worker.update_state := fun _ => None;
     Worker.store_fault :=
       {| TestFile.analysis_fault := false;
          TestFile.antivirus_fault := fun _ => false;
          TestFile.update_fault := false |} |}.

(** An item of 15 MB whose download and hash succeed. *)
Definition good_download : Downloader.Env :=
  {| Downloader.get_response :=
       Ok {| Downloader.status_code := 200; Downloader.headers := ∅ |};
     Downloader.archive_open := None;
     Downloader.member_open := None;
     Downloader.chunks := ["ab"; "cd"];
     Downloader.stream_end := None;
     Downloader.write_fault := fun _ => None;
     Downloader.member_close := None;
     Downloader.archive_close := None;
     Downloader.unlink_fault := None |}.

Definition good_item : DatoidCrawler.ItemEnv :=
  {| DatoidCrawler.text_attr :=
       Ok (Some ("ZIP" +:+ Py.LF +:+ "15 MB" +:+ Py.LF +:+ "Some title"));
     DatoidCrawler.href_attr := Ok (Some "https://host/detail/1");
     DatoidCrawler.open_detail := Ok tt;
     DatoidCrawler.switch_detail := Ok tt;
     DatoidCrawler.click_download := Ok tt;
     DatoidCrawler.click_final := Ok tt;
     DatoidCrawler.wait_link := Ok tt;
     DatoidCrawler.link_href := Ok (Some "https://host/f/some.exe");
     DatoidCrawler.download_env := good_download;
     DatoidCrawler.sha256 := Some "ab12";
     DatoidCrawler.hash_fault := DBManager.no_fault;
     DatoidCrawler.crack_fault := DBManager.no_fault;
     DatoidCrawler.error_fault := DBManager.no_fault |}.

(** ** What the database manager keeps *)

(** A lookup table is well formed when its ids are distinct and below
    the next identity value and, if its column is unique, no value occurs
    twice. *)
Definition table_wf (t : DBManager.Table) : Prop :=
  NoDup (DBManager.rows t).*1 /\
  Forall (fun r => (r.1 < DBManager.next_id t)%Z) (DBManager.rows t) /\
  (DBManager.unique t = true -> NoDup (DBManager.rows t).*2).

(** The faults of a call all come from the driver: what connecting or a
    statement raises is a [pyodbc.Error]. *)
Definition driver_faults (f : DBManager.Fault) : Prop :=
  (forall e, DBManager.connect_fault f = Some e -> isinstance e PyodbcError = true) /\
  (forall n e, DBManager.execute_fault f n = Some e -> isinstance e PyodbcError = true).

(** The first statement of a call fails in the driver. *)
Definition first_statement_fails : DBManager.Fault :=
  {| DBManager.connect_fault := None;
     DBManager.execute_fault := fun n =>
       if (n =? 0)%nat then Some (Exn PyodbcError "Communication link failure") else None;
     DBManager.rival := None |}.

(** [db'] is [db] with the rows [new] appended to [table]: nothing else
    differs, no row was changed or removed, and a well-formed table stays
    well formed. A table that does not exist is not created. *)
Definition extends (table : string) (new : list (Z * string))
           (db db' : DBManager.Database) : Prop :=
  DBManager.cracks db' = DBManager.cracks db /\
  DBManager.next_crack db' = DBManager.next_crack db /\
  DBManager.errors db' = DBManager.errors db /\
  DBManager.next_error db' = DBManager.next_error db /\
  (forall other, other <> table ->
     DBManager.tables db' !! other = DBManager.tables db !! other) /\
  match DBManager.tables db !! table with
  | None => DBManager.tables db' !! table = None /\ new = []
  | Some t =>
      exists t', DBManager.tables db' !! table = Some t' /\
                 DBManager.column t' = DBManager.column t /\
                 DBManager.unique t' = DBManager.unique t /\
                 DBManager.rows t' = DBManager.rows t ++ new /\
                 (table_wf t -> table_wf t')
  end.

(** ** What a page leaves in the database *)

(** [db'] is [db] with the crack rows [added] and the error rows [errs]
    appended: the new cracks belong to the job, every new error refers
    to one of the new cracks, and of the lookup tables only [Hash] may
    differ. *)
Definition records (job_id : Z) (added : list DBManager.CrackRow)
           (errs : list DBManager.ErrorRow) (db db' : DBManager.Database) : Prop :=
  DBManager.cracks db' = DBManager.cracks db ++ added /\
  DBManager.errors db' = DBManager.errors db ++ errs /\
  Forall (fun c => DBManager.crack_job c = job_id) added /\
  Forall (fun er => exists c, c ∈ added /\
                              DBManager.error_crack er = DBManager.crack_id c) errs /\
  (forall table, table <> "Hash" ->
     DBManager.tables db' !! table = DBManager.tables db !! table).

(** The files and the database after the last item of a page. *)
Definition final_files (runs : list DatoidCrawler.ItemRun) (fs : gset string)
  : gset string :=
  default fs (DatoidCrawler.files <$> last runs).

Definition final_database (runs : list DatoidCrawler.ItemRun)
           (db : DBManager.Database) : DBManager.Database :=
  default db (DatoidCrawler.database <$> last runs).

(** ** The connection pool ([dbManager.py], [ConnectionPool]) *)

Module ConnectionPool.

(** The pool and the connections it has handed out. A connection is
    named by the number of [pyodbc.connect] calls that had succeeded when
    it was opened. *)
Record State := {
  pool_size : Z;
  _pool : list nat;      (* self._pool, in list order *)
  in_use : list nat;     (* yielded to a [with] body that has not ended *)
  closed : list nat;     (* conn.close() was called *)
  opened : nat           (* connections opened so far *)
}.

(** [ConnectionPool(connection_string, pool_size)] *)
Definition init (pool_size : Z) : State :=
  {| pool_size := pool_size; _pool := []; in_use := []; closed := []; opened := 0 |}.

(** The part of [get_connection] before the [yield], under the lock:
    [pop] takes the last connection of the list; with an empty list a new
    connection is opened, which may fail. *)
Definition enter (connect : option exn) (s : State) : result nat * State :=
  match reverse (_pool s) with
  | conn :: rest =>
      (Ok conn,
       {| pool_size := pool_size s; _pool := reverse rest;
          in_use := conn :: in_use s; closed := closed s; opened := opened s |})
  | [] =>
      match connect with
      | Some e => (DBManager.reraise_pool e, s)
      | None =>
          (Ok (opened s),
           {| pool_size := pool_size s; _pool := _pool s;
              in_use := opened s :: in_use s; closed := closed s;
              opened := S (opened s) |})
      end
  end.

(** The [finally] clause: the connection goes back to the list while
    that is shorter than [pool_size], and is closed otherwise. *)
Definition exit (conn : nat) (s : State) : State :=
  let still := filter (fun c => c <> conn) (in_use s) in
  if (Z.of_nat (length (_pool s)) <? pool_size s)%Z then
    {| pool_size := pool_size s; _pool := _pool s ++ [conn];
       in_use := still; closed := closed s; opened := opened s |}
  else
    {| pool_size := pool_size s; _pool := _pool s;
       in_use := still; closed := conn :: closed s; opened := opened s |}.

(** [with pool.get_connection() as conn: body]. What the body raises is
    thrown back into the generator. *)
Definition get_connection {A} (connect : option exn) (body : nat -> result A)
           (s : State) : result A * State :=
  match enter connect s with
  | (Raise e, s') => (Raise e, s')
  | (Ok conn, s1) =>
      (match body conn with
       | Raise e => DBManager.reraise_pool e
       | ok => ok
       end, exit conn s1)
  end.

(** Threads entering and leaving [with] blocks, in the order in which
    they take the lock. Only a connection that is in use can be given
    back. *)
Inductive Event :=
| Enter (connect : option exn)
| Exit (conn : nat).

Definition step (s : State) (ev : Event) : State :=
  match ev with
  | Enter connect => (enter connect s).2
  | Exit conn => if bool_decide (conn ∈ in_use s) then exit conn s else s
  end.

Definition run (events : list Event) (s : State) : State := foldl step s events.

(** One thread making one call after the other, as a crawler does;
    [calls] says for each call whether connecting would fail and how the
    body ends. *)
Definition sequential {A} (calls : list (option exn * result A)) (s : State) : State :=
  foldl (fun s call => (get_connection call.1 (fun _ => call.2) s).2) s calls.

(** Every connection opened is in exactly one place: idle in the list,
    in use, or closed; and the list is no longer than [pool_size]. *)
Definition invariant (s : State) : Prop :=
  (Z.of_nat (length (_pool s)) <= Z.max 0 (pool_size s))%Z /\
  NoDup (_pool s ++ in_use s ++ closed s) /\
  Forall (fun c => (c < opened s)%nat) (_pool s ++ in_use s ++ closed s) /\
  length (_pool s ++ in_use s ++ closed s) = opened s.

End ConnectionPool.

(** ** The hash file ([hashManager.py]) *)

Module HashManager.
Import TestFile.

(** What [HASH_FILE] holds: text that [json.load] accepts, as the value
    it parses to, or text that it rejects. *)
Inductive Content :=
| Json (v : json)
| Garbage.

(** How the file system answers during one call. A write that fails
    after the file was opened leaves behind whatever the environment
    says. *)
Record Env := {
  read_fault : option exn;              (* open(HASH_FILE, "r"), or reading, raises *)
  open_fault : option exn;              (* open(HASH_FILE, "w") raises *)
  dump_fault : option (exn * Content)   (* json.dump or closing the file raises *)
}.

Definition no_fault : Env :=
  {| read_fault := None; open_fault := None; dump_fault := None |}.

(** [json.load(f)] inside [with open(HASH_FILE, "r")]. *)
Definition json_load (env : Env) (c : Content) : result json :=
  match read_fault env with
  | Some e => Raise e
  | None =>
      match c with
      | Json v => Ok v
      | Garbage => Raise (Exn ValueError "Expecting value")   (* JSONDecodeError *)
      end
  end.

(** [hash_value] as the JSON value it is written as; [None] is
    [null]. *)
Definition of_hash (hash_value : option string) : json :=
  match hash_value with
  | Some s => JStr s
  | None => JNull
  end.

(** [d[k] = v] on a [dict]: an existing key keeps its place. *)
Fixpoint dict_set (k : string) (v : json) (fields : list (string * json))
  : list (string * json) :=
  match fields with
  | [] => [(k, v)]
  | (k', v') :: rest =>
      if String.eqb k' k then (k', v) :: rest else (k', v') :: dict_set k v rest
  end.

(** [data[file_name] = hash_value] *)
Definition setitem (data : json) (k : string) (v : json) : result json :=
  match data with
  | JObj fields => Ok (JObj (dict_set k v fields))
  | JArr _ => Raise (Exn TypeError "list indices must be integers or slices, not str")
  | _ => Raise (Exn TypeError "object does not support item assignment")
  end.

(** [save_hashes(file_name, hash_value)]: the value returned and the
    file afterwards; [None] is a file that does not exist. Both inner
    [except] clauses start from an empty [dict]; both outer ones return
    [False]. *)
Definition save_hashes (env : Env) (file_name : string) (hash_value : option string)
           (file : option Content) : bool * option Content :=
  let data :=
    match file with
    | None => JObj []
    | Some c =>
        match json_load env c with
        | Ok v => v
        | Raise _ => JObj []
        end
    end in
  match setitem data file_name (of_hash hash_value) with
  | Raise _ => (false, file)
  | Ok data' =>
      match open_fault env with
      | Some _ => (false, file)
      | None =>
          match dump_fault env with
          | Some (_, remains) => (false, Some remains)
          | None => (true, Some (Json data'))
          end
      end
  end.

(** [len(data)] for the log line of [load_hashes]. *)
Definition len (v : json) : result Z :=
  match v with
  | JObj fields => Ok (Z.of_nat (length fields))
  | JArr items => Ok (Z.of_nat (length items))
  | JStr s => Ok (Z.of_nat (String.length s))
  | _ => Raise (Exn TypeError "object has no len()")
  end.

(** [load_hashes()]: every exception gives an empty [dict]. *)
Definition load_hashes (env : Env) (file : option Content) : json :=
  match file with
  | None => JObj []
  | Some c =>
      match json_load env c with
      | Raise _ => JObj []
      | Ok data =>
          match len data with
          | Ok _ => data
          | Raise _ => JObj []
          end
      end
  end.

(** [get_hash(file_name)]: [hashes.get(file_name)], where a missing
    key gives [None], which is [null]. Only a [dict] has [get]. *)
Definition get_hash (env : Env) (file_name : string) (file : option Content)
  : result json :=
  match load_hashes env file with
  | JObj fields => Ok (default JNull (lookup_field file_name fields))
  | _ => Raise (Exn AttributeError "object has no attribute 'get'")
  end.

Definition is_none (v : json) : bool :=
  match v with JNull => true | _ => false end.

(** [hash_exists(file_name)] *)
Definition hash_exists (env : Env) (file_name : string) (file : option Content)
  : result bool :=
  v ← get_hash env file_name file;
  Ok (negb (is_none v)).

End HashManager.

(** ** The page loop of the crawler ([datoidCrawler.py], [crawl]) *)

Module DatoidPages.

(** [s.replace(old, new)] for one-character [old] and [new]. *)
Fixpoint replace_char (old new : ascii) (s : string) : string :=
  match s with
  | EmptyString => EmptyString
  | String c s' =>
      String (if Ascii.eqb c old then new else c) (replace_char old new s')
  end.

(** [format_url(url, text, index)]; the page counter of [crawl] starts
    at 1 and is never negative. *)
Definition format_url (url text : string) (index : nat) : string :=
  let formatted_text := replace_char " " "-" text in
  url +:+ "/s/" +:+ formatted_text +:+ "/" +:+ Py.str_of_nat index.

(** How the browser answers on one result page. *)
Record PageEnv := {
  driver_get : result unit;      (* self.driver.get(formatted_url) *)
  wait_items : result unit;      (* the wait for span.filename in crawl_page *)
  find_elements : result (list DatoidCrawler.ItemEnv);
  next_button : result unit      (* the wait for a.next.ajax *)
}.

(** [find_next_button()]: a selenium timeout means there is no further
    page; any other exception leaves the function. *)
Definition find_next_button (env : PageEnv) : result bool :=
  match next_button env with
  | Ok _ => Ok true
  | Raise e => if isinstance e TimeoutException then Ok false else Raise e
  end.

(** One pass of the [while True] loop, as the log records it: the page
    number, the address loaded and, when the page was crawled, what its
    items left. *)
Record Visit := {
  page_number : nat;
  formatted_url : string;
  page_runs : option (list DatoidCrawler.ItemRun)
}.

Section Crawl.
Variable repr_float : spec_float -> string.
Variable guess_extension : string -> option string.
Variable st : Settings.
Variable folder : string.
Variable job_id : Z.
Variable url keyword : string.       (* self.url, self.keyword *)
Variable pages : nat -> PageEnv.     (* the browser on page 1, 2, ... *)

(** The loop of [crawl], entered with [page] as it is before
    [page += 1], for at most [fuel] pages; [None] when the fuel runs out
    first. Every exception inside the loop ends it. *)
Fixpoint crawl_loop (fuel : nat) (page : nat) (fs : gset string)
         (db : DBManager.Database)
  : option (list Visit * gset string * DBManager.Database) :=
  match fuel with
  | O => None
  | S fuel' =>
      let page := S page in
      let formatted_url := format_url url keyword page in
      let env := pages page in
      let visit runs :=
        {| page_number := page; formatted_url := formatted_url; page_runs := runs |} in
      match driver_get env with
      | Raise _ => Some ([visit None], fs, db)
      | Ok _ =>
          r ← DatoidCrawler.crawl_page repr_float guess_extension st folder job_id
                (wait_items env) (find_elements env) fs db;
          match r with
          | Raise _ => Some ([visit None], fs, db)
          | Ok runs =>
              let fs' := final_files runs fs in
              let db' := final_database runs db in
              match find_next_button env with
              | Ok true =>
                  '(visits, fs'', db'') ← crawl_loop fuel' page fs' db';
                  Some (visit (Some runs) :: visits, fs'', db'')
              | _ => Some ([visit (Some runs)], fs', db')
              end
          end
      end
  end.

(** [crawl(task)]. The [finally] clause only closes the browser, and
    [close] keeps its own exceptions. *)
Definition crawl (fuel : nat) (fs : gset string) (db : DBManager.Database)
  : option (list Visit * gset string * DBManager.Database) :=
  crawl_loop fuel 0 fs db.
End Crawl.

(** A page after which the loop goes on: it loads, its items are found,
    and the button to the next page is there. *)
Definition continues (env : PageEnv) : bool :=
  match driver_get env, wait_items env, find_elements env, next_button env with
  | Ok _, Ok _, Ok _, Ok _ => true
  | _, _, _, _ => false
  end.

End DatoidPages.

(** ** Choosing the crawler ([crawlerType.py]) *)

Module CrawlerType.

(** The crawler classes: the one this repository has, and any other a
    caller registers. *)
Inductive crawler_class :=
| DatoidCrawlerClass
| OtherCrawler (name : string).

(** [CRAWLER_MAP] as the module creates it; a [dict] keeps its keys in
    insertion order. *)
Definition CRAWLER_MAP : list (string * crawler_class) :=
  [("https://datoid.cz", DatoidCrawlerClass); ("datoid.cz", DatoidCrawlerClass)].

(** [c.lower()] below 256: the ASCII capitals and the capitals of
    Latin-1 (U+00C0 to U+00DE without the multiplication sign). *)
Definition lower_char (c : ascii) : ascii :=
  let n := Py.code c in
  if ((65 <=? n) && (n <=? 90) || (192 <=? n) && (n <=? 222) && negb (n =? 215))%N
  then ascii_of_N (n + 32)
  else c.

Fixpoint lower (s : string) : string :=
  match s with
  | EmptyString => EmptyString
  | String c s' => String (lower_char c) (lower s')
  end.

(** [get_crawler(url)], with the map it reads: the first entry whose
    domain occurs in the normalised URL. *)
Definition get_crawler (crawler_map : list (string * crawler_class)) (url : string)
  : option crawler_class :=
  let url_lower := Py.strip (lower url) in
  snd <$> find (fun entry => Py.str_in entry.1 url_lower) crawler_map.

(** [register_crawler(domain, crawler_class)]: [CRAWLER_MAP[domain] =
    crawler_class]; a known domain keeps its place, a new one goes to the
    end. *)
Fixpoint register_crawler (domain : string) (c : crawler_class)
         (crawler_map : list (string * crawler_class))
  : list (string * crawler_class) :=
  match crawler_map with
  | [] => [(domain, c)]
  | (d, c') :: rest =>
      if String.eqb d domain then (d, c) :: rest
      else (d, c') :: register_crawler domain c rest
  end.

End CrawlerType.

(** ** Uploading a sample ([testFile.py], [testFile]) *)

Module Upload.
Import TestFile.

(** How the scanner answers the upload, and whether [insert_sample]
    fails (it raises or returns [None]; [testFile] ignores both). *)
Record Env := {
  post : result Response;    (* requests.post(VT_FILES_URL, ..) *)
  sample_fault : bool
}.

(** [VirusTotalRateLimitError(error_msg)]; the class derives from
    [Exception] through [VirusTotalException] only. *)
Definition rate_limited : exn := Exn Exception "VirusTotal API rate limit exceeded".

(** The [try] body of [testFile]; [samples] are the rows of the sample
    table, name and test id. *)
Definition upload_body (env : Env) (file_name : string) (samples : list (string * json))
  : result json * list (string * json) :=
  match post env with
  | Raise e => (Raise e, samples)
  | Ok response =>
      if (status_code response =? 429)%Z then (Raise rate_limited, samples)
      else
        match raise_for_status response with
        | Raise e => (Raise e, samples)
        | Ok _ =>
            match (data ← body response; d ← getitem data "data"; getitem d "id") with
            | Raise e => (Raise e, samples)
            | Ok test_id =>
                (Ok test_id,
                 if sample_fault env then samples else samples ++ [(file_name, test_id)])
            end
        end
  end.

(** The [except] clauses of [testFile], in their order. *)
Definition upload_handlers (r : result json) : result json :=
  match r with
  | Ok v => Ok v
  | Raise e =>
      if isinstance e RequestsTimeout then
        Raise (Exn VirusTotalAPIError "VirusTotal API request timeout")
      else if isinstance e RequestException then
        Raise (Exn VirusTotalAPIError ("VirusTotal API request failed: " +:+ str e))
      else if isinstance e KeyError then
        Raise (Exn VirusTotalAPIError ("Unexpected API response format: " +:+ str e))
      else if isinstance e Exception then
        Raise (Exn VirusTotalAPIError ("Unexpected error uploading file: " +:+ str e))
      else Raise e
  end.

Definition testFile (env : Env) (file_name : string) (samples : list (string * json))
  : result json * list (string * json) :=
  let '(r, samples') := upload_body env file_name samples in
  (upload_handlers r, samples').

End Upload.

(** ** Setting up a crawl job ([dbManager.py], [DBManager.__init__]) *)

Module DBInit.
Import DBManager.

(** A row of [CrawlJob]. *)
Record JobRow := {
  job_id : Z;
  job_keyword : string;
  job_crawler : Z;
  job_webdriver : Z;
  job_device : Z
}.

(** The lookup tables together with the [CrawlJob] table. *)
Record State := {
  lookup : Database;
  jobs : list JobRow;
  next_job : Z
}.

(** The faults met by the four calls of [__init__]. *)
Record Faults := {
  webdriver_fault : Fault;
  device_fault : Fault;
  crawler_fault : Fault;
  job_fault : Fault
}.

Definition no_faults : Faults :=
  {| webdriver_fault := no_fault; device_fault := no_fault;
     crawler_fault := no_fault; job_fault := no_fault |}.

Definition _insert_webdriver (f : Fault) (name : string) (db : Database)
  : result Z * Database :=
  _get_or_create f "WebDriver" "Name" name db.

Definition _insert_device (f : Fault) (name : string) (db : Database)
  : result Z * Database :=
  _get_or_create f "Device" "Name" name db.

Definition _insert_crawler (f : Fault) (url : string) (db : Database)
  : result Z * Database :=
  _get_or_create f "Crawler" "WebURL" url db.

(** [_insert_crawl_job]: statement 0 is the [INSERT .. OUTPUT],
    statement 1 the commit; the row is there once both went through. *)
Definition _insert_crawl_job (f : Fault) (keyword : string)
           (crawler_id web_driver_id device_id : Z) (s : State)
  : result Z * State :=
  let attempt : result Z :=
    match execute_fault f 0, execute_fault f 1 with
    | Some e, _ => Raise e
    | None, Some e => Raise e
    | None, None => Ok (next_job s)
    end in
  let r := (get_connection f (lookup s) (attempt, lookup s)).1 in
  let failed e :=
    Raise (Exn DatabaseInsertError ("Failed to create CrawlJob: " +:+ str e)) in
  (try_except (try_except r PyodbcIntegrityError failed) PyodbcError failed,
   match r with
   | Ok new_id =>
       {| lookup := lookup s;
          jobs := jobs s ++ [ {| job_id := new_id; job_keyword := keyword;
                                 job_crawler := crawler_id;
                                 job_webdriver := web_driver_id;
                                 job_device := device_id |} ];
          next_job := (next_job s + 1)%Z |}
   | Raise _ => s
   end).

Definition with_lookup (db : Database) (s : State) : State :=
  {| lookup := db; jobs := jobs s; next_job := next_job s |}.

(** [DBManager.__init__]: the ids it stores, in the order
    [webdriver_id], [device_id], [crawler_id], [job_id]. Its [except]
    clause logs and raises again. *)
Definition __init__ (fs : Faults) (url keyword driver device : string) (s : State)
  : result (Z * Z * Z * Z) * State :=
  let '(r1, db1) := _insert_webdriver (webdriver_fault fs) driver (lookup s) in
  match r1 with
  | Raise e => (Raise e, with_lookup db1 s)
  | Ok webdriver_id =>
      let '(r2, db2) := _insert_device (device_fault fs) device db1 in
      match r2 with
      | Raise e => (Raise e, with_lookup db2 s)
      | Ok device_id =>
          let '(r3, db3) := _insert_crawler (crawler_fault fs) url db2 in
          match r3 with
          | Raise e => (Raise e, with_lookup db3 s)
          | Ok crawler_id =>
              let '(r4, s4) :=
                _insert_crawl_job (job_fault fs) keyword crawler_id webdriver_id
                                  device_id (with_lookup db3 s) in
              match r4 with
              | Raise e => (Raise e, s4)
              | Ok job_id => (Ok (webdriver_id, device_id, crawler_id, job_id), s4)
              end
          end
      end
  end.

End DBInit.

(** A database with empty [WebDriver], [Device] and [Crawler] tables
    and no job. *)
Definition empty_lookup (col : string) : DBManager.Table :=
  {| DBManager.column := col; DBManager.unique := true;
     DBManager.rows := []; DBManager.next_id := 1 |}.

Definition fresh_state : DBInit.State :=
  {| DBInit.lookup :=
       {| DBManager.tables :=
            {[ "WebDriver" := empty_lookup "Name"; "Device" := empty_lookup "Name";
               "Crawler" := empty_lookup "WebURL" ]};
          DBManager.cracks := []; DBManager.next_crack := 1;
          DBManager.errors := []; DBManager.next_error := 1 |};
     DBInit.jobs := []; DBInit.next_job := 1 |}.

(** A budget of 5 seconds checked every 10 seconds: no attempt. *)
Definition settings_5_10 : Settings :=
  {| max_file_size_mb := Float.of_ratio 20 1; selenium_timeout := 10;
     vt_analysis_check_interval := 10; vt_max_wait_time := 5 |}.

(** A scanner that answers the upload with 429. *)
Definition upload_limited : Upload.Env :=
  {| Upload.post :=
       Ok {| TestFile.status_code := 429;
             TestFile.body := Raise (Exn ValueError "Expecting value") |};
     Upload.sample_fault := false |}.

(** A search with two result pages: one item on the first, none on the
    second, which has no button to a third. *)
Definition two_pages (page : nat) : DatoidPages.PageEnv :=
  if (page =? 1)%nat then
    {| DatoidPages.driver_get := Ok tt; DatoidPages.wait_items := Ok tt;
       DatoidPages.find_elements := Ok [good_item];
       DatoidPages.next_button := Ok tt |}
  else
    {| DatoidPages.driver_get := Ok tt; DatoidPages.wait_items := Ok tt;
       DatoidPages.find_elements := Ok [];
       DatoidPages.next_button := Raise (Exn TimeoutException "no such element") |}.

(** A site on which every page links to a next one. *)
Definition endless_pages (page : nat) : DatoidPages.PageEnv :=
  {| DatoidPages.driver_get := Ok tt; DatoidPages.wait_items := Ok tt;
     DatoidPages.find_elements := Ok [];
     DatoidPages.next_button := Ok tt |}.

(** ** Stripped strings *)

(** Every character of [s] satisfies [p]. *)
Fixpoint all_of (p : ascii -> bool) (s : string) : bool :=
  match s with
  | EmptyString => true
  | String c s' => p c && all_of p s'
  end.

(** [s] begins, or ends, with a character that satisfies [p]. *)
Definition starts_with (p : ascii -> bool) (s : string) : bool :=
  match s with
  | EmptyString => false
  | String c _ => p c
  end.

Definition ends_with (p : ascii -> bool) (s : string) : bool :=
  starts_with p (String.rev s).

(** The quote characters that [_get_file_name] strips. *)
Definition is_quote (c : ascii) : bool :=
  Py.str_in (String c EmptyString) Downloader.QUOTES.

(** A response that names the file, in quotes. *)
Definition quoted_name_response : Downloader.Response :=
  {| Downloader.status_code := 200;
     Downloader.headers :=
       {[ "content-disposition" :=
            "attachment; filename=" +:+ Downloader.QUOTES +:+ "report.pdf"
              +:+ String (ascii_of_nat 34) EmptyString ]} |}.

(** * Properties *)

(** ** Exceptions and floats *)

Lemma isinstance_Exception (e : exn) : isinstance e Exception = true.
Proof. destruct e as [c m a]; destruct c; reflexivity. Qed.

Lemma pos_compare_cont_Eq_antisym (p q : positive) :
  Pos.compare_cont Eq q p = CompOpp (Pos.compare_cont Eq p q).
Proof. apply (Pos.compare_antisym p q). Qed.

(** Comparison of floats is antisymmetric where it is defined. *)
Lemma SFcompare_antisym (a b : spec_float) :
  SFcompare b a = CompOpp <$> SFcompare a b.
Proof.
  destruct a as [sa|sa| |sa ma ea], b as [sb|sb| |sb mb eb]; simpl;
    try reflexivity;
    try (destruct sa; reflexivity); try (destruct sb; reflexivity);
    try (destruct sa, sb; reflexivity).
  f_equal. destruct sa, sb; try reflexivity.
  - rewrite (Z.compare_antisym ea eb).
    destruct (ea ?= eb)%Z eqn:E; simpl; try reflexivity.
    rewrite pos_compare_cont_Eq_antisym. reflexivity.
  - rewrite (Z.compare_antisym ea eb).
    destruct (ea ?= eb)%Z eqn:E; simpl; try reflexivity.
    apply pos_compare_cont_Eq_antisym.
Qed.

(** [a <= b] excludes [a > b]. *)
Lemma float_le_not_gt (a b : spec_float) :
  Float.le a b = true -> Float.gt a b = false.
Proof.
  unfold Float.le, Float.gt, SFleb, SFltb.
  rewrite (SFcompare_antisym a b).
  destruct (SFcompare a b) as [[]|]; simpl; congruence.
Qed.

(** ** The size gate *)

Section SizeGateProperties.
Import Downloader.
Variable repr_float : spec_float -> string.
Variable st : Settings.

Local Abbreviation validate := (validate_file_size repr_float st).
Local Abbreviation limit := (max_file_size_mb st).
Local Abbreviation rejected s := (Raise (too_large repr_float s limit)).

Lemma validate_gigabyte s :
  Py.str_in "GB" s = true -> validate s = rejected s.
Proof. intros H. unfold validate_file_size. rewrite H. reflexivity. Qed.

Lemma validate_megabyte s :
  Py.str_in "GB" s = false -> Py.str_in "MB" s = true ->
  validate s =
    match Float.of_str (numeric_part s) with
    | Some size => if Float.gt size limit then rejected s else Ok true
    | None => Ok true
    end.
Proof. intros Hg Hm. unfold validate_file_size. rewrite Hg, Hm. reflexivity. Qed.

Lemma validate_no_unit s :
  Py.str_in "GB" s = false -> Py.str_in "MB" s = false -> validate s = Ok true.
Proof. intros Hg Hm. unfold validate_file_size. rewrite Hg, Hm. reflexivity. Qed.

(** C2. A size string with a gigabyte marker is rejected whatever its
    number. A megabyte string (no gigabyte marker) whose number parses
    is rejected when the number exceeds the ceiling and accepted when it
    is at most the ceiling. Every rejection is a
    [DownloadFileTooLargeError] that carries the declared string and
    the ceiling. *)
Theorem validate_file_size_contract (s : string) :
  (Py.str_in "GB" s = true -> validate s = rejected s) /\
  (Py.str_in "MB" s = true ->
   forall size, Float.of_str (numeric_part s) = Some size ->
     Float.gt size limit = true -> validate s = rejected s) /\
  (Py.str_in "GB" s = false -> Py.str_in "MB" s = true ->
   forall size, Float.of_str (numeric_part s) = Some size ->
     Float.le size limit = true -> validate s = Ok true) /\
  exn_cls (too_large repr_float s limit) = DownloadFileTooLargeError /\
  exn_size (too_large repr_float s limit) = Some (s, limit).
Proof.
  split; [apply validate_gigabyte|].
  split.
  - intros Hm size Hsize Hgt.
    destruct (Py.str_in "GB" s) eqn:Hg; [by apply validate_gigabyte|].
    rewrite validate_megabyte, Hsize, Hgt; done.
  - split; [|done].
    intros Hg Hm size Hsize Hle.
    rewrite validate_megabyte, Hsize by done.
    by rewrite (float_le_not_gt _ _ Hle).
Qed.

(** C7, as the code has it. Without a gigabyte marker, a megabyte
    string whose numeric part does not parse is accepted, and so is a
    string with neither marker. *)
Theorem validate_file_size_fail_open (s : string) :
  Py.str_in "GB" s = false ->
  (Py.str_in "MB" s = true -> Float.of_str (numeric_part s) = None ->
   validate s = Ok true) /\
  (Py.str_in "MB" s = false -> validate s = Ok true).
Proof.
  intros Hg. split.
  - intros Hm Hnone. rewrite validate_megabyte, Hnone; done.
  - intros Hm. by apply validate_no_unit.
Qed.
End SizeGateProperties.

Example validate_15_MB :
  Downloader.validate_file_size repr_20 settings_20 "15 MB" = Ok true.
Proof. reflexivity. Qed.

Example validate_20_MB_rounding :
  Downloader.validate_file_size repr_20 settings_20 "20.000000000000001 MB" = Ok true.
Proof. reflexivity. Qed.

(** A superscript digit passes [isdigit] but is no number to [float]. *)
Example validate_superscript :
  Downloader.validate_file_size repr_20 settings_20
    ("5" +:+ String (ascii_of_nat 178) " MB") = Ok true.
Proof. reflexivity. Qed.

(** Every digit of the string counts, not only the leading number. *)
Example validate_all_digits :
  Downloader.numeric_part "1.5 MB (part 2)" = "1.52".
Proof. reflexivity. Qed.

Example validate_25_MB_message :
  Downloader.validate_file_size repr_20 settings_20 "25 MB" =
  Raise (MkExn DownloadFileTooLargeError
           "File size 25 MB exceeds maximum allowed size of 20.0 MB"
           (Some ("25 MB", max_file_size_mb settings_20))).
Proof. reflexivity. Qed.

Lemma validate_file_size_contract_witness :
  Downloader.validate_file_size repr_20 settings_20 "0.5 GB"
    = Raise (Downloader.too_large repr_20 "0.5 GB" (max_file_size_mb settings_20)) /\
  Downloader.validate_file_size repr_20 settings_20 "25.5 MB"
    = Raise (Downloader.too_large repr_20 "25.5 MB" (max_file_size_mb settings_20)) /\
  Downloader.validate_file_size repr_20 settings_20 "20 MB" = Ok true.
Proof.
  split; [|split].
  - apply (validate_file_size_contract repr_20 settings_20 "0.5 GB"). reflexivity.
  - apply (proj1 (proj2 (validate_file_size_contract repr_20 settings_20 "25.5 MB"))
             eq_refl (Float.of_ratio 255 10)); reflexivity.
  - apply (proj1 (proj2 (proj2 (validate_file_size_contract repr_20 settings_20 "20 MB")))
             eq_refl eq_refl (Float.of_ratio 20 1)); reflexivity.
Defined.

(** A string with both markers whose digits and dots do not make a
    number is rejected: the gigabyte test comes first. *)
Lemma validate_file_size_fail_open_counterexample :
  Py.str_in "MB" "1.5 GB (1536.0 MB)" = true /\
  Float.of_str (Downloader.numeric_part "1.5 GB (1536.0 MB)") = None /\
  Downloader.validate_file_size repr_20 settings_20 "1.5 GB (1536.0 MB)"
  = Raise (Downloader.too_large repr_20 "1.5 GB (1536.0 MB)"
             (max_file_size_mb settings_20)) /\
  Downloader.validate_file_size repr_20 settings_20 "1.5 GB (1536.0 MB)" <> Ok true.
Proof.
  split; [reflexivity|]. split; [reflexivity|]. split; [reflexivity|discriminate].
Qed.

Lemma validate_file_size_fail_open_witness :
  Downloader.validate_file_size repr_20 settings_20 "1.2.3 MB" = Ok true /\
  Downloader.validate_file_size repr_20 settings_20 "Unknown" = Ok true.
Proof.
  split.
  - apply (proj1 (validate_file_size_fail_open repr_20 settings_20 "1.2.3 MB" eq_refl));
      reflexivity.
  - apply (proj2 (validate_file_size_fail_open repr_20 settings_20 "Unknown" eq_refl));
      reflexivity.
Defined.

(** ** Parsing an item's text *)





Example get_parsed_file_info_typical :
  DatoidCrawler.get_parsed_file_info
    (Some ("  ZIP " +:+ Py.LF +:+ Py.LF +:+ " 15 MB" +:+ Py.LF +:+ "Some title" +:+ Py.LF))
  = Ok ("Some title", "ZIP", "15 MB").
Proof. reflexivity. Qed.

Example get_parsed_file_info_two_lines :
  DatoidCrawler.get_parsed_file_info (Some ("ZIP" +:+ Py.LF +:+ "Some title"))
  = Ok ("Some title", "ZIP", "ZIP").
Proof. reflexivity. Qed.

Example get_parsed_file_info_one_line :
  DatoidCrawler.get_parsed_file_info (Some "ZIP") = Ok DatoidCrawler.UNKNOWN.
Proof. reflexivity. Qed.

(** ** The downloader *)

Lemma string_length_app (a b : string) :
  String.length (a +:+ b) = (String.length a + String.length b)%nat.
Proof. induction a as [|c a IH]; simpl; [reflexivity|f_equal; exact IH]. Qed.

Lemma string_app_inj_r (a b t : string) : a +:+ t = b +:+ t -> a = b.
Proof.
  revert b. induction a as [|c a IH]; intros [|d b] H.
  - reflexivity.
  - exfalso. apply (f_equal String.length) in H.
    rewrite !string_length_app in H. simpl in H. lia.
  - exfalso. apply (f_equal String.length) in H.
    rewrite !string_length_app in H. simpl in H. lia.
  - change (String c (a +:+ t) = String d (b +:+ t)) in H.
    injection H as -> H. f_equal. by apply IH.
Qed.

Lemma str_of_nat_inj (i j : nat) : Py.str_of_nat i = Py.str_of_nat j -> i = j.
Proof.
  unfold Py.str_of_nat. intros H.
  apply Unsigned.to_uint_inj.
  apply (f_equal NilEmpty.uint_of_string) in H.
  rewrite !NilEmpty.usu in H. congruence.
Qed.

(** Different counters give different candidate paths. *)
#[local] Instance candidate_inj (folder base_name : string) :
  Inj (=) (=) (Downloader.candidate folder base_name).
Proof.
  intros i j H. unfold Downloader.candidate, Downloader.path_join in H.
  do 2 apply String.app_inj in H.
  apply String.app_inj in H.
  apply String.app_inj in H.
  apply string_app_inj_r in H.
  by apply str_of_nat_inj.
Qed.

(** The loop answers as soon as the tested path, or one of the next
    [fuel] candidates, is free; and its answer is a free path. *)
Lemma unique_loop_finds (fs : gset string) (folder base_name : string)
      (fuel counter : nat) (file_path : string) :
  file_path ∉ fs \/
  (exists j, (counter <= j < counter + fuel)%nat /\
             Downloader.candidate folder base_name j ∉ fs) ->
  exists p, Downloader.unique_loop fuel fs folder base_name counter file_path = Some p
            /\ p ∉ fs.
Proof.
  revert counter file_path.
  induction fuel as [|fuel IH]; intros counter file_path H; cbn.
  - case_bool_decide as Hin; [|by eexists].
    destruct H as [H|(j & Hj & _)]; [done|lia].
  - case_bool_decide as Hin; [|by eexists].
    apply IH.
    destruct H as [H|(j & Hj & Hfree)]; [done|].
    destruct (decide (j = counter)) as [->|Hne]; [by left|].
    right. exists j. split; [lia|done].
Qed.

(** Among any [size fs + 1] candidates one is free. *)
Lemma candidate_free (fs : gset string) (folder base_name : string) (counter : nat) :
  exists j, (counter <= j < counter + S (size fs))%nat /\
            Downloader.candidate folder base_name j ∉ fs.
Proof.
  set (tried := Downloader.candidate folder base_name <$> seq counter (S (size fs))).
  destruct (decide (Forall (fun p => p ∈ fs) tried)) as [Hall|Hsome].
  - exfalso.
    assert (Hsub : list_to_set (C := gset string) tried ⊆ fs).
    { intros p Hp. apply elem_of_list_to_set in Hp.
      by eapply Forall_forall in Hall. }
    apply subseteq_size in Hsub.
    rewrite size_list_to_set in Hsub.
    + unfold tried in Hsub. rewrite length_fmap, length_seq in Hsub. lia.
    + apply (NoDup_fmap_2 _), NoDup_seq.
  - apply not_Forall_Exists in Hsome; [|apply _].
    apply Exists_exists in Hsome as (p & Hp & Hfree).
    apply list_elem_of_fmap in Hp as (j & -> & Hj%elem_of_seq).
    exists j. split; [lia|done].
Qed.

(** The [while] loop of [_get_unique_file_path] terminates, with a path
    that does not exist yet. *)
Lemma unique_loop_terminates (fs : gset string) (folder filename : string) :
  exists p, Downloader._get_unique_file_path fs folder filename = Some p /\ p ∉ fs.
Proof.
  unfold Downloader._get_unique_file_path.
  apply unique_loop_finds. right. apply candidate_free.
Qed.

Section DownloadProperties.
Import Downloader.
Variable guess_extension : string -> option string.
Variable folder : string.

Lemma outer_handlers_Raise (e : exn) :
  exists msg, outer_handlers (Raise e) = Ok (msg, None, true).
Proof.
  unfold outer_handlers.
  destruct (isinstance e RequestsTimeout); [by eexists|].
  destruct (isinstance e RequestException); [by eexists|].
  destruct (isinstance e DownloadIOError); [by eexists|].
  rewrite isinstance_Exception. by eexists.
Qed.

(** The inner [try] either reports success, with the archive on disk, or
    raises. *)
Lemma save_as_zip_cases (env : Env) (file_path : string) (fs : gset string) :
  (exists fs', save_as_zip env file_path fs
               = (Ok ("File successfully downloaded", Some file_path, false), fs')
               /\ (file_path ∈ fs')) \/
  (exists e fs', save_as_zip env file_path fs = (Raise e, fs')).
Proof.
  unfold save_as_zip, write_archive.
  destruct (archive_open env) as [e|].
  - right. destruct (is_file_error e); [|by eexists _, _].
    case_bool_decide; [|by eexists _, _].
    destruct (unlink_fault env); by eexists _, _.
  - destruct (with_exit _ (archive_close env)) as [n|e].
    + left. eexists. split; [reflexivity|set_solver].
    + right. destruct (is_file_error e); [|by eexists _, _].
      case_bool_decide; [|by eexists _, _].
      destruct (unlink_fault env); by eexists _, _.
Qed.

(** The body of the outer [try] always ends: with the success triple and
    a new archive, or with an exception. *)
Lemma download_body_cases (env : Env) (url : option string) (fs : gset string) :
  exists r fs',
    download_body guess_extension folder env url fs = Some (r, fs') /\
    ((exists p, r = Ok ("File successfully downloaded", Some p, false)
                /\ (p ∉ fs) /\ (p ∈ fs')) \/
     (exists e, r = Raise e)).
Proof.
  unfold download_body.
  destruct (requests_get env url) as [response|e].
  2:{ exists (Raise e), fs. split; [done|]. right. by exists e. }
  destruct (raise_for_status response) as [[]|e].
  2:{ exists (Raise e), fs. split; [done|]. right. by exists e. }
  destruct (unique_loop_terminates fs folder
              (_get_file_name guess_extension response (default EmptyString url)))
    as (p & -> & Hfree).
  cbn [mbind option_bind].
  destruct (save_as_zip_cases env p fs) as [(fs' & -> & Hin)|(e & fs' & ->)].
  - eexists _, fs'. split; [done|]. left. by exists p.
  - eexists _, fs'. split; [done|]. right. by exists e.
Qed.

(** What a caller sees of that: a triple whose path is set exactly when
    the error flag is clear. *)
Lemma download_file_shape (env : Env) (url : option string) (fs : gset string) :
  exists msg path failed fs',
    download_file guess_extension folder env url fs
      = Some (Ok (msg, path, failed), fs') /\
    ((path = None /\ failed = true) \/ (exists p, path = Some p /\ failed = false)).
Proof.
  unfold download_file.
  destruct (download_body_cases env url fs)
    as (r & fs' & -> & [(p & -> & _)|(e & ->)]);
    cbn [mbind option_bind].
  - eexists _, (Some p), false, fs'. split; [done|]. right. by exists p.
  - destruct (outer_handlers_Raise e) as [msg Hmsg].
    exists msg, None, true, fs'. rewrite Hmsg. split; [done|by left].
Qed.

(** C10. [download_file] always returns, and returns a triple: either a
    message with no path and the error flag set, or the success message
    with the path of the new archive and the flag clear. No exception
    leaves it, whatever the transport and the file system do. *)
Theorem download_file_total (env : Env) (url : option string) (fs : gset string) :
  exists msg path failed fs',
    download_file guess_extension folder env url fs
      = Some (Ok (msg, path, failed), fs') /\
    ((path = None /\ failed = true) \/
     (exists p, path = Some p /\ failed = false /\
                msg = "File successfully downloaded" /\ (p ∉ fs) /\ (p ∈ fs'))).
Proof.
  unfold download_file.
  destruct (download_body_cases env url fs)
    as (r & fs' & -> & [(p & -> & Hfree & Hin)|(e & ->)]);
    cbn [mbind option_bind].
  - exists "File successfully downloaded", (Some p), false, fs'.
    split; [done|]. right. by exists p.
  - destruct (outer_handlers_Raise e) as [msg Hmsg].
    exists msg, None, true, fs'. rewrite Hmsg. split; [done|by left].
Qed.


End DownloadProperties.


Example download_keeps_file_on_other_errors :
  Downloader.download_file (fun _ => None) "d"
    {| Downloader.get_response :=
         Ok {| Downloader.status_code := 200; Downloader.headers := ∅ |};
       Downloader.archive_open := None; Downloader.member_open := None;
       Downloader.chunks := ["ab"]; Downloader.stream_end := None;
       Downloader.write_fault := fun _ => Some (Exn Exception "File size too large");
       Downloader.member_close := None; Downloader.archive_close := None;
       Downloader.unlink_fault := None |}
    (Some "http://host/f.exe") ∅
  = Some (Ok ("Unexpected download error: File size too large", None, true), {["d/f.zip"]}).
Proof. vm_compute. reflexivity. Qed.

(** ** Get-or-create *)

Section GetOrCreate.
Import DBManager.

Lemma matching_add_row (value v : string) (t : Table) :
  matching value (add_row v t) =
  matching value t ++ (if decide (v = value) then [(next_id t, v)] else []).
Proof.
  unfold matching, add_row. cbn [rows]. rewrite filter_app. f_equal.
Qed.

Lemma sql_select_table (table value : string) (db : Database) (t : Table) :
  tables db !! table = Some t ->
  sql_select table (column t) value db = Ok (fst <$> head (matching value t)).
Proof. intros Ht. unfold sql_select. by rewrite Ht, String.eqb_refl. Qed.

Lemma sql_insert_table (table value : string) (db : Database) (t : Table) :
  tables db !! table = Some t ->
  sql_insert table (column t) value db =
  if unique t && has_value value t
  then Raise (Exn PyodbcIntegrityError "Violation of UNIQUE KEY constraint")
  else Ok (set_table table (add_row value t) db).
Proof. intros Ht. unfold sql_insert. by rewrite Ht, String.eqb_refl. Qed.

Lemma set_table_lookup (table : string) (t : Table) (db : Database) :
  tables (set_table table t db) !! table = Some t.
Proof. unfold set_table. cbn [tables]. apply lookup_insert_eq. Qed.

(** A call that finds the value returns the id of its first row and
    changes nothing. *)
Lemma get_or_create_found (table value : string) (db : Database) (t : Table)
      (id : Z) (v : string) (others : list (Z * string)) :
  tables db !! table = Some t ->
  matching value t = (id, v) :: others ->
  _get_or_create no_fault table (column t) value db = (Ok id, db).
Proof.
  intros Ht Hm. unfold _get_or_create, get_or_create_body, get_connection, stmt.
  cbn [connect_fault execute_fault no_fault].
  rewrite (sql_select_table _ _ _ _ Ht), Hm. reflexivity.
Qed.

(** A call that does not find the value, and that nothing disturbs,
    inserts one row and returns its id. *)
Lemma get_or_create_inserted (table value : string) (db : Database) (t : Table) :
  tables db !! table = Some t ->
  matching value t = [] ->
  _get_or_create no_fault table (column t) value db
  = (Ok (next_id t), set_table table (add_row value t) db).
Proof.
  intros Ht Hm. unfold _get_or_create, get_or_create_body, get_connection, stmt.
  cbn [connect_fault execute_fault no_fault rival rival_commits].
  rewrite (sql_select_table _ _ _ _ Ht), Hm. cbn [head fmap option_fmap option_map].
  unfold rival_commits. cbn [rival no_fault].
  rewrite (sql_insert_table _ _ _ _ Ht).
  unfold has_value. rewrite Hm, bool_decide_eq_true_2, andb_false_r by done.
  change (column t) with (column (add_row value t)).
  rewrite (sql_select_table _ _ _ _ (set_table_lookup table (add_row value t) db)).
  rewrite matching_add_row, Hm, decide_True by done. reflexivity.
Qed.

(** C6, as the code has it. On a table that has the column and holds
    the value at most once, two calls in a row that nothing disturbs
    return the same id, the second changes nothing, and exactly one row
    holds the value. But when another session commits the value between
    the call's lookup and its insert, and the column is unique, the
    violation is not resolved by a second lookup: the call raises
    [DatabaseConnectionError], although the row it could have returned
    is there. *)
Theorem get_or_create_idempotent_sequential
        (table value : string) (db : Database) (t : Table) :
  tables db !! table = Some t ->
  (length (matching value t) <= 1)%nat ->
  (exists id db1 t1,
     _get_or_create no_fault table (column t) value db = (Ok id, db1) /\
     _get_or_create no_fault table (column t) value db1 = (Ok id, db1) /\
     tables db1 !! table = Some t1 /\
     matching value t1 = [(id, value)]) /\
  (forall f,
     connect_fault f = None -> (forall n, execute_fault f n = None) ->
     rival f = Some value -> unique t = true -> matching value t = [] ->
     exists msg db1 t1,
       _get_or_create f table (column t) value db
       = (Raise (Exn DatabaseConnectionError msg), db1) /\
       tables db1 !! table = Some t1 /\
       matching value t1 = [(next_id t, value)]).
Proof.
  intros Ht Hlen. split.
  - destruct (matching value t) as [|[id v] others] eqn:Hm.
    + exists (next_id t), (set_table table (add_row value t) db), (add_row value t).
      assert (Hm' : matching value (add_row value t) = [(next_id t, value)])
        by (by rewrite matching_add_row, Hm, decide_True).
      split; [by apply get_or_create_inserted|].
      split; [|split; [apply set_table_lookup|exact Hm']].
      change (column t) with (column (add_row value t)).
      eapply get_or_create_found; [apply set_table_lookup|exact Hm'].
    + assert (others = []) as -> by (destruct others; [done|cbn in Hlen; lia]).
      assert (v = value) as ->.
      { assert (Hin : (id, v) ∈ matching value t) by (rewrite Hm; left).
        by apply list_elem_of_filter in Hin as [Hv _]. }
      exists id, db, t.
      split; [by eapply get_or_create_found|].
      split; [by eapply get_or_create_found|done].
  - intros f Hconnect Hexec Hrival Hunique Hm.
    exists "Failed to connect to database: Violation of UNIQUE KEY constraint",
           (set_table table (add_row value t) db), (add_row value t).
    split; [|split; [apply set_table_lookup|by rewrite matching_add_row, Hm, decide_True]].
    unfold _get_or_create, get_or_create_body, get_connection, stmt, rival_commits.
    rewrite Hconnect, !Hexec, Hrival.
    rewrite (sql_select_table _ _ _ _ Ht), Hm. cbn [head fmap option_fmap option_map].
    rewrite (sql_insert_table _ _ _ _ Ht).
    unfold has_value at 1. rewrite Hm, bool_decide_eq_true_2, andb_false_r by done.
    change (column t) with (column (add_row value t)).
    rewrite (sql_insert_table _ _ _ _ (set_table_lookup table (add_row value t) db)).
    unfold has_value. rewrite matching_add_row, Hm, decide_True by done.
    cbn [app]. rewrite bool_decide_eq_false_2 by done.
    change (unique (add_row value t)) with (unique t). rewrite Hunique.
    reflexivity.
Qed.
End GetOrCreate.

Lemma get_or_create_idempotent_sequential_witness :
  (exists id db1 t1,
     DBManager._get_or_create DBManager.no_fault "Hash" "Hash" "ab12" hash_db = (Ok id, db1) /\
     DBManager._get_or_create DBManager.no_fault "Hash" "Hash" "ab12" db1 = (Ok id, db1) /\
     DBManager.tables db1 !! "Hash" = Some t1 /\
     DBManager.matching "ab12" t1 = [(id, "ab12")]) /\
  (exists msg db1 t1,
     DBManager._get_or_create contended "Hash" "Hash" "ab12" hash_db
     = (Raise (Exn DatabaseConnectionError msg), db1) /\
     DBManager.tables db1 !! "Hash" = Some t1 /\
     DBManager.matching "ab12" t1 = [(1%Z, "ab12")]).
Proof.
  destruct (get_or_create_idempotent_sequential "Hash" "ab12" hash_db hash_table)
    as [Hseq Hrace].
  - reflexivity.
  - cbn. lia.
  - split; [exact Hseq|].
    apply (Hrace contended); reflexivity.
Defined.

(** The unique-constraint violation reaches the caller as an exception,
    while a lookup afterwards finds the row. *)
Lemma get_or_create_violation_counterexample :
  (DBManager._get_or_create contended "Hash" "Hash" "ab12" hash_db).1
  = Raise (Exn DatabaseConnectionError
             "Failed to connect to database: Violation of UNIQUE KEY constraint") /\
  DBManager.sql_select "Hash" "Hash" "ab12"
    (DBManager._get_or_create contended "Hash" "Hash" "ab12" hash_db).2
  = Ok (Some 1%Z).
Proof. split; vm_compute; reflexivity. Qed.

(** ** One item of the page loop *)

Section ItemProperties.
Import DatoidCrawler.
Variable repr_float : spec_float -> string.
Variable guess_extension : string -> option string.
Variable st : Settings.
Variable folder : string.
Variable job_id : Z.
Variable env : ItemEnv.

Local Abbreviation item_try := (item_try repr_float guess_extension st folder env).
Local Abbreviation save := (save job_id env).
Local Abbreviation crawl_item :=
  (crawl_item repr_float guess_extension st folder job_id env).

(** The [try] body always ends, in a state that satisfies
    [try_invariant]. *)
Lemma item_try_ends (fs : gset string) :
  exists l fs' raised, item_try fs = Some (l, fs', raised) /\ try_invariant l raised.
Proof.
  unfold DatoidCrawler.item_try, try_invariant.
  destruct (text_attr env) as [file_info|e].
  2:{ eexists _, _, _. split; [reflexivity|]. cbn.
      repeat split; (done || by intros [? ?]). }
  destruct (get_parsed_file_info file_info) as [[[title extension] size]|e].
  2:{ eexists _, _, _. split; [reflexivity|]. cbn.
      repeat split; (done || by intros [? ?]). }
  destruct (Downloader.validate_file_size repr_float st size) as [?|e].
  2:{ destruct (isinstance e DownloadFileTooLargeError);
        eexists _, _, _; (split; [reflexivity|]); cbn;
        repeat split; (done || by intros [? ?]). }
  destruct (resolve_link env) as [download_link|e].
  2:{ eexists _, _, _. split; [reflexivity|]. cbn.
      repeat split; (done || by intros [? ?]). }
  destruct (download_file_shape guess_extension folder (download_env env)
              download_link fs)
    as (msg & path & failed & fs' & -> & Hshape).
  cbn [mbind option_bind].
  eexists _, _, _. split; [reflexivity|]. cbn.
  destruct Hshape as [[-> ->]|(p & -> & ->)]; cbn;
    repeat split; (done || by intros [? ?]).
Qed.

Lemma item_except_fields (l : Locals) (raised : option exn) :
  file_title (item_except l raised) = file_title l /\
  file_size (item_except l raised) = file_size l /\
  file_extension (item_except l raised) = file_extension l /\
  download_exception (item_except l raised) = download_exception l /\
  size_exception (item_except l raised) = size_exception l /\
  download_path (item_except l raised) = download_path l /\
  hash_value (item_except l raised) = hash_value l /\
  (is_Some (timeout_exception (item_except l raised)) ->
   timeout_exception l = None -> is_Some raised).
Proof.
  unfold item_except. destruct raised as [e|]; [destruct (isinstance e _)|];
    cbn; repeat split; try done; intros [? ?]; congruence.
Qed.

Lemma insert_error_cracks (f : DBManager.Fault) (msg : string) (crack : Z)
      (db : DBManager.Database) :
  DBManager.cracks (DBManager.insert_error f msg crack db).2 = DBManager.cracks db.
Proof.
  unfold DBManager.insert_error, DBManager.get_connection.
  destruct (DBManager.connect_fault f); [reflexivity|].
  destruct (DBManager.execute_fault f 0); [reflexivity|].
  destruct (DBManager.execute_fault f 1); reflexivity.
Qed.

(** Inserting errors issues no other kind of call and leaves the
    [Crack] table alone; it makes at most one call per message. *)
Lemma insert_errors_calls (msgs : list (option string)) (crack : Z)
      (db : DBManager.Database) :
  Forall (fun c => is_error_call c = true) (insert_errors env msgs crack db).1 /\
  (length (insert_errors env msgs crack db).1 <= length msgs)%nat /\
  DBManager.cracks (insert_errors env msgs crack db).2 = DBManager.cracks db.
Proof.
  revert db. induction msgs as [|m rest IH]; intros db; cbn [insert_errors].
  - by repeat split.
  - pose proof (insert_error_cracks (error_fault env) (fmt m) crack db) as Hc.
    destruct (DBManager.insert_error (error_fault env) (fmt m) crack db)
      as [[answer|e] db1]; cbn [snd] in Hc.
    + specialize (IH db1).
      destruct (insert_errors env rest crack db1) as [calls db2].
      destruct IH as (Hall & Hlen & Hcracks). cbn [fst snd] in *.
      repeat split; [by constructor|cbn [length]; lia|congruence].
    + cbn [fst snd]. repeat split; [by repeat constructor|cbn [length]; lia|done].
Qed.

Lemma try_except_raises {A} (body : result A) (c : cls) (handler : exn -> result A) :
  (exists e, body = Raise e) -> (forall e, exists e', handler e = Raise e') ->
  exists e, try_except body c handler = Raise e.
Proof.
  intros [e ->] Hh. unfold try_except.
  destruct (isinstance e c); [apply Hh|by exists e].
Qed.

Lemma reraise_pool_raises {A} (e : exn) :
  exists e', DBManager.reraise_pool (A := A) e = Raise e'.
Proof. unfold DBManager.reraise_pool. destruct (isinstance e _); by eexists. Qed.

(** [insert_crack] either adds exactly the row it was given, under the
    next identity value, or raises and adds nothing. *)
Lemma insert_crack_answer (f : DBManager.Fault) (job : Z)
      (title size extension zipfile : option string) (hash_id : option Z)
      (db : DBManager.Database) :
  (DBManager.insert_crack f job title size extension zipfile hash_id db
   = (Ok (DBManager.next_crack db),
      DBManager.add_crack job title size extension zipfile hash_id db)) \/
  (exists e, DBManager.insert_crack f job title size extension zipfile hash_id db
             = (Raise e, db)).
Proof.
  unfold DBManager.insert_crack, DBManager.get_connection.
  assert (Hraise : forall e0 : exn,
    exists e, try_except
                (try_except (DBManager.reraise_pool (A := Z) e0) PyodbcIntegrityError
                   (fun e => Raise (Exn DatabaseInsertError
                                      ("Failed to create Crack: " +:+ str e))))
                PyodbcError
                (fun e => Raise (Exn DatabaseInsertError
                                   ("Failed to create Crack: " +:+ str e)))
              = Raise e).
  { intros e0. apply try_except_raises; [|by eexists].
    apply try_except_raises; [apply reraise_pool_raises|by eexists]. }
  destruct (DBManager.connect_fault f) as [e0|].
  { right. destruct (Hraise e0) as [e He]. exists e. by rewrite He. }
  destruct (DBManager.execute_fault f 0) as [e0|].
  { right. destruct (Hraise e0) as [e He]. exists e. by rewrite He. }
  destruct (DBManager.execute_fault f 1) as [e0|].
  { right. destruct (Hraise e0) as [e He]. exists e. by rewrite He. }
  by left.
Qed.


Local Abbreviation save_crack := (save_crack job_id env).
Local Abbreviation crack_row := (crack_row job_id).

(** The crack insert and what follows it: one [insert_crack] call with
    the given archive name and hash id, then only error inserts, at most
    one per failure message. *)
Lemma save_crack_calls (l : Locals) (zipfile : option string) (hash_id : option Z)
      (db : DBManager.Database) :
  exists answer rest,
    (save_crack l zipfile hash_id db).1
    = CallInsertCrack (file_title l) (file_size l) (file_extension l)
                      zipfile hash_id answer :: rest /\
    Forall (fun c => is_error_call c = true) rest /\
    (length rest <= length (failure_messages l))%nat /\
    (forall id, answer = Ok id ->
       DBManager.cracks (save_crack l zipfile hash_id db).2
       = DBManager.cracks db ++ [crack_row id l zipfile hash_id]).
Proof.
  unfold DatoidCrawler.save_crack.
  destruct (insert_crack_answer (crack_fault env) job_id (file_title l) (file_size l)
              (file_extension l) zipfile hash_id db) as [->|[e ->]].
  - pose proof (insert_errors_calls (failure_messages l) (DBManager.next_crack db)
                  (DBManager.add_crack job_id (file_title l) (file_size l)
                     (file_extension l) zipfile hash_id db)) as (Hall & Hlen & Hcracks).
    destruct (insert_errors env _ _ _) as [calls db2]. cbn [fst snd] in *.
    eexists _, calls. split; [reflexivity|]. split; [done|]. split; [done|].
    intros id [= <-]. by rewrite Hcracks.
  - eexists _, []. cbn [fst snd]. split; [reflexivity|].
    split; [constructor|]. split; [cbn; lia|]. intros id [=].
Qed.

(** The save step inserts at most one error per failure message. *)
Lemma save_error_calls (l : Locals) (db : DBManager.Database) :
  (length (filter (fun c => is_error_call c = true) (save l db).1)
   <= length (failure_messages l))%nat.
Proof.
  assert (Hplain : forall zipfile hash_id (db0 : DBManager.Database),
    (length (filter (fun c => is_error_call c = true)
                    (save_crack l zipfile hash_id db0).1)
     <= length (failure_messages l))%nat).
  { intros zipfile hash_id db0.
    destruct (save_crack_calls l zipfile hash_id db0)
      as (answer & rest & -> & _ & Hlen & _).
    rewrite filter_cons_False by (cbn; congruence).
    etrans; [apply length_filter|done]. }
  unfold DatoidCrawler.save.
  destruct (download_path l) as [path|]; [|apply Hplain].
  destruct (Py.truthy (hash_value l)); [|apply Hplain].
  destruct (DBManager.insert_hash _ _ _) as [[id|e] db0].
  - specialize (Hplain (Some (Downloader.basename path)) (Some id) db0).
    destruct (save_crack l _ _ db0) as [calls db1]. cbn [fst] in *.
    by rewrite filter_cons_False by (cbn; congruence).
  - cbn [fst]. rewrite filter_cons_False by (cbn; congruence).
    rewrite filter_nil. cbn [length]. lia.
Qed.

(** One item always comes to an end. *)
Lemma crawl_item_ends (fs : gset string) (db : DBManager.Database) :
  exists run, crawl_item fs db = Some run.
Proof.
  unfold DatoidCrawler.crawl_item.
  destruct (item_try_ends fs) as (l & fs' & raised & -> & _).
  cbn [mbind option_bind].
  destruct (save (item_except l raised) db) as [calls db']. by eexists.
Qed.


(** C9. When the save step runs, at most one of the three failure
    flags is set, so an item leaves errors in at most one category: the
    save step makes at most one [insert_error] call. *)
Theorem crawl_item_one_failure_category (fs : gset string) (db : DBManager.Database) :
  exists run,
    crawl_item fs db = Some run /\
    download_exception (locals run) && Py.truthy (timeout_exception (locals run)) = false /\
    download_exception (locals run) && Py.truthy (size_exception (locals run)) = false /\
    Py.truthy (timeout_exception (locals run))
      && Py.truthy (size_exception (locals run)) = false /\
    (length (failure_messages (locals run)) <= 1)%nat /\
    (length (filter (fun c => is_error_call c = true) (calls run)) <= 1)%nat.
Proof.
  unfold DatoidCrawler.crawl_item.
  destruct (item_try_ends fs) as (l & fs' & raised & -> & Hinv).
  cbn [mbind option_bind].
  pose proof (save_error_calls (item_except l raised) db) as Herr.
  destruct (save (item_except l raised) db) as [calls db'] eqn:Hsave.
  eexists. split; [reflexivity|]. cbn [locals DatoidCrawler.calls database].
  cbn [fst] in Herr.
  destruct (item_except_fields l raised)
    as (_ & _ & _ & Hdl & Hsz & _ & _ & Htimeout).
  destruct Hinv as (Ht & Hraised & Hsize & _ & _).
  assert (Hflags :
    download_exception (item_except l raised)
      && Py.truthy (timeout_exception (item_except l raised)) = false /\
    download_exception (item_except l raised)
      && Py.truthy (size_exception (item_except l raised)) = false /\
    Py.truthy (timeout_exception (item_except l raised))
      && Py.truthy (size_exception (item_except l raised)) = false).
  { rewrite Hdl, Hsz.
    destruct (timeout_exception (item_except l raised)) as [t|] eqn:Et.
    - destruct (Htimeout (mk_is_Some _ _ eq_refl) Ht) as [e ->].
      destruct (Hraised (mk_is_Some _ _ eq_refl)) as (-> & -> & _).
      cbn. by rewrite andb_false_r.
    - cbn. rewrite andb_false_r.
      destruct (size_exception l) as [m|] eqn:Es; [|by rewrite andb_false_r].
      destruct (Hsize (mk_is_Some _ _ eq_refl)) as (-> & _). done. }
  destruct Hflags as (H1 & H2 & H3). repeat split; try done.
  - unfold failure_messages.
    destruct (download_exception (item_except l raised)),
             (Py.truthy (timeout_exception (item_except l raised))),
             (Py.truthy (size_exception (item_except l raised)));
      cbn in *; (discriminate || lia).
  - etrans; [exact Herr|]. unfold failure_messages.
    destruct (download_exception (item_except l raised)),
             (Py.truthy (timeout_exception (item_except l raised))),
             (Py.truthy (size_exception (item_except l raised)));
      cbn in *; (discriminate || lia).
Qed.
End ItemProperties.

(** The page loop makes one run per item, whatever happens to each. *)
Lemma crawl_items_runs (repr_float : spec_float -> string)
      (guess_extension : string -> option string) (st : Settings)
      (folder : string) (job_id : Z) (items : list DatoidCrawler.ItemEnv)
      (fs : gset string) (db : DBManager.Database) :
  exists runs,
    DatoidCrawler.crawl_items repr_float guess_extension st folder job_id items fs db
    = Some runs /\
    length runs = length items.
Proof.
  revert fs db. induction items as [|item rest IH]; intros fs db.
  - by exists [].
  - cbn [DatoidCrawler.crawl_items].
    destruct (crawl_item_ends repr_float guess_extension st folder
                job_id item fs db) as (run & ->).
    cbn [mbind option_bind].
    destruct (IH (DatoidCrawler.files run) (DatoidCrawler.database run))
      as (runs & -> & Hlen).
    exists (run :: runs). split; [reflexivity|]. cbn [length]. by rewrite Hlen.
Qed.





(** ** The analysis poller *)

Section PollerProperties.
Import TestFile Worker.

Lemma getitem_truthy (v x : json) (k : string) : getitem v k = Ok x -> truthy v = true.
Proof.
  destruct v as [| | | | |fields]; try discriminate. cbn.
  destruct fields as [|kv fields]; [discriminate|reflexivity].
Qed.

Lemma status_handlers_Ok (r : result (option json)) (data : option json) :
  status_handlers r = Ok data -> r = Ok data \/ data = None.
Proof.
  unfold status_handlers. destruct r as [v|e]; [intros [= <-]; by left|].
  destruct (isinstance e RequestsTimeout); [intros [= <-]; by right|].
  destruct (isinstance e RequestException); [discriminate|].
  destruct (isinstance e Exception); discriminate.
Qed.

Lemma read_analysis_data (f : StoreFault) (test_id : string) (response : Response)
      (store : Store) (data : json) :
  (read_analysis f test_id response store).1 = Ok (Some data) -> truthy data = true.
Proof.
  unfold read_analysis.
  destruct (body response) as [v|e]; [|discriminate].
  destruct (getitem v "data") as [d|e] eqn:Hd.
  2:{ cbn [mbind result_bind]. unfold try_except.
      destruct (isinstance e KeyError); discriminate. }
  apply getitem_truthy in Hd.
  cbn [mbind result_bind].
  match goal with
  | |- context [match ?x with Ok _ => _ | Raise _ => _ end] => destruct x as [t|e]
  end.
  - destruct t as [[[[[attributes sha256] status] harmless] malicious] undetected].
    destruct (negb (is_str status "completed")); cbn [fst]; [discriminate|].
    by intros [= <-].
  - unfold try_except. destruct (isinstance e KeyError); discriminate.
Qed.

(** What [analyseFile] returns as data is a non-empty object, so it
    counts as true in the loop condition. *)
Lemma analyseFile_ready (f : StoreFault) (test_id : string)
      (answer : result Response) (store : Store) (data : option json) :
  (analyseFile f test_id answer store).1 = Ok data ->
  data = None \/ ready data = true.
Proof.
  unfold analyseFile.
  destruct answer as [response|e].
  2:{ cbn [fst]. intros [[=]|H]%status_handlers_Ok. by left. }
  destruct (status_code response =? 429)%Z.
  { cbn [fst]. intros [[= <-]|H]%status_handlers_Ok; by left. }
  destruct (raise_for_status response) as [[]|e].
  2:{ cbn [fst]. intros [[=]|H]%status_handlers_Ok. by left. }
  pose proof (read_analysis_data f test_id response store) as Hdata.
  destruct (read_analysis f test_id response store) as [r store']. cbn [fst] in *.
  intros [->|H]%status_handlers_Ok; [|by left].
  destruct data as [d|]; [right|by left]. by apply Hdata.
Qed.

Section Loop.
Variable env : Env.
Variable interval max_attempts : Z.
Variable test_id : string.

Local Abbreviation poll := (poll env interval max_attempts test_id).
Local Abbreviation check i store :=
  (analyseFile (store_fault env) test_id (answers env i) store).

(** Once there is data the loop is over. *)
Lemma poll_ready (fuel : nat) (data : option json) (attempts : Z)
      (checks sleeps : nat) (store : Store) :
  ready data = true ->
  poll fuel data attempts checks sleeps store
  = Some {| outcome := Ok data; checks := checks; sleeps := sleeps; store := store |}.
Proof. intros H. destruct fuel; cbn; by rewrite H. Qed.

(** With the budget exhausted the loop is over. *)
Lemma poll_exhausted (fuel : nat) (data : option json) (attempts : Z)
      (checks sleeps : nat) (store : Store) :
  (max_attempts <= attempts)%Z ->
  poll fuel data attempts checks sleeps store
  = Some {| outcome := Ok data; checks := checks; sleeps := sleeps; store := store |}.
Proof.
  intros H. assert ((attempts <? max_attempts)%Z = false) as E by lia.
  destruct fuel; cbn; by rewrite E, andb_false_r.
Qed.

(** One iteration of the loop, when it is entered. *)
Lemma poll_step (fuel : nat) (data : option json) (attempts : Z)
      (checks sleeps : nat) (store : Store) :
  ready data = false -> (attempts < max_attempts)%Z ->
  poll (S fuel) data attempts checks sleeps store =
  match check checks store with
  | (Raise e, store') =>
      Some {| outcome := Raise e; checks := S checks; sleeps := sleeps; store := store' |}
  | (Ok data', store') =>
      if negb (ready data') then
        match update_state env (2 + sleeps) with
        | Some e =>
            Some {| outcome := Raise e; checks := S checks;
                    sleeps := sleeps; store := store' |}
        | None =>
            match sleep interval with
            | Raise e =>
                Some {| outcome := Raise e; checks := S checks;
                        sleeps := sleeps; store := store' |}
            | Ok _ => poll fuel data' (attempts + 1)%Z (S checks) (S sleeps) store'
            end
        end
      else poll fuel data' attempts (S checks) sleeps store'
  end.
Proof.
  intros Hdata Hlt. assert ((attempts <? max_attempts)%Z = true) as E by lia.
  cbn [Worker.poll]. by rewrite Hdata, E.
Qed.

(** The remaining budget is enough fuel, and bounds the status checks
    still to come. *)
Lemma poll_bounded (fuel : nat) (data : option json) (attempts : Z)
      (checks0 sleeps0 : nat) (store0 : Store) :
  (Z.to_nat (max_attempts - attempts) <= fuel)%nat ->
  exists run,
    poll fuel data attempts checks0 sleeps0 store0 = Some run /\
    (checks run <= checks0 + Z.to_nat (max_attempts - attempts))%nat.
Proof.
  revert data attempts checks0 sleeps0 store0.
  induction fuel as [|fuel IH]; intros data attempts checks0 sleeps0 store0 Hfuel.
  - rewrite poll_exhausted by lia. eexists. split; [reflexivity|cbn; lia].
  - destruct (ready data) eqn:Hdata.
    { rewrite poll_ready by done. eexists. split; [reflexivity|cbn; lia]. }
    destruct (decide (attempts < max_attempts)%Z) as [Hlt|Hge].
    2:{ rewrite poll_exhausted by lia. eexists. split; [reflexivity|cbn; lia]. }
    rewrite poll_step by done.
    destruct (check checks0 store0) as [[data'|e] store'].
    2:{ eexists. split; [reflexivity|cbn; lia]. }
    destruct (ready data') eqn:Hdata'; cbn [negb].
    { rewrite poll_ready by done. eexists. split; [reflexivity|cbn; lia]. }
    destruct (update_state env (2 + sleeps0)) as [e|].
    { eexists. split; [reflexivity|cbn; lia]. }
    destruct (sleep interval) as [[]|e].
    2:{ eexists. split; [reflexivity|cbn; lia]. }
    destruct (IH data' (attempts + 1)%Z (S checks0) (S sleeps0) store')
      as (run & -> & Hrun); [lia|].
    exists run. split; [reflexivity|lia].
Qed.

(** When every check of the remaining budget finds the analysis not
    ready, and no progress report fails, the loop uses the whole budget
    and ends without data. *)
Lemma poll_never_ready (fuel : nat) (data : option json) (attempts : Z)
      (checks0 sleeps0 : nat) (store0 : Store) :
  (0 <= interval)%Z ->
  (forall n, update_state env n = None) ->
  ready data = false ->
  (Z.to_nat (max_attempts - attempts) <= fuel)%nat ->
  (forall i store, (checks0 <= i < checks0 + Z.to_nat (max_attempts - attempts))%nat ->
     exists data', (check i store).1 = Ok data' /\ ready data' = false) ->
  exists run data',
    poll fuel data attempts checks0 sleeps0 store0 = Some run /\
    outcome run = Ok data' /\ ready data' = false /\
    checks run = (checks0 + Z.to_nat (max_attempts - attempts))%nat /\
    sleeps run = (sleeps0 + Z.to_nat (max_attempts - attempts))%nat.
Proof.
  intros Hinterval Hreports.
  revert data attempts checks0 sleeps0 store0.
  induction fuel as [|fuel IH];
    intros data attempts checks0 sleeps0 store0 Hdata Hfuel Hanswers.
  - rewrite poll_exhausted by lia. eexists _, data.
    split; [reflexivity|]. cbn. repeat split; (done || lia).
  - destruct (decide (attempts < max_attempts)%Z) as [Hlt|Hge].
    2:{ rewrite poll_exhausted by lia. eexists _, data.
        split; [reflexivity|]. cbn. repeat split; (done || lia). }
    rewrite poll_step by done.
    destruct (Hanswers checks0 store0) as (data' & Hcheck & Hdata'); [lia|].
    destruct (check checks0 store0) as [r store']. cbn [fst] in Hcheck. subst r.
    rewrite Hdata', Hreports. cbn [negb].
    assert (sleep interval = Ok tt) as ->.
    { unfold sleep. assert ((interval <? 0)%Z = false) as -> by lia. done. }
    destruct (IH data' (attempts + 1)%Z (S checks0) (S sleeps0) store' Hdata')
      as (run & d & -> & Hout & Hd & Hchecks & Hsleeps); [lia| |].
    { intros i store Hi. apply Hanswers. lia. }
    exists run, d. split; [reflexivity|]. repeat split; (done || lia).
Qed.
End Loop.

(** The claim of [analyse_sample_bounded], for the part of the task that
    follows the upload. *)
Lemma wait_for_analysis_bounded (st : Settings) (env : Env) (test_id : string)
      (store0 : Store) :
  (0 < vt_analysis_check_interval st)%Z ->
  exists run,
    wait_for_analysis st env test_id store0 = Some run /\
    (checks run <= Z.to_nat (vt_max_wait_time st / vt_analysis_check_interval st))%nat /\
    (forall data, outcome run = Ok data -> ready data = true) /\
    ((forall n, update_state env n = None) ->
     (forall i store,
        (i < Z.to_nat (vt_max_wait_time st / vt_analysis_check_interval st))%nat ->
        exists data,
          (analyseFile (store_fault env) test_id (answers env i) store).1 = Ok data /\
          ready data = false) ->
     exists msg,
       outcome run = Raise (Exn TimeoutError msg) /\
       checks run = Z.to_nat (vt_max_wait_time st / vt_analysis_check_interval st) /\
       sleeps run = Z.to_nat (vt_max_wait_time st / vt_analysis_check_interval st)).
Proof.
  intros Hinterval.
  set (max_attempts := (vt_max_wait_time st / vt_analysis_check_interval st)%Z).
  unfold wait_for_analysis, floordiv.
  assert ((vt_analysis_check_interval st =? 0)%Z = false) as -> by lia.
  fold max_attempts.
  destruct (poll_bounded env (vt_analysis_check_interval st) max_attempts test_id
              (Z.to_nat max_attempts) None 0 0 0 store0)
    as (run & Hpoll & Hchecks); [lia|].
  rewrite Z.sub_0_r in Hchecks. cbn [Nat.add] in Hchecks.
  rewrite Hpoll. cbn [mbind option_bind].
  assert (Hall : (forall n, update_state env n = None) ->
            (forall i store, (i < Z.to_nat max_attempts)%nat ->
               exists data,
                 (analyseFile (store_fault env) test_id (answers env i) store).1 = Ok data /\
                 ready data = false) ->
            exists data, outcome run = Ok data /\ ready data = false /\
                         checks run = Z.to_nat max_attempts /\
                         sleeps run = Z.to_nat max_attempts).
  { intros Hreports Hanswers.
    destruct (poll_never_ready env (vt_analysis_check_interval st) max_attempts test_id
                (Z.to_nat max_attempts) None 0 0 0 store0)
      as (run' & d & Hpoll' & Hout & Hd & Hc & Hs); [lia|done|done|lia| |].
    { intros i store Hi. apply Hanswers. lia. }
    rewrite Hpoll in Hpoll'. injection Hpoll' as <-.
    rewrite Z.sub_0_r in Hc, Hs. by exists d. }
  destruct (outcome run) as [data|e] eqn:Hout.
  - destruct (ready data) eqn:Hready; cbn [negb].
    + destruct (update_state env (2 + sleeps run)) as [e|] eqn:Hreport.
      * eexists. split; [reflexivity|]. cbn [outcome checks sleeps].
        split; [done|]. split; [discriminate|].
        intros Hreports. rewrite Hreports in Hreport. discriminate.
      * exists run. split; [reflexivity|]. split; [done|].
        split; [intros d; rewrite Hout; by intros [= <-]|].
        intros Hreports Hanswers.
        destruct (Hall Hreports Hanswers) as (d & [= <-] & Hd & _). congruence.
    + eexists. split; [reflexivity|]. cbn [outcome checks sleeps].
      split; [done|]. split; [discriminate|].
      intros Hreports Hanswers.
      destruct (Hall Hreports Hanswers) as (d & _ & _ & Hc & Hs).
      by eexists.
  - exists run. split; [reflexivity|]. split; [done|].
    split; [rewrite Hout; discriminate|].
    intros Hreports Hanswers.
    destruct (Hall Hreports Hanswers) as (d & [=] & _).
Qed.

(** C4. With a positive check interval, the task always ends, after at
    most [vt_max_wait_time // vt_analysis_check_interval] status checks.
    It never ends in success without data; and when every check of the
    budget finds the analysis not ready (and the progress reports go
    through), it ends with [TimeoutError] after exactly that many checks
    and sleeps. *)
Theorem analyse_sample_bounded (st : Settings) (env : Env) (store0 : Store) :
  (0 < vt_analysis_check_interval st)%Z ->
  exists run,
    analyse_sample st env store0 = Some run /\
    (checks run <= Z.to_nat (vt_max_wait_time st / vt_analysis_check_interval st))%nat /\
    ((0 <= vt_max_wait_time st)%Z ->
     (Z.of_nat (checks run) <= vt_max_wait_time st / vt_analysis_check_interval st)%Z) /\
    (forall data, outcome run = Ok data -> ready data = true) /\
    (forall test_id,
       upload env = Ok test_id ->
       (forall n, update_state env n = None) ->
       (forall i store,
          (i < Z.to_nat (vt_max_wait_time st / vt_analysis_check_interval st))%nat ->
          exists data,
            (analyseFile (store_fault env) test_id (answers env i) store).1 = Ok data /\
            ready data = false) ->
       exists msg,
         outcome run = Raise (Exn TimeoutError msg) /\
         checks run = Z.to_nat (vt_max_wait_time st / vt_analysis_check_interval st) /\
         sleeps run = Z.to_nat (vt_max_wait_time st / vt_analysis_check_interval st)).
Proof.
  intros Hinterval.
  set (max_attempts := (vt_max_wait_time st / vt_analysis_check_interval st)%Z).
  assert (Hnonneg : (0 <= vt_max_wait_time st)%Z -> (0 <= max_attempts)%Z).
  { intros H. apply Z.div_pos; lia. }
  assert (Hfailed : forall e,
    exists run,
      Some {| outcome := Raise e; checks := 0; sleeps := 0; store := store0 |} = Some run /\
      (checks run <= Z.to_nat max_attempts)%nat /\
      ((0 <= vt_max_wait_time st)%Z -> (Z.of_nat (checks run) <= max_attempts)%Z) /\
      (forall data, outcome run = Ok data -> ready data = true) /\
      outcome run = Raise e).
  { intros e. eexists. split; [reflexivity|]. cbn.
    split; [lia|]. split; [intros H; specialize (Hnonneg H); lia|].
    split; [discriminate|reflexivity]. }
  unfold analyse_sample.
  destruct (update_state env 0) as [e|] eqn:Hr0.
  { destruct (Hfailed e) as (run & -> & H1 & H2 & H3 & _).
    exists run. repeat (split; [done|]).
    intros tid _ Hreports. rewrite Hreports in Hr0. discriminate. }
  destruct (upload env) as [test_id|e].
  2:{ destruct (Hfailed e) as (run & -> & H1 & H2 & H3 & _).
      exists run. repeat (split; [done|]). intros tid [=]. }
  destruct (update_state env 1) as [e|] eqn:Hr1.
  { destruct (Hfailed e) as (run & -> & H1 & H2 & H3 & _).
    exists run. repeat (split; [done|]).
    intros tid _ Hreports. rewrite Hreports in Hr1. discriminate. }
  destruct (wait_for_analysis_bounded st env test_id store0 Hinterval)
    as (run & -> & Hchecks & Hok & Htimeout).
  exists run. split; [done|]. split; [done|].
  split; [intros H; specialize (Hnonneg H); fold max_attempts in Hchecks; lia|].
  split; [done|].
  intros tid [= <-]. exact Htimeout.
Qed.
End PollerProperties.

Section RateLimit.
Import TestFile Worker.

Lemma analyseFile_429 (f : StoreFault) (test_id : string) (r : Response) (store : Store) :
  status_code r = 429%Z -> analyseFile f test_id (Ok r) store = (Ok None, store).
Proof. intros H. unfold analyseFile. by rewrite H. Qed.

Lemma analyseFile_error_status (f : StoreFault) (test_id : string) (r : Response)
      (store : Store) :
  status_code r <> 429%Z -> (400 <= status_code r < 600)%Z ->
  analyseFile f test_id (Ok r) store
  = (Raise (Exn VirusTotalAPIError "VirusTotal API request failed: HTTP error status"),
     store).
Proof.
  intros Hne Herr. unfold analyseFile, raise_for_status.
  assert ((status_code r =? 429)%Z = false) as -> by lia.
  assert ((400 <=? status_code r)%Z && (status_code r <? 600)%Z = true) as ->
    by (apply andb_true_iff; lia).
  reflexivity.
Qed.

(** C5. A 429 answer makes [analyseFile] return [None] without raising
    and without touching the database; in the loop it costs one attempt
    and one sleep, and the next check follows. Any other 4xx or 5xx
    answer makes [analyseFile] raise [VirusTotalAPIError]; the loop
    ends there, with no sleep and no further check, and the task ends
    with that exception. *)
Theorem rate_limit_is_soft :
  (forall f test_id r store,
     status_code r = 429%Z ->
     analyseFile f test_id (Ok r) store = (Ok None, store)) /\
  (forall env interval max_attempts test_id fuel data attempts checks sleeps store r,
     ready data = false -> (attempts < max_attempts)%Z -> (0 <= interval)%Z ->
     update_state env (2 + sleeps) = None ->
     answers env checks = Ok r -> status_code r = 429%Z ->
     poll env interval max_attempts test_id (S fuel) data attempts checks sleeps store
     = poll env interval max_attempts test_id fuel None (attempts + 1)%Z
            (S checks) (S sleeps) store) /\
  (forall f test_id r store,
     status_code r <> 429%Z -> (400 <= status_code r < 600)%Z ->
     exists msg,
       analyseFile f test_id (Ok r) store = (Raise (Exn VirusTotalAPIError msg), store)) /\
  (forall env interval max_attempts test_id fuel data attempts checks sleeps store r,
     ready data = false -> (attempts < max_attempts)%Z ->
     answers env checks = Ok r ->
     status_code r <> 429%Z -> (400 <= status_code r < 600)%Z ->
     exists msg,
       poll env interval max_attempts test_id (S fuel) data attempts checks sleeps store
       = Some {| outcome := Raise (Exn VirusTotalAPIError msg);
                 checks := S checks; sleeps := sleeps; store := store |}) /\
  (forall st env store0 test_id run e,
     update_state env 0 = None -> upload env = Ok test_id ->
     update_state env 1 = None ->
     vt_analysis_check_interval st <> 0%Z ->
     poll env (vt_analysis_check_interval st)
          (vt_max_wait_time st / vt_analysis_check_interval st) test_id
          (Z.to_nat (vt_max_wait_time st / vt_analysis_check_interval st))
          None 0 0 0 store0 = Some run ->
     outcome run = Raise e ->
     analyse_sample st env store0 = Some run).
Proof.
  split; [exact analyseFile_429|].
  split.
  { intros env interval max_attempts test_id fuel data attempts checks sleeps store r
           Hdata Hlt Hinterval Hreport Hanswer Hstatus.
    rewrite poll_step by done.
    rewrite Hanswer, (analyseFile_429 _ _ _ _ Hstatus). cbn [ready negb].
    rewrite Hreport.
    unfold sleep. assert ((interval <? 0)%Z = false) as -> by lia. reflexivity. }
  split.
  { intros f test_id r store Hne Herr. eexists.
    by apply analyseFile_error_status. }
  split.
  { intros env interval max_attempts test_id fuel data attempts checks sleeps store r
           Hdata Hlt Hanswer Hne Herr.
    rewrite poll_step by done.
    rewrite Hanswer, (analyseFile_error_status _ _ _ _ Hne Herr). by eexists. }
  intros st env store0 test_id run e Hr0 Hupload Hr1 Hinterval Hpoll Hout.
  unfold analyse_sample, wait_for_analysis, floordiv. rewrite Hr0, Hupload, Hr1.
  assert ((vt_analysis_check_interval st =? 0)%Z = false) as -> by lia.
  rewrite Hpoll. cbn [mbind option_bind]. by rewrite Hout.
Qed.
End RateLimit.

(** ** The properties on concrete runs *)

Lemma analyse_sample_bounded_witness :
  exists run,
    Worker.analyse_sample settings_35_10 always_429 empty_store = Some run /\
    (Worker.checks run <= 3)%nat /\
    (exists msg, Worker.outcome run = Raise (Exn TimeoutError msg)) /\
    Worker.checks run = 3%nat.
Proof.
  destruct (analyse_sample_bounded settings_35_10 always_429 empty_store)
    as (run & Hrun & Hle & _ & _ & Htimeout).
  - reflexivity.
  - exists run. split; [exact Hrun|]. split; [exact Hle|].
    destruct (Htimeout "dGVzdA==" eq_refl) as (msg & Hout & Hchecks & _).
    + reflexivity.
    + intros i store _. exists None. split; reflexivity.
    + split; [by exists msg|exact Hchecks].
Defined.

Lemma rate_limit_is_soft_witness :
  Worker.poll limited_then_down 10 3 "dGVzdA==" 3 None 0 0 0 empty_store
  = Worker.poll limited_then_down 10 3 "dGVzdA==" 2 None 1 1 1 empty_store /\
  (exists msg,
     Worker.poll limited_then_down 10 3 "dGVzdA==" 2 None 1 1 1 empty_store
     = Some {| Worker.outcome := Raise (Exn VirusTotalAPIError msg);
               Worker.checks := 2; Worker.sleeps := 1;
               Worker.store := empty_store |}) /\
  (exists run,
     Worker.analyse_sample settings_35_10 limited_then_down empty_store = Some run /\
     Worker.checks run = 2%nat).
Proof.
  destruct rate_limit_is_soft as (_ & Hsoft & _ & Hhard & Htask).
  split; [|split].
  - apply (Hsoft limited_then_down 10%Z 3%Z "dGVzdA==" 2%nat None 0%Z 0%nat 0%nat
             empty_store
             {| TestFile.status_code := 429;
                TestFile.body := Raise (Exn ValueError "Expecting value") |});
      (reflexivity || lia).
  - apply (Hhard limited_then_down 10%Z 3%Z "dGVzdA==" 1%nat None 1%Z 1%nat 1%nat
             empty_store
             {| TestFile.status_code := 503;
                TestFile.body := Raise (Exn ValueError "Expecting value") |});
      (reflexivity || (cbn; lia)).
  - eexists. split.
    + apply (Htask settings_35_10 limited_then_down empty_store "dGVzdA=="
               {| Worker.outcome :=
                    Raise (Exn VirusTotalAPIError
                             "VirusTotal API request failed: HTTP error status");
                  Worker.checks := 2; Worker.sleeps := 1;
                  Worker.store := empty_store |}
               (Exn VirusTotalAPIError
                  "VirusTotal API request failed: HTTP error status"));
        (reflexivity || discriminate).
    + reflexivity.
Defined.


Example size_rejected_item :
  (fun run => (DatoidCrawler.calls run, DatoidCrawler.files run)) <$>
  DatoidCrawler.crawl_item repr_20 (fun _ => None) settings_20 "d" 7
    {| DatoidCrawler.text_attr :=
         Ok (Some ("ZIP" +:+ Py.LF +:+ "25 MB" +:+ Py.LF +:+ "Some title"));
       DatoidCrawler.href_attr := DatoidCrawler.href_attr good_item;
       DatoidCrawler.open_detail := Ok tt; DatoidCrawler.switch_detail := Ok tt;
       DatoidCrawler.click_download := Ok tt; DatoidCrawler.click_final := Ok tt;
       DatoidCrawler.wait_link := Ok tt;
       DatoidCrawler.link_href := DatoidCrawler.link_href good_item;
       DatoidCrawler.download_env := good_download;
       DatoidCrawler.sha256 := Some "ab12";
       DatoidCrawler.hash_fault := DBManager.no_fault;
       DatoidCrawler.crack_fault := DBManager.no_fault;
       DatoidCrawler.error_fault := DBManager.no_fault |} ∅ hash_db
  = Some ([DatoidCrawler.CallInsertCrack (Some "Some title") (Some "25 MB") (Some "ZIP")
             None None (Ok 1%Z);
           DatoidCrawler.CallInsertError
             (Some "File size 25 MB exceeds maximum allowed size of 20.0 MB") 1],
          ∅).
Proof. vm_compute. reflexivity. Qed.

(** * Further properties *)

(** ** Unique archive names *)



(** ** What a download does to the disk *)

Section DownloadDisk.
Import Downloader.
Variable guess_extension : string -> option string.
Variable folder : string.

(** The inner [try] leaves the files as they were or adds the archive
    path. *)
Lemma save_as_zip_files (env : Env) (file_path : string) (fs : gset string) :
  file_path ∉ fs ->
  (save_as_zip env file_path fs).2 = fs \/
  (save_as_zip env file_path fs).2 = {[file_path]} ∪ fs.
Proof.
  intros Hfree. unfold save_as_zip, write_archive.
  assert (Hfs : ({[file_path]} ∪ fs) ∖ {[file_path]} = fs).
  { apply set_eq. intros x.
    rewrite elem_of_difference, elem_of_union, elem_of_singleton. split.
    - intros [[Hx|Hx] Hne]; [contradiction|exact Hx].
    - intros Hx. split; [by right|]. intros ->. contradiction. }
  destruct (archive_open env) as [e|].
  - destruct (is_file_error e); [|by left].
    case_bool_decide; [|by left]. destruct (unlink_fault env); by left.
  - destruct (with_exit _ (archive_close env)) as [n|e]; [by right|].
    destruct (is_file_error e); [|by right].
    case_bool_decide; [|by right].
    destruct (unlink_fault env); cbn [snd]; [by right|left; exact Hfs].
Qed.

(** The body of the outer [try] does the same. *)
Lemma download_body_files (env : Env) (url : option string) (fs : gset string) :
  exists r fs',
    download_body guess_extension folder env url fs = Some (r, fs') /\
    (fs' = fs \/ exists p, (p ∉ fs) /\ fs' = {[p]} ∪ fs).
Proof.
  unfold download_body.
  destruct (requests_get env url) as [response|e]; [|eexists _, fs; by split; [|left]].
  destruct (raise_for_status response) as [[]|e]; [|eexists _, fs; by split; [|left]].
  destruct (unique_loop_terminates fs folder
              (_get_file_name guess_extension response (default EmptyString url)))
    as (p & -> & Hfree).
  cbn [mbind option_bind].
  pose proof (save_as_zip_files env p fs Hfree) as Hfiles.
  destruct (save_as_zip env p fs) as [r fs1]. cbn [snd] in Hfiles.
  exists r, fs1. split; [done|].
  destruct Hfiles as [->| ->]; [by left|right; by exists p].
Qed.

(** Seen from a caller: the files only grow, by at most one. *)
Lemma download_file_grows (env : Env) (url : option string) (fs : gset string) :
  exists triple fs',
    download_file guess_extension folder env url fs = Some (Ok triple, fs') /\
    fs ⊆ fs' /\ (size fs' <= size fs + 1)%nat.
Proof.
  unfold download_file.
  destruct (download_body_files env url fs) as (r & fs' & -> & Hfiles).
  cbn [mbind option_bind].
  assert (Hgrow : fs ⊆ fs' /\ (size fs' <= size fs + 1)%nat).
  { destruct Hfiles as [->|(p & Hp & ->)]; [split; [done|lia]|]. split.
    - apply union_subseteq_r.
    - rewrite size_union by (apply disjoint_singleton_l; exact Hp).
      rewrite size_singleton. lia. }
  destruct r as [t|e].
  - by exists t, fs'.
  - destruct (outer_handlers_Raise e) as [msg Hmsg].
    exists (msg, None, true), fs'. by rewrite Hmsg.
Qed.

(** X2. [download_file] never deletes or replaces a file that was there:
    it returns a triple, and afterwards the disk holds what it held,
    plus at most one path, which did not exist before. *)
Theorem download_file_keeps_files (env : Env) (url : option string) (fs : gset string) :
  exists triple fs',
    download_file guess_extension folder env url fs = Some (Ok triple, fs') /\
    (fs' = fs \/ exists p, (p ∉ fs) /\ fs' = {[p]} ∪ fs).
Proof.
  unfold download_file.
  destruct (download_body_files env url fs) as (r & fs' & -> & Hfiles).
  cbn [mbind option_bind].
  destruct r as [t|e].
  - by exists t, fs'.
  - destruct (outer_handlers_Raise e) as [msg Hmsg].
    exists (msg, None, true), fs'. by rewrite Hmsg.
Qed.

(** Every exception of [requests] is an [OSError]. *)
Lemma request_exception_is_file_error (e : exn) :
  isinstance e RequestException = true -> is_file_error e = true.
Proof. destruct e as [c m a]; destruct c; cbv; congruence. Qed.

Lemma file_error_not_request (e : exn) :
  is_file_error e = false ->
  isinstance e RequestsTimeout = false /\ isinstance e RequestException = false.
Proof. destruct e as [c m a]; destruct c; cbv; intuition congruence. Qed.

(** X3. When the request itself fails with an exception of [requests], or
    the server answers with a status from 400 to 599, nothing is written:
    the disk is as before and the triple carries the timeout or the
    request-failure message, no path and the error flag. *)
Theorem download_file_request_failure (env : Env) (url : option string)
        (fs : gset string) :
  (forall e,
     (requests_get env url = Raise e \/
      exists response, requests_get env url = Ok response /\
                       raise_for_status response = Raise e) ->
     isinstance e RequestException = true ->
     download_file guess_extension folder env url fs =
     Some (Ok ((if isinstance e RequestsTimeout then "Download timeout: "
                else "Download request failed: ") +:+ str e, None, true), fs)) /\
  (forall response,
     requests_get env url = Ok response ->
     (400 <= status_code response < 600)%Z ->
     exists detail,
       download_file guess_extension folder env url fs =
       Some (Ok ("Download request failed: " +:+ detail, None, true), fs)).
Proof.
  split.
  - intros e Hraise Hcls. unfold download_file, download_body.
    assert (Hout : outer_handlers (Raise e) =
                   Ok ((if isinstance e RequestsTimeout then "Download timeout: "
                        else "Download request failed: ") +:+ str e, None, true)).
    { unfold outer_handlers. destruct (isinstance e RequestsTimeout); [done|].
      by rewrite Hcls. }
    destruct Hraise as [->|(response & -> & ->)]; cbn [mbind option_bind];
      by rewrite Hout.
  - intros response Hget [Hlo Hhi]. unfold download_file, download_body.
    rewrite Hget. unfold raise_for_status.
    apply Z.leb_le in Hlo. apply Z.ltb_lt in Hhi. rewrite Hlo, Hhi.
    cbn [andb mbind option_bind]. by eexists.
Qed.

(** X4. A failure of the network in the middle of the stream is an
    [OSError] to the inner handler: it is reported as a file write error,
    not as a failed request, and the archive that was begun is removed. *)
Theorem download_file_stream_failure_is_write_error
        (env : Env) (url : option string) (fs : gset string)
        (response : Response) (e : exn) :
  requests_get env url = Ok response ->
  raise_for_status response = Ok tt ->
  archive_open env = None ->
  member_open env = None ->
  write_chunks env 0 0 (chunks env) = Raise e ->
  isinstance e RequestException = true ->
  member_close env = None ->
  archive_close env = None ->
  unlink_fault env = None ->
  download_file guess_extension folder env url fs
  = Some (Ok ("File write error: " +:+ str e, None, true), fs).
Proof.
  intros Hget Hstatus Hopen Hmember Hloop Hcls Hmc Hac Hunlink.
  unfold download_file, download_body. rewrite Hget, Hstatus.
  destruct (unique_loop_terminates fs folder
              (_get_file_name guess_extension response (default EmptyString url)))
    as (p & -> & Hfree).
  cbn [mbind option_bind]. unfold save_as_zip, write_archive.
  rewrite Hopen, Hmember, Hmc, Hac, Hloop. cbn [with_exit].
  rewrite (request_exception_is_file_error e Hcls), Hunlink.
  rewrite bool_decide_eq_true_2 by set_solver.
  assert (Hfs : ({[p]} ∪ fs) ∖ {[p]} = fs).
  { apply set_eq. intros x.
    rewrite elem_of_difference, elem_of_union, elem_of_singleton. split.
    - intros [[Hx|Hx] Hne]; [contradiction|exact Hx].
    - intros Hx. split; [by right|]. intros ->. contradiction. }
  by rewrite Hfs.
Qed.

(** X5. The archive stays behind, next to a triple that reports failure,
    when what stopped the writing is neither an [OSError] nor a
    [BadZipFile], and also when deleting the file fails. *)
Theorem download_file_leaves_partial_archive
        (env : Env) (url : option string) (fs : gset string)
        (response : Response) (e : exn) :
  requests_get env url = Ok response ->
  raise_for_status response = Ok tt ->
  archive_open env = None ->
  (forall p, (write_archive env p fs).1 = Raise e) ->
  is_file_error e = false \/ is_Some (unlink_fault env) ->
  exists p msg,
    _get_unique_file_path fs folder
      (_get_file_name guess_extension response (default EmptyString url)) = Some p /\
    (p ∉ fs) /\
    download_file guess_extension folder env url fs
    = Some (Ok (msg, None, true), {[p]} ∪ fs).
Proof.
  intros Hget Hstatus Hopen Hwrite Hwhy.
  unfold download_file, download_body. rewrite Hget, Hstatus.
  destruct (unique_loop_terminates fs folder
              (_get_file_name guess_extension response (default EmptyString url)))
    as (p & Hp & Hfree).
  rewrite Hp. cbn [mbind option_bind]. unfold save_as_zip.
  specialize (Hwrite p). unfold write_archive in Hwrite |- *.
  rewrite Hopen in Hwrite |- *. cbn [fst] in Hwrite. rewrite Hwrite.
  assert (Hends : exists e', (if is_file_error e
            then if bool_decide (p ∈ ({[p]} ∪ fs : gset string))
                 then match unlink_fault env with
                      | Some e0 => (Raise e0, {[p]} ∪ fs)
                      | None => (Raise (Exn DownloadIOError ("File write error: " +:+ str e)),
                                 ({[p]} ∪ fs) ∖ {[p]})
                      end
                 else (Raise (Exn DownloadIOError ("File write error: " +:+ str e)),
                       {[p]} ∪ fs)
            else (Raise e, {[p]} ∪ fs)) = (Raise e' : result Triple, {[p]} ∪ fs)).
  { destruct (is_file_error e) eqn:He; [|by exists e].
    destruct Hwhy as [?|[e0 He0]]; [done|].
    rewrite bool_decide_eq_true_2 by set_solver. rewrite He0. by exists e0. }
  destruct Hends as [e' ->].
  destruct (outer_handlers_Raise e') as [msg Hmsg].
  exists p, msg. by rewrite Hmsg.
Qed.
End DownloadDisk.

(** A timeout while connecting, into a folder that holds a file. *)
Lemma download_file_request_failure_witness :
  Downloader.download_file (fun _ => None) "d"
    {| Downloader.get_response := Raise (Exn RequestsTimeout "Read timed out.");
       Downloader.archive_open := None; Downloader.member_open := None;
       Downloader.chunks := []; Downloader.stream_end := None;
       Downloader.write_fault := fun _ => None;
       Downloader.member_close := None; Downloader.archive_close := None;
       Downloader.unlink_fault := None |}
    (Some "http://host/f.exe") {["d/f.zip"]}
  = Some (Ok ("Download timeout: Read timed out.", None, true), {["d/f.zip"]}) /\
  exists detail,
    Downloader.download_file (fun _ => None) "d"
      {| Downloader.get_response :=
           Ok {| Downloader.status_code := 404; Downloader.headers := ∅ |};
         Downloader.archive_open := None; Downloader.member_open := None;
         Downloader.chunks := []; Downloader.stream_end := None;
         Downloader.write_fault := fun _ => None;
         Downloader.member_close := None; Downloader.archive_close := None;
         Downloader.unlink_fault := None |}
      (Some "http://host/f.exe") {["d/f.zip"]}
    = Some (Ok ("Download request failed: " +:+ detail, None, true), {["d/f.zip"]}).
Proof.
  split.
  - apply (proj1 (download_file_request_failure (fun _ => None) "d" _
                    (Some "http://host/f.exe") {["d/f.zip"]})
             (Exn RequestsTimeout "Read timed out.")).
    + left. reflexivity.
    + reflexivity.
  - apply (proj2 (download_file_request_failure (fun _ => None) "d" _
                    (Some "http://host/f.exe") {["d/f.zip"]})
             {| Downloader.status_code := 404; Downloader.headers := ∅ |}).
    + reflexivity.
    + cbn. lia.
Defined.

(** The connection is reset after the first chunk. *)
Lemma download_file_stream_failure_is_write_error_witness :
  Downloader.download_file (fun _ => None) "d"
    {| Downloader.get_response :=
         Ok {| Downloader.status_code := 200; Downloader.headers := ∅ |};
       Downloader.archive_open := None; Downloader.member_open := None;
       Downloader.chunks := ["ab"];
       Downloader.stream_end := Some (Exn RequestException "Connection broken");
       Downloader.write_fault := fun _ => None;
       Downloader.member_close := None; Downloader.archive_close := None;
       Downloader.unlink_fault := None |}
    (Some "http://host/f.exe") {["d/f.zip"]}
  = Some (Ok ("File write error: Connection broken", None, true), {["d/f.zip"]}).
Proof.
  apply (download_file_stream_failure_is_write_error (fun _ => None) "d" _
           (Some "http://host/f.exe") {["d/f.zip"]}
           {| Downloader.status_code := 200; Downloader.headers := ∅ |}
           (Exn RequestException "Connection broken")); reflexivity.
Defined.

(** A write that fails with an exception outside the file classes. *)
Lemma download_file_leaves_partial_archive_witness :
  exists p msg,
    Downloader._get_unique_file_path ∅ "d"
      (Downloader._get_file_name (fun _ => None)
         {| Downloader.status_code := 200; Downloader.headers := ∅ |}
         "http://host/f.exe") = Some p /\
    (p ∉ (∅ : gset string)) /\
    Downloader.download_file (fun _ => None) "d"
      {| Downloader.get_response :=
           Ok {| Downloader.status_code := 200; Downloader.headers := ∅ |};
         Downloader.archive_open := None; Downloader.member_open := None;
         Downloader.chunks := ["ab"]; Downloader.stream_end := None;
         Downloader.write_fault := fun _ => Some (Exn Exception "File size too large");
         Downloader.member_close := None; Downloader.archive_close := None;
         Downloader.unlink_fault := None |}
      (Some "http://host/f.exe") ∅
    = Some (Ok (msg, None, true), {[p]} ∪ ∅).
Proof.
  apply (download_file_leaves_partial_archive (fun _ => None) "d" _
           (Some "http://host/f.exe") ∅
           {| Downloader.status_code := 200; Downloader.headers := ∅ |}
           (Exn Exception "File size too large")).
  - reflexivity.
  - reflexivity.
  - reflexivity.
  - intros p. reflexivity.
  - left. reflexivity.
Defined.

(** ** The database manager under faults *)

Section DatabaseFaults.
Import DBManager.

(** What the pool's context manager lets out is never a [pyodbc.Error]:
    a driver error leaves as [DatabaseConnectionError], anything else as
    it is. *)
Lemma reraise_pool_cases {A} (e : exn) :
  exists e', reraise_pool (A := A) e = Raise e' /\
             isinstance e' PyodbcError = false /\
             (isinstance e PyodbcError = true -> exn_cls e' = DatabaseConnectionError) /\
             (isinstance e PyodbcError = false -> e' = e).
Proof.
  unfold reraise_pool. destruct (isinstance e PyodbcError) eqn:He.
  - eexists. split; [reflexivity|]. split; [reflexivity|]. split; [done|congruence].
  - exists e. by repeat split.
Qed.

Lemma get_connection_cases {A} (f : Fault) (db : Database) (body : result A * Database) :
  (exists a, connect_fault f = None /\ body.1 = Ok a /\
             get_connection f db body = (Ok a, body.2)) \/
  (exists e e', get_connection f db body
                = (Raise e', match connect_fault f with Some _ => db | None => body.2 end) /\
                (connect_fault f = Some e \/ (connect_fault f = None /\ body.1 = Raise e)) /\
                isinstance e' PyodbcError = false /\
                (isinstance e PyodbcError = true -> exn_cls e' = DatabaseConnectionError) /\
                (isinstance e PyodbcError = false -> e' = e)).
Proof.
  unfold get_connection. destruct (connect_fault f) as [e|].
  - right. destruct (reraise_pool_cases (A := A) e) as (e' & -> & H).
    exists e, e'. split; [done|]. split; [by left|exact H].
  - destruct body as [[a|e] db'].
    + left. by exists a.
    + right. destruct (reraise_pool_cases (A := A) e) as (e' & -> & H).
      exists e, e'. split; [done|]. split; [by right|exact H].
Qed.

Lemma not_pyodbc_not_integrity (e : exn) :
  isinstance e PyodbcError = false -> isinstance e PyodbcIntegrityError = false.
Proof. destruct e as [c m a]; destruct c; cbv; congruence. Qed.

(** The [except pyodbc.Error] clause of [_get_or_create] never runs:
    the call ends as its [with] block ends. *)
Lemma get_or_create_unfold (f : Fault) (table col value : string) (db : Database) :
  _get_or_create f table col value db
  = get_connection f db (get_or_create_body f table col value db).
Proof.
  unfold _get_or_create.
  destruct (get_connection_cases f db (get_or_create_body f table col value db))
    as [(a & _ & _ & ->)|(e & e' & -> & _ & Hnot & _)]; [done|].
  unfold try_except. by rewrite Hnot.
Qed.

Lemma get_or_create_body_Ok (f : Fault) (table col value : string) (db db' : Database)
      (id : Z) :
  get_or_create_body f table col value db = (Ok id, db') ->
  sql_select table col value db' = Ok (Some id).
Proof.
  unfold get_or_create_body, stmt.
  destruct (execute_fault f 0); [intros [=]|].
  destruct (sql_select table col value db) as [[id0|]|e] eqn:Hsel.
  - intros [= <- <-]. exact Hsel.
  - destruct (execute_fault f 1); [intros [=]|].
    destruct (sql_insert table col value (rival_commits f table col db)) as [db2|e];
      [|intros [=]].
    destruct (execute_fault f 2); [intros [=]|].
    destruct (execute_fault f 3); [intros [=]|].
    destruct (sql_select table col value db2) as [[id1|]|e] eqn:Hsel2;
      intros [=]; by subst.
  - intros [=].
Qed.

Lemma get_or_create_Ok_body (f : Fault) (table col value : string)
      (db db' : Database) (id : Z) :
  _get_or_create f table col value db = (Ok id, db') ->
  connect_fault f = None /\
  get_or_create_body f table col value db = (Ok id, db').
Proof.
  rewrite get_or_create_unfold. unfold get_connection.
  destruct (connect_fault f) as [e|].
  { destruct (reraise_pool_cases (A := Z) e) as (e' & -> & _). discriminate. }
  destruct (get_or_create_body f table col value db) as [[id0|e] d].
  - by intros [= <- <-].
  - destruct (reraise_pool_cases (A := Z) e) as (e' & -> & _). discriminate.
Qed.

(** X6. Round trip: whatever the faults and whatever another session does
    in between, an id that [_get_or_create] returns is the id a lookup of
    the value finds in the database it leaves. *)
Theorem get_or_create_lookup_after (f : Fault) (table col value : string)
        (db db' : Database) (id : Z) :
  _get_or_create f table col value db = (Ok id, db') ->
  sql_select table col value db' = Ok (Some id).
Proof.
  intros Hrun. apply get_or_create_Ok_body in Hrun as [_ Hbody].
  unfold get_or_create_body, stmt in Hbody.
  destruct (execute_fault f 0); [discriminate|].
  destruct (sql_select table col value db) as [[id0|]|e] eqn:Hsel; [| |discriminate].
  - injection Hbody as <- <-. exact Hsel.
  - destruct (execute_fault f 1); [discriminate|].
    destruct (sql_insert table col value (rival_commits f table col db)) as [db2|e];
      [|discriminate].
    destruct (execute_fault f 2); [discriminate|].
    destruct (execute_fault f 3); [discriminate|].
    destruct (sql_select table col value db2) as [[id1|]|e] eqn:Hsel2;
      [|discriminate..].
    by injection Hbody as <- <-.
Qed.

Lemma get_or_create_body_Raise (f : Fault) (table col value : string)
      (db db' : Database) (e : exn) :
  (forall n e, execute_fault f n = Some e -> isinstance e PyodbcError = true) ->
  get_or_create_body f table col value db = (Raise e, db') ->
  isinstance e PyodbcError = true \/ exn_cls e = DatabaseInsertError.
Proof.
  intros Hf. unfold get_or_create_body, stmt.
  assert (Hsel : forall d e0, sql_select table col value d = Raise e0 ->
                              isinstance e0 PyodbcError = true).
  { intros d e0. unfold sql_select. destruct (tables d !! table) as [t|].
    - destruct (String.eqb col (column t)); [discriminate|]. by intros [= <-].
    - by intros [= <-]. }
  assert (Hins : forall d e0, sql_insert table col value d = Raise e0 ->
                              isinstance e0 PyodbcError = true).
  { intros d e0. unfold sql_insert. destruct (tables d !! table) as [t|].
    - destruct (String.eqb col (column t)).
      + destruct (unique t && has_value value t); [|discriminate]. by intros [= <-].
      + by intros [= <-].
    - by intros [= <-]. }
  destruct (execute_fault f 0) as [e0|] eqn:H0.
  { intros [= <- _]. left. by apply (Hf 0). }
  destruct (sql_select table col value db) as [[id0|]|e0] eqn:Hs; [discriminate| |].
  2:{ intros [= <- _]. left. by apply (Hsel db). }
  destruct (execute_fault f 1) as [e1|] eqn:H1.
  { intros [= <- _]. left. by apply (Hf 1). }
  destruct (sql_insert table col value (rival_commits f table col db)) as [db2|e1] eqn:Hi.
  2:{ intros [= <- _]. left. by apply (Hins (rival_commits f table col db)). }
  destruct (execute_fault f 2) as [e2|] eqn:H2.
  { intros [= <- _]. left. by apply (Hf 2). }
  destruct (execute_fault f 3) as [e3|] eqn:H3.
  { intros [= <- _]. left. by apply (Hf 3). }
  destruct (sql_select table col value db2) as [[id1|]|e3] eqn:Hs2; [discriminate| |].
  - intros [= <- _]. by right.
  - intros [= <- _]. left. by apply (Hsel db2).
Qed.

(** X7. When everything that goes wrong comes from the driver,
    [_get_or_create] fails with [DatabaseConnectionError], or with
    [DatabaseInsertError] when the new row cannot be read back; the
    [DatabaseQueryError] of its own handler never leaves it. *)
Theorem get_or_create_driver_errors (f : Fault) (table col value : string)
        (db db' : Database) (e : exn) :
  driver_faults f ->
  _get_or_create f table col value db = (Raise e, db') ->
  exn_cls e = DatabaseConnectionError \/ exn_cls e = DatabaseInsertError.
Proof.
  intros [Hconn Hexec]. rewrite get_or_create_unfold. intros Hrun.
  destruct (get_connection_cases f db (get_or_create_body f table col value db))
    as [(a & _ & _ & Heq)|(e0 & e' & Heq & Hfrom & _ & Hconv & Hsame)];
    rewrite Heq in Hrun; [discriminate|].
  injection Hrun as -> _.
  destruct Hfrom as [Hc|[_ Hbody]].
  - left. apply Hconv. by apply Hconn.
  - destruct (get_or_create_body f table col value db) as [r d] eqn:Hb.
    cbn in Hbody. subst r.
    destruct (get_or_create_body_Raise f table col value db d e0 Hexec Hb) as [Hpy|Hins].
    + left. by apply Hconv.
    + destruct (isinstance e0 PyodbcError) eqn:Hpy.
      * left. by apply Hconv.
      * right. by rewrite (Hsame eq_refl).
Qed.

(** X8. [insert_crack] under driver faults: the database is left as it
    was and the exception is the pool's [DatabaseConnectionError]; the
    [DatabaseInsertError] of its own handlers is not reached. *)
Theorem insert_crack_driver_errors (f : Fault) (job : Z)
        (title size extension zipfile : option string) (hash_id : option Z)
        (db db' : Database) (e : exn) :
  driver_faults f ->
  insert_crack f job title size extension zipfile hash_id db = (Raise e, db') ->
  exn_cls e = DatabaseConnectionError /\ db' = db.
Proof.
  intros [Hconn Hexec]. unfold insert_crack.
  set (body := match execute_fault f 0, execute_fault f 1 with
               | Some e0, _ => (Raise e0, db)
               | None, Some e0 => (Raise e0, db)
               | None, None =>
                   (Ok (next_crack db),
                    add_crack job title size extension zipfile hash_id db)
               end).
  assert (Hbody : forall e0, body.1 = Raise e0 ->
                             isinstance e0 PyodbcError = true /\ body.2 = db).
  { subst body. intros e0.
    destruct (execute_fault f 0) as [e1|] eqn:H0.
    - intros [= <-]. split; [by apply (Hexec 0)|done].
    - destruct (execute_fault f 1) as [e1|] eqn:H1; [|discriminate].
      intros [= <-]. split; [by apply (Hexec 1)|done]. }
  destruct (get_connection_cases f db body)
    as [(a & _ & _ & ->)|(e0 & e' & -> & Hfrom & Hnot & Hconv & _)].
  - cbn. discriminate.
  - unfold try_except. rewrite (not_pyodbc_not_integrity e' Hnot), Hnot.
    intros [= <- <-].
    destruct Hfrom as [Hc|[Hc Hb]].
    + rewrite Hc. split; [|done]. apply Hconv. by apply Hconn.
    + rewrite Hc. destruct (Hbody e0 Hb) as [Hpy ->]. split; [by apply Hconv|done].
Qed.

(** X9. [insert_error] never returns [None]: its two handlers, which
    would, see no [pyodbc.Error], because the pool has already turned it
    into a [DatabaseConnectionError]. It returns the new id or raises,
    and when it raises no row was added. *)
Theorem insert_error_never_none (f : Fault) (message : string) (crack : Z)
        (db : Database) :
  (insert_error f message crack db
   = (Ok (Some (next_error db)), add_error message crack db)) \/
  (exists e, insert_error f message crack db = (Raise e, db) /\
             isinstance e PyodbcError = false /\
             (driver_faults f -> exn_cls e = DatabaseConnectionError)).
Proof.
  unfold insert_error.
  set (body := match execute_fault f 0, execute_fault f 1 with
               | Some e0, _ => (Raise e0, db)
               | None, Some e0 => (Raise e0, db)
               | None, None => (Ok (Some (next_error db)), add_error message crack db)
               end).
  assert (Hbody : (body = (Ok (Some (next_error db)), add_error message crack db)) \/
                  (exists e0 n, body = (Raise e0, db) /\ execute_fault f n = Some e0)).
  { subst body. destruct (execute_fault f 0) as [e1|] eqn:H0.
    - right. by exists e1, 0%nat.
    - destruct (execute_fault f 1) as [e1|] eqn:H1; [|by left].
      right. by exists e1, 1%nat. }
  destruct (get_connection_cases f db body)
    as [(a & _ & Ha & ->)|(e0 & e' & -> & Hfrom & Hnot & Hconv & _)].
  - left. destruct Hbody as [Hb|(e0 & n & Hb & _)]; rewrite Hb in Ha |- *; cbn in *.
    + by injection Ha as <-.
    + discriminate.
  - right. unfold try_except. rewrite (not_pyodbc_not_integrity e' Hnot), Hnot.
    exists e'. split.
    + destruct Hfrom as [Hc|[Hc Hb0]]; rewrite Hc; [done|].
      destruct Hbody as [Hb|(e1 & n & Hb & _)]; rewrite Hb in Hb0 |- *;
        [discriminate|done].
    + split; [done|]. intros [Hconn Hexec]. apply Hconv.
      destruct Hfrom as [Hc|[Hc Hb]]; [by apply Hconn|].
      destruct Hbody as [Hb'|(e1 & n & Hb' & Hn)]; rewrite Hb' in Hb; cbn in Hb.
      * discriminate.
      * injection Hb as <-. by apply (Hexec n).
Qed.
End DatabaseFaults.

Lemma get_or_create_lookup_after_witness :
  DBManager.sql_select "Hash" "Hash" "ab12"
    (DBManager._get_or_create contended "Hash" "Hash" "cd34" hash_db).2
  = Ok (Some 1%Z) /\
  DBManager.sql_select "Hash" "Hash" "cd34"
    (DBManager._get_or_create contended "Hash" "Hash" "cd34" hash_db).2
  = Ok (Some 2%Z).
Proof.
  split; [reflexivity|].
  apply (get_or_create_lookup_after contended "Hash" "Hash" "cd34" hash_db).
  reflexivity.
Defined.

Lemma first_statement_fails_driver : driver_faults first_statement_fails.
Proof.
  split.
  - intros e [=].
  - intros n e. cbn. destruct (n =? 0)%nat; [|discriminate]. by intros [= <-].
Qed.

Lemma get_or_create_driver_errors_witness :
  exn_cls (Exn DatabaseConnectionError
             "Failed to connect to database: Communication link failure")
  = DatabaseConnectionError \/
  exn_cls (Exn DatabaseConnectionError
             "Failed to connect to database: Communication link failure")
  = DatabaseInsertError.
Proof.
  apply (get_or_create_driver_errors first_statement_fails "Hash" "Hash" "ab12"
           hash_db hash_db).
  - exact first_statement_fails_driver.
  - reflexivity.
Defined.

Lemma insert_crack_driver_errors_witness :
  exn_cls (Exn DatabaseConnectionError
             "Failed to connect to database: Communication link failure")
  = DatabaseConnectionError /\ hash_db = hash_db.
Proof.
  apply (insert_crack_driver_errors first_statement_fails 7 (Some "t") (Some "1 MB")
           (Some "ZIP") None None hash_db hash_db).
  - exact first_statement_fails_driver.
  - reflexivity.
Defined.

(** ** Rows are only ever appended *)

Section DatabaseFrame.
Import DBManager.

Lemma matching_nil (value : string) (t : Table) :
  has_value value t = false -> value ∉ (rows t).*2.
Proof.
  unfold has_value, matching. intros H.
  apply negb_false_iff, bool_decide_eq_true in H.
  intros (r & -> & Hr)%list_elem_of_fmap.
  assert (Hin : r ∈ filter (fun r0 : Z * string => r0.2 = r.2) (rows t))
    by (apply list_elem_of_filter; by split).
  rewrite H in Hin. by apply elem_of_nil in Hin.
Qed.

Lemma add_row_wf (value : string) (t : Table) :
  table_wf t -> unique t && has_value value t = false -> table_wf (add_row value t).
Proof.
  intros (Hids & Hbelow & Huniq) Hcheck. unfold table_wf, add_row; cbn.
  rewrite !fmap_app. cbn. repeat split.
  - apply NoDup_app. split; [exact Hids|]. split; [|apply NoDup_singleton].
    intros x (r & -> & Hr)%list_elem_of_fmap Hx%list_elem_of_singleton.
    rewrite Forall_forall in Hbelow. specialize (Hbelow r Hr). lia.
  - apply Forall_app. split.
    + eapply Forall_impl; [exact Hbelow|]. intros r Hr. cbn in *. lia.
    + apply Forall_singleton. cbn. lia.
  - intros Hu. rewrite Hu in Hcheck. cbn in Hcheck.
    apply NoDup_app. split; [by apply Huniq|]. split; [|apply NoDup_singleton].
    intros x Hx Hv%list_elem_of_singleton. subst x.
    by apply (matching_nil value t).
Qed.

Lemma extends_refl (table : string) (db : Database) : extends table [] db db.
Proof.
  unfold extends. split_and!; try done.
  destruct (tables db !! table) as [t|] eqn:Ht; [|done].
  exists t. rewrite app_nil_r. split_and!; done.
Qed.

Lemma extends_trans (table : string) (new1 new2 : list (Z * string))
      (db db1 db2 : Database) :
  extends table new1 db db1 -> extends table new2 db1 db2 ->
  extends table (new1 ++ new2) db db2.
Proof.
  intros (Hc1 & Hn1 & He1 & Hx1 & Ho1 & Ht1) (Hc2 & Hn2 & He2 & Hx2 & Ho2 & Ht2).
  unfold extends. split_and!; try congruence.
  - intros other Hne. rewrite (Ho2 other Hne). by apply Ho1.
  - destruct (tables db !! table) as [t|].
    + destruct Ht1 as (t1 & Hl1 & Hcol1 & Hu1 & Hr1 & Hwf1). rewrite Hl1 in Ht2.
      destruct Ht2 as (t2 & Hl2 & Hcol2 & Hu2 & Hr2 & Hwf2).
      exists t2. split_and!; try congruence.
      * by rewrite Hr2, Hr1, app_assoc.
      * intros H. by apply Hwf2, Hwf1.
    + destruct Ht1 as [Hl1 ->]. rewrite Hl1 in Ht2. by destruct Ht2 as [Hl2 ->].
Qed.

Lemma sql_insert_extends (table col value : string) (db db' : Database) :
  sql_insert table col value db = Ok db' ->
  exists id, extends table [(id, value)] db db'.
Proof.
  unfold sql_insert. destruct (tables db !! table) as [t|] eqn:Ht; [|discriminate].
  destruct (String.eqb col (column t)); [|discriminate].
  destruct (unique t && has_value value t) eqn:Hcheck; [discriminate|].
  intros [= <-]. exists (next_id t). unfold extends, set_table; cbn.
  split_and!; try done.
  - intros other Hne. by rewrite lookup_insert_ne.
  - rewrite Ht. exists (add_row value t). rewrite lookup_insert_eq.
    split_and!; try done. intros Hwf. by apply add_row_wf.
Qed.

Lemma rival_commits_extends (f : Fault) (table col : string) (db : Database) :
  exists new, extends table new db (rival_commits f table col db) /\
              (length new <= 1)%nat /\
              Forall (fun r => rival f = Some r.2) new.
Proof.
  unfold rival_commits. destruct (rival f) as [v|] eqn:Hv.
  - destruct (sql_insert table col v db) as [db'|e] eqn:Hins.
    + destruct (sql_insert_extends _ _ _ _ _ Hins) as [id Hext].
      exists [(id, v)]. split; [exact Hext|]. split; [cbn; lia|].
      by apply Forall_singleton.
    + exists []. split; [apply extends_refl|]. split; [cbn; lia|constructor].
  - exists []. split; [apply extends_refl|]. split; [cbn; lia|constructor].
Qed.

Lemma get_or_create_body_extends (f : Fault) (table col value : string) (db : Database) :
  exists new,
    extends table new db (get_or_create_body f table col value db).2 /\
    (length new <= 2)%nat /\
    Forall (fun r => r.2 = value \/ rival f = Some r.2) new.
Proof.
  destruct (rival_commits_extends f table col db) as (new1 & Hext1 & Hlen1 & Hall1).
  assert (Hsame : exists new,
             extends table new db db /\ (length new <= 2)%nat /\
             Forall (fun r => r.2 = value \/ rival f = Some r.2) new).
  { exists []. split; [apply extends_refl|]. split; [cbn; lia|constructor]. }
  assert (Hrival : exists new,
             extends table new db (rival_commits f table col db) /\
             (length new <= 2)%nat /\
             Forall (fun r => r.2 = value \/ rival f = Some r.2) new).
  { exists new1. split; [exact Hext1|]. split; [lia|].
    eapply Forall_impl; [exact Hall1|]. intros r Hr. by right. }
  unfold get_or_create_body, stmt.
  destruct (execute_fault f 0); [exact Hsame|].
  destruct (sql_select table col value db) as [[id0|]|e]; [exact Hsame| |exact Hsame].
  destruct (execute_fault f 1); [exact Hrival|].
  destruct (sql_insert table col value (rival_commits f table col db)) as [db2|e] eqn:Hins;
    [|exact Hrival].
  destruct (execute_fault f 2); [exact Hrival|].
  destruct (sql_insert_extends _ _ _ _ _ Hins) as [id Hext2].
  assert (Hboth : exists new,
             extends table new db db2 /\ (length new <= 2)%nat /\
             Forall (fun r => r.2 = value \/ rival f = Some r.2) new).
  { exists (new1 ++ [(id, value)]). split; [by eapply extends_trans|].
    split; [rewrite length_app; cbn; lia|].
    apply Forall_app. split.
    - eapply Forall_impl; [exact Hall1|]. intros r Hr. by right.
    - apply Forall_singleton. by left. }
  destruct (execute_fault f 3); [exact Hboth|].
  destruct (sql_select table col value db2) as [[id1|]|e]; exact Hboth.
Qed.

(** X10. Whatever fails and whatever another session inserts,
    [_get_or_create] only appends to its table: at most two rows, its own
    value and the other session's; no existing row is changed or
    removed; the other tables, the cracks and the errors are untouched;
    and when the ids of the table were distinct and below the next
    identity value, and a unique column free of duplicates, they still
    are. *)
Theorem get_or_create_appends_only (f : Fault) (table col value : string)
        (db : Database) :
  exists new,
    extends table new db (_get_or_create f table col value db).2 /\
    (length new <= 2)%nat /\
    Forall (fun r => r.2 = value \/ rival f = Some r.2) new.
Proof.
  rewrite get_or_create_unfold. unfold get_connection.
  destruct (connect_fault f).
  { exists []. split; [apply extends_refl|]. split; [cbn; lia|constructor]. }
  pose proof (get_or_create_body_extends f table col value db) as H.
  destruct (get_or_create_body f table col value db) as [[id|e] db']; exact H.
Qed.
End DatabaseFrame.

(** ** What a page of items leaves behind *)

Section PageRecords.
Import DatoidCrawler.
Variable repr_float : spec_float -> string.
Variable guess_extension : string -> option string.
Variable st : Settings.
Variable folder : string.
Variable job_id : Z.

Lemma records_refl (db : DBManager.Database) : records job_id [] [] db db.
Proof. unfold records. rewrite !app_nil_r. split_and!; done || constructor. Qed.

Lemma records_trans (added1 added2 : list DBManager.CrackRow)
      (errs1 errs2 : list DBManager.ErrorRow) (db db1 db2 : DBManager.Database) :
  records job_id added1 errs1 db db1 -> records job_id added2 errs2 db1 db2 ->
  records job_id (added1 ++ added2) (errs1 ++ errs2) db db2.
Proof.
  intros (Hc1 & He1 & Hj1 & Hr1 & Ht1) (Hc2 & He2 & Hj2 & Hr2 & Ht2).
  unfold records. split_and!.
  - by rewrite Hc2, Hc1, app_assoc.
  - by rewrite He2, He1, app_assoc.
  - by apply Forall_app.
  - apply Forall_app. split.
    + eapply Forall_impl; [exact Hr1|]. intros er (c & Hc & Heq).
      exists c. split; [|done]. apply elem_of_app. by left.
    + eapply Forall_impl; [exact Hr2|]. intros er (c & Hc & Heq).
      exists c. split; [|done]. apply elem_of_app. by right.
  - intros table Hne. rewrite (Ht2 table Hne). by apply Ht1.
Qed.

(** [insert_error] adds its row, with the crack it was given, or adds
    nothing. *)
Lemma insert_error_state (f : DBManager.Fault) (message : string) (crack : Z)
      (db : DBManager.Database) :
  (exists e, DBManager.insert_error f message crack db = (Raise e, db)) \/
  (exists id, DBManager.insert_error f message crack db
              = (Ok id, DBManager.add_error message crack db)).
Proof.
  unfold DBManager.insert_error, DBManager.get_connection.
  assert (Hraise : forall e0 : exn,
    (exists e, try_except
                 (try_except (DBManager.reraise_pool (A := option Z) e0)
                    PyodbcIntegrityError (fun _ => Ok None))
                 PyodbcError (fun _ => Ok None) = Raise e)).
  { intros e0. destruct (reraise_pool_cases (A := option Z) e0) as (e' & -> & Hnot & _).
    exists e'. unfold try_except.
    by rewrite (not_pyodbc_not_integrity e' Hnot), Hnot. }
  destruct (DBManager.connect_fault f) as [e0|].
  { left. destruct (Hraise e0) as [e ->]. by exists e. }
  destruct (DBManager.execute_fault f 0) as [e0|].
  { left. destruct (Hraise e0) as [e ->]. by exists e. }
  destruct (DBManager.execute_fault f 1) as [e0|].
  { left. destruct (Hraise e0) as [e ->]. by exists e. }
  right. by eexists.
Qed.

Lemma insert_errors_rows (env : ItemEnv) (msgs : list (option string)) (crack : Z)
      (db : DBManager.Database) :
  exists errs,
    DBManager.errors (insert_errors env msgs crack db).2 = DBManager.errors db ++ errs /\
    Forall (fun er => DBManager.error_crack er = crack) errs /\
    DBManager.cracks (insert_errors env msgs crack db).2 = DBManager.cracks db /\
    DBManager.tables (insert_errors env msgs crack db).2 = DBManager.tables db.
Proof.
  revert db. induction msgs as [|m rest IH]; intros db; cbn [insert_errors].
  - exists []. rewrite app_nil_r. by split_and!.
  - destruct (insert_error_state (error_fault env) (fmt m) crack db)
      as [[e ->]|[id ->]].
    + exists []. rewrite app_nil_r. by split_and!.
    + destruct (IH (DBManager.add_error (fmt m) crack db)) as (errs & He & Hall & Hc & Ht).
      destruct (insert_errors env rest crack _) as [calls db2]. cbn [fst snd] in *.
      eexists (_ :: errs). split_and!.
      * rewrite He. cbn. by rewrite <- app_assoc.
      * by constructor.
      * by rewrite Hc.
      * by rewrite Ht.
Qed.

Lemma save_crack_records (env : ItemEnv) (l : Locals) (zipfile : option string)
      (hash_id : option Z) (db : DBManager.Database) :
  exists added errs,
    records job_id added errs db (save_crack job_id env l zipfile hash_id db).2 /\
    (length added <= 1)%nat /\
    DBManager.tables (save_crack job_id env l zipfile hash_id db).2 = DBManager.tables db.
Proof.
  unfold save_crack.
  destruct (insert_crack_answer (crack_fault env) job_id (file_title l) (file_size l)
              (file_extension l) zipfile hash_id db) as [->|[e ->]].
  - destruct (insert_errors_rows env (failure_messages l) (DBManager.next_crack db)
                (DBManager.add_crack job_id (file_title l) (file_size l)
                   (file_extension l) zipfile hash_id db))
      as (errs & He & Hall & Hc & Ht).
    destruct (insert_errors env _ _ _) as [calls db2]. cbn [fst snd] in *.
    eexists [_], errs. split; [|split; [cbn; lia|by rewrite Ht]].
    unfold records. split_and!.
    + by rewrite Hc.
    + by rewrite He.
    + by repeat constructor.
    + eapply Forall_impl; [exact Hall|]. intros er Her. eexists.
      split; [apply list_elem_of_singleton; reflexivity|]. by rewrite Her.
    + intros table _. by rewrite Ht.
  - exists [], []. cbn [snd]. split; [apply records_refl|]. split; [cbn; lia|done].
Qed.

Lemma insert_hash_state (f : DBManager.Fault) (h : string) (db : DBManager.Database) :
  exists new, extends "Hash" new db (DBManager.insert_hash f h db).2.
Proof.
  unfold DBManager.insert_hash. rewrite get_or_create_unfold.
  unfold DBManager.get_connection.
  destruct (DBManager.connect_fault f).
  { exists []. apply extends_refl. }
  destruct (get_or_create_body_extends f "Hash" "Hash" h db) as (new & Hext & _).
  exists new.
  destruct (DBManager.get_or_create_body f "Hash" "Hash" h db) as [[id|e] db'];
    exact Hext.
Qed.

Lemma save_records (env : ItemEnv) (l : Locals) (db : DBManager.Database) :
  exists added errs,
    records job_id added errs db (save job_id env l db).2 /\ (length added <= 1)%nat.
Proof.
  assert (Hplain : forall zipfile hash_id,
    exists added errs,
      records job_id added errs db (save_crack job_id env l zipfile hash_id db).2 /\
      (length added <= 1)%nat).
  { intros zipfile hash_id.
    destruct (save_crack_records env l zipfile hash_id db) as (a & e & H & Hlen & _).
    by exists a, e. }
  unfold save. destruct (download_path l) as [path|]; [|apply Hplain].
  destruct (Py.truthy (hash_value l)); [|apply Hplain].
  destruct (insert_hash_state (hash_fault env) (fmt (hash_value l)) db)
    as (new & Hc & _ & He & _ & Ht & _).
  destruct (DBManager.insert_hash _ _ _) as [[id|e] db0]; cbn [snd] in *.
  - destruct (save_crack_records env l (Some (Downloader.basename path)) (Some id) db0)
      as (added & errs & (Hc1 & He1 & Hj & Hr & _) & Hlen & Ht1).
    destruct (save_crack job_id env l _ _ db0) as [calls db1]. cbn [snd] in *.
    exists added, errs. split; [|done]. unfold records. split_and!.
    + by rewrite Hc1, Hc.
    + by rewrite He1, He.
    + done.
    + done.
    + intros table Hne. rewrite Ht1. by apply Ht.
  - exists [], []. split; [|cbn; lia]. unfold records. rewrite !app_nil_r.
    split_and!; done || constructor.
Qed.

Lemma item_try_files (env : ItemEnv) (fs fs' : gset string) (l : Locals)
      (raised : option exn) :
  item_try repr_float guess_extension st folder env fs = Some (l, fs', raised) ->
  fs ⊆ fs' /\ (size fs' <= size fs + 1)%nat.
Proof.
  assert (Hsame : fs ⊆ fs /\ (size fs <= size fs + 1)%nat) by (split; [done|lia]).
  unfold item_try.
  destruct (text_attr env) as [file_info|e]; [|by intros [= _ <- _]].
  destruct (get_parsed_file_info file_info) as [[[title extension] size]|e];
    [|by intros [= _ <- _]].
  destruct (Downloader.validate_file_size repr_float st size) as [b|e].
  2:{ destruct (isinstance e DownloadFileTooLargeError); by intros [= _ <- _]. }
  destruct (resolve_link env) as [download_link|e]; [|by intros [= _ <- _]].
  destruct (download_file_grows guess_extension folder (download_env env)
              download_link fs) as ([[info path] failed] & fs1 & -> & Hgrow).
  cbn [mbind option_bind]. by intros [= _ <- _].
Qed.

Lemma crawl_item_records (env : ItemEnv) (fs : gset string) (db : DBManager.Database) :
  exists run added errs,
    crawl_item repr_float guess_extension st folder job_id env fs db = Some run /\
    records job_id added errs db (database run) /\ (length added <= 1)%nat /\
    fs ⊆ files run /\ (size (files run) <= size fs + 1)%nat.
Proof.
  unfold crawl_item.
  destruct (item_try_ends repr_float guess_extension st folder env fs)
    as (l & fs' & raised & Htry & _).
  destruct (item_try_files env fs fs' l raised Htry) as [Hsub Hsize].
  rewrite Htry. cbn [mbind option_bind].
  destruct (save_records env (item_except l raised) db) as (added & errs & Hrec & Hlen).
  destruct (save job_id env (item_except l raised) db) as [calls db'].
  eexists _, added, errs. split; [reflexivity|]. cbn. by split_and!.
Qed.

Lemma final_cons (run : ItemRun) (runs : list ItemRun) (fs : gset string)
      (db : DBManager.Database) :
  final_files (run :: runs) fs = final_files runs (files run) /\
  final_database (run :: runs) db = final_database runs (database run).
Proof.
  unfold final_files, final_database. rewrite last_cons.
  by destruct (last runs).
Qed.

(** The part of this that the page loop needs. *)
Lemma crawl_items_frame (items : list ItemEnv) (fs : gset string)
      (db : DBManager.Database) :
  exists runs added errs,
    crawl_items repr_float guess_extension st folder job_id items fs db = Some runs /\
    records job_id added errs db (final_database runs db) /\
    fs ⊆ final_files runs fs.
Proof.
  revert fs db. induction items as [|item rest IH]; intros fs db.
  - exists [], [], []. cbn. split_and!; try done. apply records_refl.
  - cbn [crawl_items].
    destruct (crawl_item_records item fs db)
      as (run & added1 & errs1 & -> & Hrec1 & _ & Hsub1 & _).
    cbn [mbind option_bind].
    destruct (IH (files run) (database run))
      as (runs & added2 & errs2 & -> & Hrec2 & Hsub2).
    exists (run :: runs), (added1 ++ added2), (errs1 ++ errs2).
    destruct (final_cons run runs fs db) as [-> ->].
    split_and!; [done|by eapply records_trans|by etrans].
Qed.

End PageRecords.

(** ** The connection pool *)

Section PoolProperties.
Import ConnectionPool.

Lemma filter_remove_NoDup (c : nat) (l : list nat) :
  NoDup l -> c ∈ l -> l ≡ₚ c :: filter (fun x => x <> c) l.
Proof.
  induction 1 as [|x l Hx Hnd IH]; intros Hc.
  - by apply elem_of_nil in Hc.
  - destruct (decide (x = c)) as [->|Hne].
    + rewrite filter_cons_False by (intros H; by apply H).
      assert (Hall : filter (fun x => x <> c) l = l).
      { clear IH Hc Hnd. induction l as [|y l IHl]; [done|].
        apply not_elem_of_cons in Hx as [Hy Hl].
        rewrite filter_cons_True by congruence. by rewrite IHl. }
      by rewrite Hall.
    + apply elem_of_cons in Hc as [->|Hc]; [done|].
      rewrite filter_cons_True by done.
      rewrite (IH Hc) at 1. apply Permutation_swap.
Qed.

Lemma enter_invariant (connect : option exn) (s : State) :
  invariant s -> invariant (enter connect s).2.
Proof.
  intros (Hlen & Hnd & Hlt & Hcount). unfold enter.
  destruct (reverse (_pool s)) as [|conn rest] eqn:Hrev.
  - destruct connect as [e|]; [done|]. cbn.
    apply (f_equal reverse) in Hrev. rewrite reverse_involutive in Hrev.
    cbn in Hrev. rewrite Hrev in *. cbn in *. unfold invariant; cbn. split_and!.
    + done.
    + apply NoDup_cons. split; [|done].
      intros Hin. rewrite Forall_forall in Hlt. specialize (Hlt _ Hin). lia.
    + constructor; [lia|]. eapply Forall_impl; [exact Hlt|]. intros c Hc. cbn in Hc. lia.
    + by rewrite Hcount.
  - apply (f_equal reverse) in Hrev. rewrite reverse_involutive in Hrev.
    rewrite reverse_cons in Hrev. rewrite Hrev in *.
    rewrite <- app_assoc in Hnd, Hlt, Hcount. cbn in Hnd, Hlt, Hcount.
    unfold invariant; cbn. split_and!; try done.
    rewrite length_app in Hlen. cbn in Hlen. lia.
Qed.

Lemma exit_invariant (conn : nat) (s : State) :
  conn ∈ in_use s -> invariant s -> invariant (exit conn s).
Proof.
  intros Hin (Hlen & Hnd & Hlt & Hcount).
  assert (Hperm : in_use s ≡ₚ conn :: filter (fun c => c <> conn) (in_use s)).
  { apply filter_remove_NoDup; [|done].
    apply NoDup_app in Hnd as (_ & _ & Hnd). by apply NoDup_app in Hnd as (Hnd & _). }
  unfold exit. destruct (Z.of_nat (length (_pool s)) <? pool_size s)%Z eqn:Hroom.
  - apply Z.ltb_lt in Hroom. unfold invariant; cbn.
    assert (Hp : (_pool s ++ [conn]) ++ filter (fun c => c <> conn) (in_use s) ++ closed s
                 ≡ₚ _pool s ++ in_use s ++ closed s).
    { rewrite <- app_assoc. cbn. by rewrite Hperm at 2. }
    rewrite Hp. split_and!; try done.
    rewrite length_app. cbn. lia.
  - unfold invariant; cbn.
    assert (Hp : _pool s ++ filter (fun c => c <> conn) (in_use s) ++ conn :: closed s
                 ≡ₚ _pool s ++ in_use s ++ closed s).
    { rewrite Hperm at 2. cbn. by rewrite Permutation_middle. }
    rewrite Hp. by split_and!.
Qed.

Lemma step_invariant (s : State) (ev : Event) : invariant s -> invariant (step s ev).
Proof.
  intros Hinv. destruct ev as [connect|conn]; cbn.
  - by apply enter_invariant.
  - case_bool_decide; [by apply exit_invariant|done].
Qed.

Lemma init_invariant (size : Z) : invariant (init size).
Proof. unfold invariant, init; cbn. split_and!; (lia || constructor || done). Qed.

(** X12. However threads take and give back connections, the idle list is
    never longer than [pool_size], no connection is at once idle, in use
    or closed in two ways (so none is lent twice, and none is lent after
    it was closed), and every connection opened is accounted for. *)
Theorem pool_keeps_invariant (size : Z) (events : list Event) :
  invariant (run events (init size)).
Proof.
  unfold run. generalize (init_invariant size). generalize (init size).
  induction events as [|ev events IH]; intros s Hinv; [done|].
  cbn. apply IH. by apply step_invariant.
Qed.

Lemma run_app (events1 events2 : list Event) (s : State) :
  run (events1 ++ events2) s = run events2 (run events1 s).
Proof. unfold run. apply foldl_app. Qed.

(** X13. [pool_size] limits the idle connections that are kept, not the
    connections that are open: [n] threads inside their [with] blocks at
    once hold [n] connections, whatever the pool size. *)
Theorem pool_size_is_no_limit (size : Z) (n : nat) :
  in_use (run (replicate n (Enter None)) (init size)) = reverse (seq 0 n) /\
  opened (run (replicate n (Enter None)) (init size)) = n /\
  _pool (run (replicate n (Enter None)) (init size)) = [] /\
  closed (run (replicate n (Enter None)) (init size)) = [].
Proof.
  induction n as [|n (Huse & Hopen & Hpool & Hclosed)]; [done|].
  replace (S n) with (n + 1)%nat by lia.
  rewrite replicate_add, run_app. cbn [replicate run foldl step].
  unfold enter. rewrite Hpool. cbn. rewrite Huse, Hopen, Hclosed.
  split_and!; try done; [|lia].
  by rewrite seq_app, reverse_app.
Qed.

Lemma get_connection_idle {A} (connect : option exn) (body : nat -> result A)
      (s : State) :
  (1 <= pool_size s)%Z -> in_use s = [] -> closed s = [] ->
  (length (_pool s) <= 1)%nat -> length (_pool s) = opened s ->
  pool_size (get_connection connect body s).2 = pool_size s /\
  in_use (get_connection connect body s).2 = [] /\
  closed (get_connection connect body s).2 = [] /\
  (length (_pool (get_connection connect body s).2) <= 1)%nat /\
  length (_pool (get_connection connect body s).2)
  = opened (get_connection connect body s).2 /\
  (opened s <= opened (get_connection connect body s).2)%nat.
Proof.
  destruct s as [sz pool use cl op]. cbn. intros Hsize -> -> Hlen Hopen.
  assert (Hroom : (Z.of_nat 0 <? sz)%Z = true) by (apply Z.ltb_lt; lia).
  destruct pool as [|c [|c' rest]]; cbn in Hlen, Hopen; [| |lia]; subst op.
  - destruct connect as [e|]; unfold get_connection, enter; cbn -[Z.ltb].
    + unfold DBManager.reraise_pool. destruct (isinstance e PyodbcError); cbn;
        split_and!; done || lia.
    + unfold exit. cbn -[Z.ltb]. rewrite Hroom. cbn.
      destruct (decide (0%nat <> 0%nat)); [congruence|]. cbn. split_and!; done || lia.
  - unfold get_connection, enter, exit; cbn -[Z.ltb]. rewrite Hroom. cbn.
    destruct (decide (c <> c)); [congruence|]. cbn. split_and!; done || lia.
Qed.

(** X14. One caller making its calls one after the other, with a pool of
    size at least one, opens at most one connection however many calls it
    makes and however they end: every call after the first successful
    connect reuses that connection, even after a body that raised. *)
Theorem sequential_calls_share_one_connection {A} (size : Z)
        (calls : list (option exn * result A)) :
  (1 <= size)%Z ->
  (opened (sequential calls (init size)) <= 1)%nat /\
  length (_pool (sequential calls (init size))) = opened (sequential calls (init size)) /\
  in_use (sequential calls (init size)) = [] /\
  closed (sequential calls (init size)) = [].
Proof.
  intros Hsize.
  assert (Hgen : forall s,
    (1 <= pool_size s)%Z -> in_use s = [] -> closed s = [] ->
    (length (_pool s) <= 1)%nat -> length (_pool s) = opened s ->
    (opened (sequential calls s) <= 1)%nat /\
    length (_pool (sequential calls s)) = opened (sequential calls s) /\
    in_use (sequential calls s) = [] /\ closed (sequential calls s) = []).
  { induction calls as [|call calls IH]; intros s H1 H2 H3 H4 H5.
    - cbn. split_and!; try done. lia.
    - cbn. destruct (get_connection_idle call.1 (fun _ => call.2) s H1 H2 H3 H4 H5)
        as (G1 & G2 & G3 & G4 & G5 & _).
      apply IH; try done. lia. }
  apply Hgen; cbn; done || lia.
Qed.
End PoolProperties.

Lemma sequential_calls_share_one_connection_witness :
  (ConnectionPool.opened
     (ConnectionPool.sequential
        [(None, Ok 1%Z); (None, Raise (Exn PyodbcError "Deadlock victim")); (None, Ok 2%Z)]
        (ConnectionPool.init 5)) <= 1)%nat /\
  length (ConnectionPool._pool
            (ConnectionPool.sequential
               [(None, Ok 1%Z); (None, Raise (Exn PyodbcError "Deadlock victim"));
                (None, Ok 2%Z)]
               (ConnectionPool.init 5)))
  = ConnectionPool.opened
      (ConnectionPool.sequential
         [(None, Ok 1%Z); (None, Raise (Exn PyodbcError "Deadlock victim")); (None, Ok 2%Z)]
         (ConnectionPool.init 5)) /\
  ConnectionPool.in_use
    (ConnectionPool.sequential
       [(None, Ok 1%Z); (None, Raise (Exn PyodbcError "Deadlock victim")); (None, Ok 2%Z)]
       (ConnectionPool.init 5)) = [] /\
  ConnectionPool.closed
    (ConnectionPool.sequential
       [(None, Ok 1%Z); (None, Raise (Exn PyodbcError "Deadlock victim")); (None, Ok 2%Z)]
       (ConnectionPool.init 5)) = [].
Proof.
  apply (sequential_calls_share_one_connection 5
           [(None, Ok 1%Z); (None, Raise (Exn PyodbcError "Deadlock victim"));
            (None, Ok 2%Z)]).
  lia.
Defined.

(** ** The hash file *)

Section HashFile.
Import TestFile HashManager.

Lemma lookup_dict_set (k : string) (v : json) (fields : list (string * json)) :
  lookup_field k (dict_set k v fields) = Some v.
Proof.
  unfold lookup_field. induction fields as [|[k' v'] rest IH]; cbn.
  - by rewrite String.eqb_refl.
  - destruct (String.eqb k' k) eqn:Hk; cbn; rewrite Hk; [done|exact IH].
Qed.

Lemma lookup_dict_set_ne (k other : string) (v : json) (fields : list (string * json)) :
  other <> k ->
  lookup_field other (dict_set k v fields) = lookup_field other fields.
Proof.
  intros Hne.
  assert (Hko : String.eqb k other = false) by (apply String.eqb_neq; congruence).
  unfold lookup_field. induction fields as [|[k' v'] rest IH]; cbn.
  - by rewrite Hko.
  - destruct (String.eqb k' k) eqn:Hk; cbn.
    + apply String.eqb_eq in Hk as ->. by rewrite Hko.
    + destruct (String.eqb k' other); [done|exact IH].
Qed.

(** What a save that returned [True] has written. *)
Lemma save_hashes_written (env : Env) (file_name : string) (hash_value : option string)
      (file file' : option Content) :
  save_hashes env file_name hash_value file = (true, file') ->
  exists fields,
    file' = Some (Json (JObj (dict_set file_name (of_hash hash_value) fields))) /\
    (match file with
     | Some (Json (JObj old)) => read_fault env = None -> fields = old
     | _ => True
     end) /\
    ((file = None \/ file = Some Garbage \/ is_Some (read_fault env)) -> fields = []).
Proof.
  unfold save_hashes, json_load.
  destruct file as [[v|]|].
  - destruct (read_fault env) as [e|] eqn:Hread.
    + cbn. destruct (open_fault env); [discriminate|].
      destruct (dump_fault env) as [[e1 c1]|]; [discriminate|].
      intros [= <-]. exists []. split; [done|].
      split; [by destruct v|done].
    + destruct v as [| | | | |old]; cbn; try discriminate.
      destruct (open_fault env); [discriminate|].
      destruct (dump_fault env) as [[e1 c1]|]; [discriminate|].
      intros [= <-]. exists old. split; [done|]. split; [done|].
      intros [H|[H|[e He]]]; discriminate.
  - assert (Hdata : match read_fault env with
                    | Some e => Raise e
                    | None => Raise (Exn ValueError "Expecting value")
                    end = Raise (default (Exn ValueError "Expecting value")
                                         (read_fault env)) :> result json)
      by (by destruct (read_fault env)).
    rewrite Hdata. cbn. destruct (open_fault env); [discriminate|].
    destruct (dump_fault env) as [[e1 c1]|]; [discriminate|].
    intros [= <-]. by exists [].
  - cbn. destruct (open_fault env); [discriminate|].
    destruct (dump_fault env) as [[e1 c1]|]; [discriminate|].
    intros [= <-]. by exists [].
Qed.

(** X15. Round trip: after a save that returned [True], a read that meets
    no fault gives back the saved value; and [hash_exists] is then true
    exactly when the value saved was not [None]. *)
Theorem save_hashes_get_hash (env env' : Env) (file_name : string)
        (hash_value : option string) (file file' : option Content) :
  save_hashes env file_name hash_value file = (true, file') ->
  read_fault env' = None ->
  get_hash env' file_name file' = Ok (of_hash hash_value) /\
  hash_exists env' file_name file' = Ok (bool_decide (is_Some hash_value)).
Proof.
  intros Hsave Hread.
  destruct (save_hashes_written _ _ _ _ _ Hsave) as (fields & -> & _).
  assert (Hget : get_hash env' file_name
                   (Some (Json (JObj (dict_set file_name (of_hash hash_value) fields))))
                 = Ok (of_hash hash_value)).
  { unfold get_hash, load_hashes, json_load. rewrite Hread. cbn.
    by rewrite lookup_dict_set. }
  split; [exact Hget|]. unfold hash_exists. rewrite Hget. cbn.
  by destruct hash_value as [h|].
Qed.

(** X16. A save into a readable file that holds an object keeps every other
    entry: looking up another name gives what it gave before. *)
Theorem save_hashes_keeps_other_entries (env env' : Env) (file_name other : string)
        (hash_value : option string) (old : list (string * json))
        (file' : option Content) :
  save_hashes env file_name hash_value (Some (Json (JObj old))) = (true, file') ->
  read_fault env = None ->
  read_fault env' = None ->
  other <> file_name ->
  get_hash env' other file' = get_hash env' other (Some (Json (JObj old))).
Proof.
  intros Hsave Hread Hread' Hne.
  destruct (save_hashes_written _ _ _ _ _ Hsave) as (fields & -> & Hold & _).
  rewrite (Hold Hread).
  unfold get_hash, load_hashes, json_load. rewrite Hread'. cbn.
  by rewrite lookup_dict_set_ne.
Qed.


(** X18. When the file holds valid JSON that is not an object, [save_hashes]
    returns [False] and leaves the file as it is; [get_hash] and
    [hash_exists] then raise [AttributeError] if the value is an array or
    a string, and report the name as unknown if it is a number, a boolean
    or [null]. *)
Theorem hash_file_not_an_object (env : Env) (file_name : string)
        (hash_value : option string) (v : json) :
  read_fault env = None ->
  (forall fields, v <> JObj fields) ->
  save_hashes env file_name hash_value (Some (Json v)) = (false, Some (Json v)) /\
  match v with
  | JArr _ | JStr _ =>
      (exists e, get_hash env file_name (Some (Json v)) = Raise e /\
                 exn_cls e = AttributeError) /\
      (exists e, hash_exists env file_name (Some (Json v)) = Raise e /\
                 exn_cls e = AttributeError)
  | _ =>
      get_hash env file_name (Some (Json v)) = Ok JNull /\
      hash_exists env file_name (Some (Json v)) = Ok false
  end.
Proof.
  intros Hread Hobj.
  unfold save_hashes, hash_exists, get_hash, load_hashes, json_load. rewrite Hread.
  destruct v as [|b|n|s|items|fields]; cbn; try (split; [done|by split]).
  - split; [done|]. split; by eexists.
  - split; [done|]. split; by eexists.
  - by destruct (Hobj fields).
Qed.
End HashFile.

Lemma save_hashes_get_hash_witness :
  HashManager.get_hash HashManager.no_fault "f.zip"
    (HashManager.save_hashes HashManager.no_fault "f.zip" (Some "ab12")
       (Some (HashManager.Json (TestFile.JObj [("g.zip", TestFile.JStr "cd34")])))).2
  = Ok (TestFile.JStr "ab12") /\
  HashManager.hash_exists HashManager.no_fault "f.zip"
    (HashManager.save_hashes HashManager.no_fault "f.zip" (Some "ab12")
       (Some (HashManager.Json (TestFile.JObj [("g.zip", TestFile.JStr "cd34")])))).2
  = Ok (bool_decide (is_Some (Some "ab12"))).
Proof.
  apply (save_hashes_get_hash HashManager.no_fault HashManager.no_fault "f.zip"
           (Some "ab12")
           (Some (HashManager.Json (TestFile.JObj [("g.zip", TestFile.JStr "cd34")]))));
    reflexivity.
Defined.

Lemma save_hashes_keeps_other_entries_witness :
  HashManager.get_hash HashManager.no_fault "g.zip"
    (HashManager.save_hashes HashManager.no_fault "f.zip" (Some "ab12")
       (Some (HashManager.Json (TestFile.JObj [("g.zip", TestFile.JStr "cd34")])))).2
  = HashManager.get_hash HashManager.no_fault "g.zip"
      (Some (HashManager.Json (TestFile.JObj [("g.zip", TestFile.JStr "cd34")]))).
Proof.
  apply (save_hashes_keeps_other_entries HashManager.no_fault HashManager.no_fault
           "f.zip" "g.zip" (Some "ab12") [("g.zip", TestFile.JStr "cd34")]);
    try reflexivity.
  discriminate.
Defined.


Lemma hash_file_not_an_object_witness :
  HashManager.save_hashes HashManager.no_fault "f.zip" (Some "ab12")
    (Some (HashManager.Json (TestFile.JArr [])))
  = (false, Some (HashManager.Json (TestFile.JArr []))) /\
  (exists e, HashManager.get_hash HashManager.no_fault "f.zip"
               (Some (HashManager.Json (TestFile.JArr []))) = Raise e /\
             exn_cls e = AttributeError) /\
  (exists e, HashManager.hash_exists HashManager.no_fault "f.zip"
               (Some (HashManager.Json (TestFile.JArr []))) = Raise e /\
             exn_cls e = AttributeError).
Proof.
  apply (hash_file_not_an_object HashManager.no_fault "f.zip" (Some "ab12")
           (TestFile.JArr [])).
  - reflexivity.
  - intros fields. discriminate.
Defined.

(** ** The page loop *)

Lemma string_app_inj_l (a x y : string) : a +:+ x = a +:+ y -> x = y.
Proof. induction a as [|c a IH]; cbn; [done|]. intros [= H]. by apply IH. Qed.

#[local] Instance format_url_inj (url text : string) :
  Inj (=) (=) (DatoidPages.format_url url text).
Proof.
  intros i j. unfold DatoidPages.format_url. intros H.
  do 4 apply string_app_inj_l in H. by apply str_of_nat_inj.
Qed.

Section PageLoop.
Import DatoidCrawler DatoidPages.
Variable repr_float : spec_float -> string.
Variable guess_extension : string -> option string.
Variable st : Settings.
Variable folder : string.
Variable job_id : Z.
Variable url keyword : string.
Variable pages : nat -> PageEnv.

Local Abbreviation crawl_loop :=
  (crawl_loop repr_float guess_extension st folder job_id url keyword pages).

(** One pass of the loop on a page that does not continue: the loop
    ends there, with that page as its only visit. *)
Lemma crawl_loop_stops (fuel page : nat) (fs : gset string) (db : DBManager.Database) :
  continues (pages (S page)) = false ->
  exists runs fs' db' added errs,
    crawl_loop (S fuel) page fs db
    = Some ([ {| page_number := S page;
                 formatted_url := format_url url keyword (S page);
                 page_runs := runs |} ], fs', db') /\
    fs ⊆ fs' /\ records job_id added errs db db'.
Proof.
  intros Hstop. unfold continues in Hstop. cbn [DatoidPages.crawl_loop].
  destruct (driver_get (pages (S page))) as [[]|e].
  2:{ exists None, fs, db, [], []. split; [done|]. split; [done|apply records_refl]. }
  unfold crawl_page.
  destruct (wait_items (pages (S page))) as [[]|e].
  2:{ exists None, fs, db, [], []. split; [done|]. split; [done|apply records_refl]. }
  destruct (find_elements (pages (S page))) as [items|e].
  2:{ exists None, fs, db, [], []. split; [done|]. split; [done|apply records_refl]. }
  destruct (crawl_items_frame repr_float guess_extension st folder job_id items fs db)
    as (runs & added & errs & -> & Hrec & Hsub).
  cbn [mbind option_bind]. unfold find_next_button.
  destruct (next_button (pages (S page))) as [[]|e]; [discriminate|].
  exists (Some runs), (final_files runs fs), (final_database runs db), added, errs.
  split; [|done]. by destruct (isinstance e TimeoutException).
Qed.

Lemma crawl_loop_continues (fuel page : nat) (fs : gset string)
      (db : DBManager.Database) :
  continues (pages (S page)) = true ->
  exists runs added errs,
    crawl_loop (S fuel) page fs db
    = ('(visits, fs'', db'') ← crawl_loop fuel (S page) (final_files runs fs)
                                 (final_database runs db);
       Some ({| page_number := S page;
                formatted_url := format_url url keyword (S page);
                page_runs := Some runs |} :: visits, fs'', db'')) /\
    fs ⊆ final_files runs fs /\
    records job_id added errs db (final_database runs db).
Proof.
  intros Hgo. unfold continues in Hgo. cbn [DatoidPages.crawl_loop].
  destruct (driver_get (pages (S page))) as [[]|e]; [|discriminate].
  unfold crawl_page.
  destruct (wait_items (pages (S page))) as [[]|e]; [|discriminate].
  destruct (find_elements (pages (S page))) as [items|e]; [|discriminate].
  destruct (crawl_items_frame repr_float guess_extension st folder job_id items fs db)
    as (runs & added & errs & -> & Hrec & Hsub).
  cbn [mbind option_bind]. unfold find_next_button.
  destruct (next_button (pages (S page))) as [[]|e]; [|discriminate].
  by exists runs, added, errs.
Qed.

Lemma crawl_loop_visits (k fuel page : nat) (fs : gset string)
      (db : DBManager.Database) :
  (1 <= k <= fuel)%nat ->
  (forall j, (page < j < page + k)%nat -> continues (pages j) = true) ->
  continues (pages (page + k)) = false ->
  exists visits fs' db' added errs,
    crawl_loop fuel page fs db = Some (visits, fs', db') /\
    page_number <$> visits = seq (S page) k /\
    formatted_url <$> visits = format_url url keyword <$> seq (S page) k /\
    fs ⊆ fs' /\ records job_id added errs db db'.
Proof.
  revert fuel page fs db. induction k as [|k IH]; intros fuel page fs db Hk Hgo Hstop;
    [lia|].
  destruct fuel as [|fuel]; [lia|].
  destruct (decide (k = 0)) as [->|Hk0].
  - replace (page + 1)%nat with (S page) in Hstop by lia.
    destruct (crawl_loop_stops fuel page fs db Hstop)
      as (runs & fs' & db' & added & errs & -> & Hsub & Hrec).
    by eexists _, fs', db', added, errs.
  - destruct (crawl_loop_continues fuel page fs db) as (runs & added1 & errs1 & -> & Hsub1 & Hrec1).
    { apply Hgo. lia. }
    destruct (IH fuel (S page) (final_files runs fs) (final_database runs db))
      as (visits & fs' & db' & added2 & errs2 & -> & Hnum & Hurl & Hsub2 & Hrec2).
    { lia. }
    { intros j Hj. apply Hgo. lia. }
    { replace (S page + k)%nat with (page + S k)%nat by lia. exact Hstop. }
    cbn [mbind option_bind].
    eexists _, fs', db', (added1 ++ added2), (errs1 ++ errs2).
    split; [reflexivity|]. cbn [fmap list_fmap page_number formatted_url seq].
    fold (fmap (M := list) page_number visits). fold (fmap (M := list) formatted_url visits).
    rewrite Hnum, Hurl. split_and!; try done.
    + by etrans.
    + by eapply records_trans.
Qed.

(** X19. [crawl] loads the pages 1, 2, 3, ... under the addresses
    [format_url] gives, which are pairwise different, and stops at the
    first page that fails to load, whose items cannot be found, or that
    has no button to a next page, whatever came before. When that is
    page [k] it has visited exactly the pages 1 to [k]. It deletes no
    file and only appends to [Crack] and [Error]. *)
Theorem crawl_visits_pages_until_stop (k fuel : nat) (fs : gset string)
        (db : DBManager.Database) :
  (1 <= k <= fuel)%nat ->
  (forall j, (1 <= j < k)%nat -> continues (pages j) = true) ->
  continues (pages k) = false ->
  exists visits fs' db' added errs,
    crawl repr_float guess_extension st folder job_id url keyword pages fuel fs db
    = Some (visits, fs', db') /\
    page_number <$> visits = seq 1 k /\
    formatted_url <$> visits = format_url url keyword <$> seq 1 k /\
    NoDup (formatted_url <$> visits) /\
    fs ⊆ fs' /\ records job_id added errs db db'.
Proof.
  intros Hk Hgo Hstop. unfold crawl.
  destruct (crawl_loop_visits k fuel 0 fs db Hk)
    as (visits & fs' & db' & added & errs & Hrun & Hnum & Hurl & Hsub & Hrec).
  { intros j Hj. apply Hgo. lia. }
  { exact Hstop. }
  exists visits, fs', db', added, errs. split_and!; try done.
  rewrite Hurl. apply (NoDup_fmap_2 _), NoDup_seq.
Qed.

(** X20. The loop has no page limit of its own: as long as every page loads
    and shows a next button, [crawl] goes on. *)
Theorem crawl_has_no_page_limit (fuel : nat) (fs : gset string)
        (db : DBManager.Database) :
  (forall j, (1 <= j)%nat -> continues (pages j) = true) ->
  crawl repr_float guess_extension st folder job_id url keyword pages fuel fs db = None.
Proof.
  intros Hgo. unfold crawl.
  assert (Hgen : forall page fs db, crawl_loop fuel page fs db = None).
  { induction fuel as [|fuel' IH]; intros page fs0 db0; [done|].
    destruct (crawl_loop_continues fuel' page fs0 db0) as (runs & _ & _ & -> & _).
    { apply Hgo. lia. }
    by rewrite IH. }
  apply Hgen.
Qed.
End PageLoop.

Lemma insert_error_never_none_witness :
  exists e,
    DBManager.insert_error first_statement_fails "Download timeout" 1 hash_db
    = (Raise e, hash_db) /\
    exn_cls e = DatabaseConnectionError.
Proof.
  destruct (insert_error_never_none first_statement_fails "Download timeout" 1 hash_db)
    as [H|(e & He & _ & Hcls)].
  - discriminate H.
  - exists e. split; [exact He|]. apply Hcls. exact first_statement_fails_driver.
Defined.

Lemma crawl_visits_pages_until_stop_witness :
  exists visits fs' db' added errs,
    DatoidPages.crawl repr_20 (fun _ => None) settings_20 "d" 7
      "https://datoid.cz" "katy perry" two_pages 5 ∅ hash_db
    = Some (visits, fs', db') /\
    DatoidPages.page_number <$> visits = seq 1 2 /\
    DatoidPages.formatted_url <$> visits
    = DatoidPages.format_url "https://datoid.cz" "katy perry" <$> seq 1 2 /\
    NoDup (DatoidPages.formatted_url <$> visits) /\
    ∅ ⊆ fs' /\ records 7 added errs hash_db db'.
Proof.
  apply (crawl_visits_pages_until_stop repr_20 (fun _ => None) settings_20 "d" 7
           "https://datoid.cz" "katy perry" two_pages 2 5 ∅ hash_db).
  - lia.
  - intros j Hj. assert (j = 1%nat) as -> by lia. reflexivity.
  - reflexivity.
Defined.

Lemma crawl_has_no_page_limit_witness :
  DatoidPages.crawl repr_20 (fun _ => None) settings_20 "d" 7
    "https://datoid.cz" "katy perry" endless_pages 100 ∅ hash_db = None.
Proof.
  apply (crawl_has_no_page_limit repr_20 (fun _ => None) settings_20 "d" 7
           "https://datoid.cz" "katy perry" endless_pages 100 ∅ hash_db).
  intros j Hj. reflexivity.
Defined.

(** ** Choosing the crawler *)

Section CrawlerChoice.
Import CrawlerType.

Lemma prefix_app_str_in (a b s : string) :
  String.prefix (a +:+ b) s = true -> Py.str_in b s = true.
Proof.
  revert s. induction a as [|c a IH]; intros s.
  - change (EmptyString +:+ b) with b. intros H.
    destruct s; cbn [Py.str_in]; by rewrite H.
  - change (String c a +:+ b) with (String c (a +:+ b)).
    destruct s as [|c' s]; cbn [String.prefix]; [discriminate|].
    destruct (ascii_dec c c'); [|discriminate].
    intros H. apply IH in H. cbn [Py.str_in]. rewrite H. apply orb_true_r.
Qed.

(** Whatever contains [a ++ b] contains [b]. *)
Lemma str_in_app_r (a b s : string) :
  Py.str_in (a +:+ b) s = true -> Py.str_in b s = true.
Proof.
  induction s as [|c s IH].
  - cbn [Py.str_in]. rewrite orb_false_r. apply prefix_app_str_in.
  - cbn [Py.str_in]. intros [H|H]%orb_true_iff.
    + by apply prefix_app_str_in in H.
    + rewrite (IH H). apply orb_true_r.
Qed.

(** X21. With the map as the module creates it, a URL gets the Datoid
    crawler exactly when [datoid.cz] occurs anywhere in its lower-cased
    text, be it host, path or query; the [https://datoid.cz] entry never
    decides anything. *)
Theorem get_crawler_datoid (url : string) :
  get_crawler CRAWLER_MAP url =
  if Py.str_in "datoid.cz" (Py.strip (lower url)) then Some DatoidCrawlerClass else None.
Proof.
  unfold get_crawler, CRAWLER_MAP. cbn [find fst snd].
  destruct (Py.str_in "https://datoid.cz" (Py.strip (lower url))) eqn:Hfull.
  - change "https://datoid.cz" with ("https://" +:+ "datoid.cz") in Hfull.
    by rewrite (str_in_app_r _ _ _ Hfull).
  - by destruct (Py.str_in "datoid.cz" (Py.strip (lower url))).
Qed.

(** X22. A domain registered anew is asked last: it decides only for URLs
    that no earlier entry matches, and cannot take a URL away from an
    entry that was there. *)
Theorem register_crawler_is_asked_last (crawler_map : list (string * crawler_class))
        (domain : string) (c : crawler_class) (url : string) :
  domain ∉ crawler_map.*1 ->
  get_crawler (register_crawler domain c crawler_map) url =
  match get_crawler crawler_map url with
  | Some earlier => Some earlier
  | None => if Py.str_in domain (Py.strip (lower url)) then Some c else None
  end.
Proof.
  unfold get_crawler. induction crawler_map as [|[d c'] rest IH]; intros Hnew.
  - cbn. by destruct (Py.str_in domain _).
  - cbn in Hnew. apply not_elem_of_cons in Hnew as [Hne Hrest].
    cbn [register_crawler].
    assert (Hd : String.eqb d domain = false) by (apply String.eqb_neq; congruence).
    rewrite Hd. cbn [find fst].
    destruct (Py.str_in d (Py.strip (lower url))); [done|]. by apply IH.
Qed.
End CrawlerChoice.

Lemma register_crawler_is_asked_last_witness :
  CrawlerType.get_crawler
    (CrawlerType.register_crawler "files.datoid.cz" (CrawlerType.OtherCrawler "FilesCrawler")
       CrawlerType.CRAWLER_MAP)
    "https://files.datoid.cz/a"
  = Some CrawlerType.DatoidCrawlerClass.
Proof.
  apply (register_crawler_is_asked_last CrawlerType.CRAWLER_MAP "files.datoid.cz"
           (CrawlerType.OtherCrawler "FilesCrawler") "https://files.datoid.cz/a").
  cbn. intros H. repeat (apply elem_of_cons in H as [H|H]; [discriminate H|]).
  by apply elem_of_nil in H.
Defined.

(** ** The scanner client *)

Section ScannerClient.
Import TestFile.

Lemma status_handlers_cases (r : result (option json)) :
  match status_handlers r with
  | Raise e => exn_cls e = VirusTotalAPIError
  | Ok v => r = Ok v \/ (v = None /\ exists e, r = Raise e)
  end.
Proof.
  destruct r as [v|e]; cbn [status_handlers]; [by left|].
  destruct (isinstance e RequestsTimeout); [right; split; [done|by exists e]|].
  destruct (isinstance e RequestException); [done|].
  by rewrite isinstance_Exception.
Qed.

(** What the part of [analyseFile] inside the [try] gives, before the
    handlers: its result does not depend on the analysis database, and
    the database changes only next to a completed verdict, by one row of
    [analysis] at most. *)
Lemma read_analysis_cases (f : StoreFault) (test_id : string) (response : Response)
      (store : Store) :
  ((read_analysis f test_id response store).2 = store /\
   forall f' store', (read_analysis f' test_id response store').1
                     = (read_analysis f test_id response store).1) \/
  (exists data status sha256 harmless malicious undetected attributes,
     body response = Ok data /\
     is_str status "completed" = true /\
     (forall f' store', (read_analysis f' test_id response store').1 = Ok (Some data)) /\
     (read_analysis f test_id response store).2
     = save_analysis f test_id status sha256 harmless malicious undetected
                     attributes store).
Proof.
  unfold read_analysis. destruct (body response) as [data|e]; [|by left].
  cbn zeta.
  match goal with
  | |- context [match ?x with Ok _ => _ | Raise _ => _ end] =>
      destruct x as [[[[[[attributes sha256] status] harmless] malicious] undetected]|e]
  end; [|by left].
  destruct (is_str status "completed") eqn:Hstatus; cbn [negb]; [|by left].
  right. by exists data, status, sha256, harmless, malicious, undetected, attributes.
Qed.

Lemma save_analysis_rows (f : StoreFault) (test_id : string)
      (status sha256 harmless malicious undetected attributes : json) (store : Store) :
  exists rows,
    analyses (save_analysis f test_id status sha256 harmless malicious undetected
                attributes store) = analyses store ++ rows /\
    (length rows <= 1)%nat.
Proof.
  unfold save_analysis. destruct (analysis_fault f).
  { exists []. split; [by rewrite app_nil_r|cbn; lia]. }
  match goal with
  | |- context [match ?x with Some _ => _ | None => _ end] => destruct x as [results|]
  end.
  - destruct (save_engines f _ results (antivirus store)) as [rows finished].
    eexists [_]. split; [reflexivity|cbn; lia].
  - eexists [_]. split; [reflexivity|cbn; lia].
Qed.

Lemma analyseFile_inner (f : StoreFault) (test_id : string) (answer : result Response)
      (store : Store) :
  exists r store',
    analyseFile f test_id answer store = (status_handlers r, store') /\
    (forall f' s', exists s'', analyseFile f' test_id answer s' = (status_handlers r, s'')) /\
    (store' = store \/
     (exists data, r = Ok (Some data)) /\
     exists rows, analyses store' = analyses store ++ rows /\ (length rows <= 1)%nat).
Proof.
  unfold analyseFile. destruct answer as [response|e].
  2:{ exists (Raise e), store. split; [done|]. split; [by eexists|by left]. }
  destruct (status_code response =? 429)%Z.
  { exists (Ok None), store. split; [done|]. split; [by eexists|by left]. }
  destruct (raise_for_status response) as [[]|e].
  2:{ exists (Raise e), store. split; [done|]. split; [by eexists|by left]. }
  destruct (read_analysis_cases f test_id response store)
    as [[Hstore Hsame]|(data & status & sha & h & m & u & attrs & _ & _ & Hres & Hstore)].
  - exists (read_analysis f test_id response store).1, store.
    split; [|split; [|by left]].
    + destruct (read_analysis f test_id response store) as [r s]. cbn in *. by subst.
    + intros f' s'. specialize (Hsame f' s').
      destruct (read_analysis f' test_id response s') as [r s]. cbn in *. subst.
      by eexists.
  - exists (Ok (Some data)), (read_analysis f test_id response store).2.
    split; [|split].
    + pose proof (Hres f store) as H.
      destruct (read_analysis f test_id response store) as [r s]. cbn in *. by subst.
    + intros f' s'. specialize (Hres f' s').
      destruct (read_analysis f' test_id response s') as [r s]. cbn in *. subst.
      by eexists.
    + right. split; [by eexists|]. rewrite Hstore. apply save_analysis_rows.
Qed.

(** X23. [analyseFile] raises nothing but [VirusTotalAPIError], whatever
    the transport raises and whatever the answer holds; and data it
    returns is a non-empty answer. *)
Theorem analyseFile_raises_only_api_error (f : StoreFault) (test_id : string)
        (answer : result Response) (store : Store) :
  match (analyseFile f test_id answer store).1 with
  | Raise e => exn_cls e = VirusTotalAPIError
  | Ok (Some data) => truthy data = true
  | Ok None => True
  end.
Proof.
  destruct (analyseFile_inner f test_id answer store) as (r & store' & Heq & _).
  pose proof (analyseFile_ready f test_id answer store) as Hready.
  rewrite Heq in Hready |- *. cbn [fst] in *.
  pose proof (status_handlers_cases r) as Hcases.
  destruct (status_handlers r) as [[data|]|e]; [|done|done].
  by destruct (Hready (Some data) eq_refl) as [?|?].
Qed.

End ScannerClient.

Section UploadProperties.
Import TestFile Upload.

(** X25. Nothing but [VirusTotalAPIError] leaves [testFile]. In particular
    the [VirusTotalRateLimitError] it raises on a 429 answer is caught by
    its own last handler and arrives as an unexpected upload error; and
    whether the sample could be stored never changes the result. *)
Theorem testFile_raises_only_api_error (env : Env) (file_name : string)
        (samples : list (string * json)) :
  match (testFile env file_name samples).1 with
  | Raise e => exn_cls e = VirusTotalAPIError /\ (testFile env file_name samples).2 = samples
  | Ok _ => True
  end /\
  (forall response,
     post env = Ok response -> status_code response = 429%Z ->
     testFile env file_name samples
     = (Raise (Exn VirusTotalAPIError
                 "Unexpected error uploading file: VirusTotal API rate limit exceeded"),
        samples)) /\
  (forall env', post env' = post env ->
     (testFile env' file_name samples).1 = (testFile env file_name samples).1).
Proof.
  assert (Hhandlers : forall e, exists e',
             upload_handlers (Raise e) = Raise e' /\ exn_cls e' = VirusTotalAPIError).
  { intros e. unfold upload_handlers.
    destruct (isinstance e RequestsTimeout); [by eexists|].
    destruct (isinstance e RequestException); [by eexists|].
    destruct (isinstance e KeyError); [by eexists|].
    rewrite isinstance_Exception. by eexists. }
  split; [|split].
  - unfold testFile, upload_body.
    destruct (post env) as [response|e].
    2:{ cbn [fst snd]. by destruct (Hhandlers e) as (e' & -> & ?). }
    destruct (status_code response =? 429)%Z.
    { cbn [fst snd]. by destruct (Hhandlers rate_limited) as (e' & -> & ?). }
    destruct (raise_for_status response) as [[]|e].
    2:{ cbn [fst snd]. by destruct (Hhandlers e) as (e' & -> & ?). }
    destruct (_ ← body response; _) as [test_id|e]; [done|].
    cbn [fst snd]. by destruct (Hhandlers e) as (e' & -> & ?).
  - intros response Hpost Hstatus. unfold testFile, upload_body.
    by rewrite Hpost, Hstatus.
  - intros env' Hpost. unfold testFile, upload_body. rewrite Hpost.
    destruct (post env) as [response|e]; [|done].
    destruct (status_code response =? 429)%Z; [done|].
    destruct (raise_for_status response) as [[]|e]; [|done].
    by destruct (_ ← body response; _) as [test_id|e].
Qed.
End UploadProperties.

Lemma testFile_raises_only_api_error_witness :
  Upload.testFile upload_limited "sample.exe" []
  = (Raise (Exn VirusTotalAPIError
              "Unexpected error uploading file: VirusTotal API rate limit exceeded"),
     []).
Proof.
  apply (proj1 (proj2 (testFile_raises_only_api_error upload_limited "sample.exe" []))
           {| TestFile.status_code := 429;
              TestFile.body := Raise (Exn ValueError "Expecting value") |});
    reflexivity.
Defined.

(** ** The budget of the analysis task *)

Section Budget.
Import TestFile Worker.

Lemma poll_sleeps (env : Env) (interval max_attempts : Z) (test_id : string)
      (fuel : nat) (data : option json) (attempts : Z) (checks0 sleeps0 : nat)
      (store0 : Store) (run : Run) :
  ready data = false ->
  poll env interval max_attempts test_id fuel data attempts checks0 sleeps0 store0
  = Some run ->
  exists c s,
    checks run = (checks0 + c)%nat /\ sleeps run = (sleeps0 + s)%nat /\
    (s <= c <= s + 1)%nat /\
    (forall d, outcome run = Ok d -> c = (if ready d then s + 1 else s)%nat).
Proof.
  revert data attempts checks0 sleeps0 store0.
  induction fuel as [|fuel IH]; intros data attempts checks0 sleeps0 store0 Hdata.
  - cbn [poll]. rewrite Hdata. cbn [negb andb].
    destruct (attempts <? max_attempts)%Z; [discriminate|].
    intros [= <-]. exists 0%nat, 0%nat. cbn. split_and!; try lia.
    intros d [= <-]. by rewrite Hdata.
  - destruct (Z.ltb_spec attempts max_attempts) as [Hlt|Hge].
    2:{ rewrite poll_exhausted by lia. intros [= <-]. exists 0%nat, 0%nat. cbn.
        split_and!; try lia. intros d [= <-]. by rewrite Hdata. }
    rewrite poll_step by done.
    destruct (analyseFile (store_fault env) test_id (answers env checks0) store0)
      as [[data'|e] store'].
    2:{ intros [= <-]. exists 1%nat, 0%nat. cbn. split_and!; try lia. intros d [=]. }
    destruct (ready data') eqn:Hready; cbn [negb].
    + rewrite poll_ready by done. intros [= <-]. exists 1%nat, 0%nat. cbn.
      split_and!; try lia. intros d [= <-]. by rewrite Hready.
    + destruct (update_state env (2 + sleeps0)).
      { intros [= <-]. exists 1%nat, 0%nat. cbn. split_and!; try lia. intros d [=]. }
      destruct (sleep interval).
      2:{ intros [= <-]. exists 1%nat, 0%nat. cbn. split_and!; try lia. intros d [=]. }
      intros Hrun. destruct (IH _ _ _ _ _ Hready Hrun) as (c & s & Hc & Hs & Hcs & Hout).
      exists (S c), (S s). split_and!; try lia.
      intros d Hd. rewrite (Hout d Hd). destruct (ready d); lia.
Qed.

(** X26. The task sleeps once after every status check that found no
    result, and not after the check that found it: it never sleeps more
    often than it checks, at most once less, and when it ends in success
    it has slept exactly once less than it has checked. *)
Theorem analyse_sample_sleeps_between_checks (st : Settings) (env : Env)
        (store0 : Store) (run : Run) :
  analyse_sample st env store0 = Some run ->
  (sleeps run <= checks run <= sleeps run + 1)%nat /\
  (forall data, outcome run = Ok data -> checks run = S (sleeps run)).
Proof.
  unfold analyse_sample.
  assert (Hfailed : forall e,
    Some {| outcome := Raise e; checks := 0; sleeps := 0; store := store0 |} = Some run ->
    (sleeps run <= checks run <= sleeps run + 1)%nat /\
    (forall data, outcome run = Ok data -> checks run = S (sleeps run))).
  { intros e [= <-]. cbn. split; [lia|]. intros d [=]. }
  destruct (update_state env 0); [apply Hfailed|].
  destruct (upload env) as [test_id|e]; [|apply Hfailed].
  destruct (update_state env 1); [apply Hfailed|].
  unfold wait_for_analysis.
  destruct (floordiv _ _) as [max_attempts|e]; [|apply Hfailed].
  destruct (poll env _ max_attempts test_id _ None 0 0 0 store0) as [run0|] eqn:Hpoll;
    [|discriminate].
  cbn [mbind option_bind].
  destruct (poll_sleeps env _ max_attempts test_id _ None 0 0 0 store0 run0 eq_refl Hpoll)
    as (c & s & Hc & Hs & Hcs & Hout).
  cbn in Hc, Hs.
  destruct (outcome run0) as [data|e] eqn:Hrun0.
  - specialize (Hout data eq_refl).
    destruct (ready data) eqn:Hready; cbn [negb].
    + destruct (update_state env (2 + sleeps run0)).
      * intros [= <-]. cbn. split; [lia|]. intros d [=].
      * intros [= <-]. split; [lia|]. intros d _. lia.
    + intros [= <-]. cbn. split; [lia|]. intros d [=].
  - intros [= <-]. split; [lia|]. rewrite Hrun0. intros d [=].
Qed.

(** X27. Settings that leave no attempt. With a check interval of zero the
    task fails with [ZeroDivisionError] once the upload is done. With a
    budget smaller than the interval, or of the opposite sign, the number
    of attempts is not positive: the task then reports a timeout without
    asking for the result even once. *)
Theorem analyse_sample_without_attempts (st : Settings) (env : Env)
        (store0 : Store) (test_id : string) :
  update_state env 0 = None -> upload env = Ok test_id -> update_state env 1 = None ->
  (vt_analysis_check_interval st = 0%Z ->
   exists msg,
     analyse_sample st env store0
     = Some {| outcome := Raise (Exn ZeroDivisionError msg);
               checks := 0; sleeps := 0; store := store0 |}) /\
  (vt_analysis_check_interval st <> 0%Z ->
   (vt_max_wait_time st / vt_analysis_check_interval st <= 0)%Z ->
   analyse_sample st env store0
   = Some {| outcome :=
               Raise (Exn TimeoutError
                        ("VirusTotal analysis timeout after "
                           +:+ Py.str_of_Z (vt_max_wait_time st
                                            / vt_analysis_check_interval st)
                           +:+ " attempts"));
             checks := 0; sleeps := 0; store := store0 |}).
Proof.
  intros Hr0 Hupload Hr1. unfold analyse_sample, wait_for_analysis, floordiv.
  rewrite Hr0, Hupload, Hr1. split.
  - intros ->. cbn. by eexists.
  - intros Hne Hle.
    assert ((vt_analysis_check_interval st =? 0)%Z = false) as -> by lia.
    by rewrite poll_exhausted by lia.
Qed.
End Budget.

Lemma analyse_sample_sleeps_between_checks_witness :
  exists run,
    Worker.analyse_sample settings_35_10 limited_then_down empty_store = Some run /\
    (Worker.sleeps run <= Worker.checks run <= Worker.sleeps run + 1)%nat /\
    (forall data, Worker.outcome run = Ok data ->
                  Worker.checks run = S (Worker.sleeps run)).
Proof.
  eexists. split; [reflexivity|].
  apply (analyse_sample_sleeps_between_checks settings_35_10 limited_then_down
           empty_store).
  reflexivity.
Defined.

Lemma analyse_sample_without_attempts_witness :
  Worker.analyse_sample settings_5_10 always_429 empty_store
  = Some {| Worker.outcome :=
              Raise (Exn TimeoutError "VirusTotal analysis timeout after 0 attempts");
            Worker.checks := 0; Worker.sleeps := 0; Worker.store := empty_store |}.
Proof.
  apply (proj2 (analyse_sample_without_attempts settings_5_10 always_429 empty_store
                  "dGVzdA==" eq_refl eq_refl eq_refl)).
  - discriminate.
  - by vm_compute.
Defined.

(** ** Setting up a crawl job *)

Section JobSetup.
Import DBManager DBInit.

Lemma sql_select_frame (table col value : string) (db db' : Database) :
  tables db' !! table = tables db !! table ->
  sql_select table col value db' = sql_select table col value db.
Proof. intros H. unfold sql_select. by rewrite H. Qed.

(** Get-or-create leaves every other table as it is. *)
Lemma get_or_create_other_tables (f : Fault) (table col value : string)
      (db : Database) (other : string) :
  other <> table ->
  tables (_get_or_create f table col value db).2 !! other = tables db !! other.
Proof.
  intros Hne. rewrite get_or_create_unfold. unfold get_connection.
  destruct (connect_fault f); [done|].
  destruct (get_or_create_body_extends f table col value db)
    as (new & (_ & _ & _ & _ & Hother & _) & _).
  destruct (get_or_create_body f table col value db) as [[id|e] db'];
    by apply Hother.
Qed.

(** A value that is found is returned, and nothing is written. *)
Lemma get_or_create_existing (table col value : string) (db : Database) (id : Z) :
  sql_select table col value db = Ok (Some id) ->
  _get_or_create no_fault table col value db = (Ok id, db).
Proof.
  intros Hsel. rewrite get_or_create_unfold.
  unfold get_connection, get_or_create_body, stmt. cbn. by rewrite Hsel.
Qed.

Lemma get_or_create_select (f : Fault) (table col value : string)
      (db db' : Database) (id : Z) :
  _get_or_create f table col value db = (Ok id, db') ->
  sql_select table col value db' = Ok (Some id).
Proof.
  intros Hrun. apply get_or_create_Ok_body in Hrun as [_ Hbody].
  by apply (get_or_create_body_Ok f table col value db).
Qed.

Lemma insert_crawl_job_cases (f : Fault) (keyword : string) (c w d : Z) (s : State) :
  (_insert_crawl_job f keyword c w d s
   = (Ok (next_job s),
      {| lookup := lookup s;
         jobs := jobs s ++ [ {| job_id := next_job s; job_keyword := keyword;
                                job_crawler := c; job_webdriver := w;
                                job_device := d |} ];
         next_job := (next_job s + 1)%Z |}) /\
   connect_fault f = None /\ execute_fault f 0 = None /\ execute_fault f 1 = None) \/
  (exists e, _insert_crawl_job f keyword c w d s = (Raise e, s)).
Proof.
  unfold _insert_crawl_job, get_connection.
  assert (Hraise : forall e0 : exn,
    exists e', (reraise_pool (A := Z) e0) = Raise e' /\
      try_except
        (try_except (Raise e') PyodbcIntegrityError
           (fun e => Raise (Exn DatabaseInsertError
                              ("Failed to create CrawlJob: " +:+ str e))))
        PyodbcError
        (fun e => Raise (Exn DatabaseInsertError
                           ("Failed to create CrawlJob: " +:+ str e)))
      = Raise e' (A := Z)).
  { intros e0. destruct (reraise_pool_cases (A := Z) e0) as (e' & -> & Hnot & _).
    exists e'. split; [done|]. unfold try_except.
    by rewrite (not_pyodbc_not_integrity e' Hnot), Hnot. }
  destruct (connect_fault f) as [e0|].
  { right. destruct (Hraise e0) as (e' & -> & Heq). cbn [fst]. rewrite Heq. by exists e'. }
  destruct (execute_fault f 0) as [e0|].
  { right. destruct (Hraise e0) as (e' & -> & Heq). cbn [fst]. rewrite Heq. by exists e'. }
  destruct (execute_fault f 1) as [e0|].
  { right. destruct (Hraise e0) as (e' & -> & Heq). cbn [fst]. rewrite Heq. by exists e'. }
  by left.
Qed.

(** X28. When [__init__] succeeds, the one [CrawlJob] row it has added
    carries the keyword and the three ids it returns, and each of these
    ids is what the lookup of the driver, the device and the URL finds in
    the database it leaves, whatever faults and concurrent inserts the
    four calls met. When it fails, no job row was added. *)
Theorem init_job_refers_to_its_lookups (fs : Faults) (url keyword driver device : string)
        (s : State) :
  match __init__ fs url keyword driver device s with
  | (Ok (w, d, c, j), s') =>
      sql_select "WebDriver" "Name" driver (lookup s') = Ok (Some w) /\
      sql_select "Device" "Name" device (lookup s') = Ok (Some d) /\
      sql_select "Crawler" "WebURL" url (lookup s') = Ok (Some c) /\
      j = next_job s /\
      jobs s' = jobs s ++ [ {| job_id := j; job_keyword := keyword; job_crawler := c;
                               job_webdriver := w; job_device := d |} ]
  | (Raise _, s') => jobs s' = jobs s /\ next_job s' = next_job s
  end.
Proof.
  unfold __init__, _insert_webdriver, _insert_device, _insert_crawler.
  destruct (_get_or_create (webdriver_fault fs) "WebDriver" "Name" driver (lookup s))
    as [[w|e] db1] eqn:H1; [|done].
  pose proof (get_or_create_other_tables (device_fault fs) "Device" "Name" device db1)
    as Hframe2.
  destruct (_get_or_create (device_fault fs) "Device" "Name" device db1)
    as [[d|e] db2] eqn:H2; [|done].
  pose proof (get_or_create_other_tables (crawler_fault fs) "Crawler" "WebURL" url db2)
    as Hframe3.
  destruct (_get_or_create (crawler_fault fs) "Crawler" "WebURL" url db2)
    as [[c|e] db3] eqn:H3; [|done].
  cbn [snd] in Hframe2, Hframe3.
  destruct (insert_crawl_job_cases (job_fault fs) keyword c w d (with_lookup db3 s))
    as [[-> _]|[e ->]]; [|done].
  cbn [lookup jobs next_job with_lookup]. split_and!; try done.
  - rewrite (sql_select_frame _ _ _ db2 db3) by (by apply Hframe3).
    rewrite (sql_select_frame _ _ _ db1 db2) by (by apply Hframe2).
    by apply (get_or_create_select (webdriver_fault fs) _ _ _ (lookup s)).
  - rewrite (sql_select_frame _ _ _ db2 db3) by (by apply Hframe3).
    by apply (get_or_create_select (device_fault fs) _ _ _ db1).
  - by apply (get_or_create_select (crawler_fault fs) _ _ _ db2).
Qed.

Lemma init_success (fs : Faults) (url keyword driver device : string)
      (s s1 : State) (w d c j : Z) :
  __init__ fs url keyword driver device s = (Ok (w, d, c, j), s1) ->
  sql_select "WebDriver" "Name" driver (lookup s1) = Ok (Some w) /\
  sql_select "Device" "Name" device (lookup s1) = Ok (Some d) /\
  sql_select "Crawler" "WebURL" url (lookup s1) = Ok (Some c) /\
  next_job s1 = (j + 1)%Z.
Proof.
  unfold __init__, _insert_webdriver, _insert_device, _insert_crawler.
  destruct (_get_or_create (webdriver_fault fs) "WebDriver" "Name" driver (lookup s))
    as [[w0|e] db1] eqn:H1; [|discriminate].
  pose proof (get_or_create_other_tables (device_fault fs) "Device" "Name" device db1)
    as Hframe2.
  destruct (_get_or_create (device_fault fs) "Device" "Name" device db1)
    as [[d0|e] db2] eqn:H2; [|discriminate].
  pose proof (get_or_create_other_tables (crawler_fault fs) "Crawler" "WebURL" url db2)
    as Hframe3.
  destruct (_get_or_create (crawler_fault fs) "Crawler" "WebURL" url db2)
    as [[c0|e] db3] eqn:H3; [|discriminate].
  cbn [snd] in Hframe2, Hframe3.
  destruct (insert_crawl_job_cases (job_fault fs) keyword c0 w0 d0 (with_lookup db3 s))
    as [[-> _]|[e ->]]; [|discriminate].
  intros [= <- <- <- <- <-]. cbn [lookup jobs next_job with_lookup]. split_and!; try done.
  - rewrite (sql_select_frame _ _ _ db2 db3) by (by apply Hframe3).
    rewrite (sql_select_frame _ _ _ db1 db2) by (by apply Hframe2).
    by apply (get_or_create_select (webdriver_fault fs) _ _ _ (lookup s)).
  - rewrite (sql_select_frame _ _ _ db2 db3) by (by apply Hframe3).
    by apply (get_or_create_select (device_fault fs) _ _ _ db1).
  - by apply (get_or_create_select (crawler_fault fs) _ _ _ db2).
Qed.

(** X29. A second crawler set up for the same driver, device and site,
    with no fault in its way, finds the three rows of the first: it gets
    the same three ids, writes nothing to the lookup tables, and adds
    only its own job, under the next job id. *)
Theorem init_again_reuses_lookups (fs : Faults)
        (url keyword keyword' driver device : string) (s s1 : State)
        (w d c j : Z) :
  __init__ fs url keyword driver device s = (Ok (w, d, c, j), s1) ->
  __init__ no_faults url keyword' driver device s1
  = (Ok (w, d, c, (j + 1)%Z),
     {| lookup := lookup s1;
        jobs := jobs s1 ++ [ {| job_id := (j + 1)%Z; job_keyword := keyword';
                                job_crawler := c; job_webdriver := w;
                                job_device := d |} ];
        next_job := (j + 2)%Z |}).
Proof.
  intros Hfirst.
  destruct (init_success _ _ _ _ _ _ _ _ _ _ _ Hfirst) as (Hw & Hd & Hc & Hnext).
  unfold __init__, _insert_webdriver, _insert_device, _insert_crawler. cbn [no_faults
    webdriver_fault device_fault crawler_fault job_fault].
  rewrite (get_or_create_existing _ _ _ _ _ Hw).
  rewrite (get_or_create_existing _ _ _ _ _ Hd).
  rewrite (get_or_create_existing _ _ _ _ _ Hc).
  unfold _insert_crawl_job, get_connection. cbn. rewrite Hnext.
  replace (j + 1 + 1)%Z with (j + 2)%Z by lia. reflexivity.
Qed.
End JobSetup.

Lemma init_again_reuses_lookups_witness :
  DBInit.__init__ DBInit.no_faults "https://datoid.cz" "roar" "chrome" "desktop"
    (DBInit.__init__ DBInit.no_faults "https://datoid.cz" "katy perry" "chrome"
       "desktop" fresh_state).2
  = (Ok (1, 1, 1, 1 + 1)%Z,
     {| DBInit.lookup :=
          DBInit.lookup
            (DBInit.__init__ DBInit.no_faults "https://datoid.cz" "katy perry" "chrome"
               "desktop" fresh_state).2;
        DBInit.jobs :=
          DBInit.jobs
            (DBInit.__init__ DBInit.no_faults "https://datoid.cz" "katy perry" "chrome"
               "desktop" fresh_state).2
          ++ [ {| DBInit.job_id := (1 + 1)%Z; DBInit.job_keyword := "roar";
                  DBInit.job_crawler := 1; DBInit.job_webdriver := 1;
                  DBInit.job_device := 1 |} ];
        DBInit.next_job := (1 + 2)%Z |}).
Proof.
  apply (init_again_reuses_lookups DBInit.no_faults "https://datoid.cz" "katy perry"
           "roar" "chrome" "desktop" fresh_state).
  vm_compute. reflexivity.
Defined.

(** ** Stripping *)

Section Stripping.
Variable p : ascii -> bool.

Lemma string_app_assoc (a b c : string) : (a +:+ b) +:+ c = a +:+ (b +:+ c).
Proof.
  induction a as [|x a IH]; [done|].
  change (String x ((a +:+ b) +:+ c) = String x (a +:+ (b +:+ c))). by rewrite IH.
Qed.

Lemma string_app_nil_r (a : string) : a +:+ EmptyString = a.
Proof.
  induction a as [|x a IH]; [done|].
  change (String x (a +:+ EmptyString) = String x a). by rewrite IH.
Qed.

Lemma rev_app_spec (s acc : string) : String.rev_app s acc = String.rev s +:+ acc.
Proof.
  unfold String.rev. revert acc. induction s as [|c s IH]; intros acc; [done|].
  cbn [String.rev_app].
  rewrite (IH (String c acc)), (IH (String c EmptyString)).
  by rewrite string_app_assoc.
Qed.

Lemma rev_cons (c : ascii) (s : string) :
  String.rev (String c s) = String.rev s +:+ String c EmptyString.
Proof. unfold String.rev at 1. cbn [String.rev_app]. apply rev_app_spec. Qed.

Lemma rev_app_distr (a b : string) :
  String.rev (a +:+ b) = String.rev b +:+ String.rev a.
Proof.
  induction a as [|c a IH].
  - change (EmptyString +:+ b) with b. change (String.rev EmptyString) with EmptyString.
    by rewrite string_app_nil_r.
  - change (String c a +:+ b) with (String c (a +:+ b)).
    by rewrite !rev_cons, IH, string_app_assoc.
Qed.

Lemma rev_involutive (s : string) : String.rev (String.rev s) = s.
Proof.
  induction s as [|c s IH]; [done|].
  rewrite rev_cons, rev_app_distr, IH. reflexivity.
Qed.

Lemma all_of_app (a b : string) : all_of p (a +:+ b) = all_of p a && all_of p b.
Proof.
  induction a as [|c a IH]; [done|].
  change (String c a +:+ b) with (String c (a +:+ b)). cbn [all_of].
  by rewrite IH, andb_assoc.
Qed.

Lemma all_of_rev (a : string) : all_of p (String.rev a) = all_of p a.
Proof.
  induction a as [|c a IH]; [done|].
  rewrite rev_cons, all_of_app, IH. cbn [all_of]. rewrite andb_true_r. apply andb_comm.
Qed.

Lemma lstrip_by_spec (s : string) :
  exists a, s = a +:+ Py.lstrip_by p s /\ all_of p a = true /\
            starts_with p (Py.lstrip_by p s) = false.
Proof.
  induction s as [|c s (a & Hs & Ha & Hstart)]; [by exists EmptyString|].
  cbn [Py.lstrip_by]. destruct (p c) eqn:Hc.
  - exists (String c a). change (String c a +:+ Py.lstrip_by p s)
      with (String c (a +:+ Py.lstrip_by p s)). cbn [all_of].
    rewrite <- Hs, Hc, Ha. by split_and!.
  - exists EmptyString. cbn [starts_with]. by split_and!.
Qed.

Lemma rstrip_by_spec (s : string) :
  exists b, s = Py.rstrip_by p s +:+ b /\ all_of p b = true /\
            ends_with p (Py.rstrip_by p s) = false.
Proof.
  unfold Py.rstrip_by, ends_with.
  destruct (lstrip_by_spec (String.rev s)) as (a & Hs & Ha & Hstart).
  exists (String.rev a). split_and!.
  - rewrite <- rev_app_distr, <- Hs. by rewrite rev_involutive.
  - by rewrite all_of_rev.
  - by rewrite rev_involutive.
Qed.

(** [strip] as Python defines it: it removes a run of the given
    characters from each end, and what is left neither begins nor ends
    with one of them. *)
Lemma strip_by_spec (s : string) :
  exists a b, s = a +:+ Py.strip_by p s +:+ b /\
              all_of p a = true /\ all_of p b = true /\
              starts_with p (Py.strip_by p s) = false /\
              ends_with p (Py.strip_by p s) = false.
Proof.
  unfold Py.strip_by.
  destruct (lstrip_by_spec s) as (a & Hs & Ha & Hstart).
  destruct (rstrip_by_spec (Py.lstrip_by p s)) as (b & Hu & Hb & Hend).
  exists a, b. split_and!; try done.
  - by rewrite <- Hu.
  - rewrite Hu in Hstart.
    by destruct (Py.rstrip_by p (Py.lstrip_by p s)).
Qed.
End Stripping.

(** X30. When the response carries a [Content-Disposition] header with a
    [filename=] part, the name [_get_file_name] returns is what follows
    the last [filename=], less the quote characters at its two ends: it
    neither begins nor ends with a single or double quote, it does not
    depend on the URL or on the content type, and nothing but quotes was
    removed (quotes inside the name, and parameters after it, stay). *)
Theorem get_file_name_unquoted (guess_extension : string -> option string)
        (response : Downloader.Response) (url content_disposition : string) :
  Downloader.headers response !! "content-disposition" = Some content_disposition ->
  Py.str_in "filename=" content_disposition = true ->
  exists a b,
    default EmptyString (last (Py.split "filename=" content_disposition))
    = a +:+ Downloader._get_file_name guess_extension response url +:+ b /\
    all_of is_quote a = true /\ all_of is_quote b = true /\
    starts_with is_quote (Downloader._get_file_name guess_extension response url) = false /\
    ends_with is_quote (Downloader._get_file_name guess_extension response url) = false.
Proof.
  intros Hheader Hin. unfold Downloader._get_file_name. rewrite Hheader, Hin.
  assert (Htruthy : Py.truthy (Some content_disposition) = true).
  { destruct content_disposition; [discriminate Hin|done]. }
  rewrite Htruthy. cbn [andb]. unfold Py.strip_chars.
  apply (strip_by_spec is_quote).
Qed.

Lemma get_file_name_unquoted_witness :
  exists a b,
    default EmptyString
      (last (Py.split "filename="
               ("attachment; filename=" +:+ Downloader.QUOTES +:+ "report.pdf"
                  +:+ String (ascii_of_nat 34) EmptyString)))
    = a +:+ Downloader._get_file_name (fun _ => None) quoted_name_response
              "http://host/download?id=7" +:+ b /\
    all_of is_quote a = true /\ all_of is_quote b = true /\
    starts_with is_quote
      (Downloader._get_file_name (fun _ => None) quoted_name_response
         "http://host/download?id=7") = false /\
    ends_with is_quote
      (Downloader._get_file_name (fun _ => None) quoted_name_response
         "http://host/download?id=7") = false.
Proof.
  apply (get_file_name_unquoted (fun _ => None) quoted_name_response
           "http://host/download?id=7").
  - reflexivity.
  - reflexivity.
Defined.

Example get_file_name_report :
  Downloader._get_file_name (fun _ => None) quoted_name_response
    "http://host/download?id=7" = "report.pdf".
Proof. reflexivity. Qed.
